(** * GRISERA core (MongoDB back end): related-document expansion and
      scenario ordering

    A shallow embedding of the five service modules
    (service_mixins, dataset, measure, activity_execution, scenario) and
    the properties of their read, write and ordering operations. *)

From stdpp Require Import gmap strings list fin_maps pretty.
From Stdlib Require Import ZArith Lia.

#[local] Set Warnings "-register-all".
#[local] Open Scope Z_scope.
#[local] Open Scope string_scope.

(** ** Python values *)

(** The pydantic model classes of the [grisera] package that the services
    instantiate or inspect with [type(x) is C]. *)
Inductive PyClass :=
| NotFoundByIdModel
| DatasetIn | DatasetOut
| MeasureIn | MeasureOut | BasicMeasureOut | MeasuresOut
| MeasurePropertyIn | MeasureRelationIn
| ActivityExecutionIn | ActivityExecutionOut | BasicActivityExecutionOut
| ActivityExecutionsOut | ActivityExecutionPropertyIn
| ActivityExecutionRelationIn
| ActivityOut | ArrangementOut | ExperimentOut | MeasureNameOut
| ScenarioIn | ScenarioOut | OrderChangeIn | OrderChangeOut.

#[global] Instance PyClass_eq_dec : EqDecision PyClass.
Proof. solve_decision. Defined.

(** Values the services pass around: identifiers are [str], [int] or
    [None]; records are dicts; typed results are model instances, a class
    together with its field dict. *)
Inductive Value :=
| VNone
| VInt (z : Z)
| VStr (s : string)
| VDate (day : Z)
| VDateTime (day : Z) (time : Z)
| VList (l : list Value)
| VDict (d : gmap string Value)
| VObj (c : PyClass) (d : gmap string Value).

#[global] Instance Value_eq_dec : EqDecision Value.
Proof.
  refine (fix go (x y : Value) {struct x} : Decision (x = y) :=
    let _ : EqDecision Value := @go in
    match x, y with
    | VNone, VNone => left _
    | VInt a, VInt b => cast_if (decide (a = b))
    | VStr a, VStr b => cast_if (decide (a = b))
    | VDate a, VDate b => cast_if (decide (a = b))
    | VDateTime a s, VDateTime b t =>
        cast_if_and (decide (a = b)) (decide (s = t))
    | VList a, VList b => cast_if (decide (a = b))
    | VDict a, VDict b => cast_if (decide (a = b))
    | VObj c a, VObj c' b => cast_if_and (decide (c = c')) (decide (a = b))
    | _, _ => right _
    end); abstract congruence.
Defined.

Abbreviation Dict := (gmap string Value).

(** [type(v) is c] *)
Definition type_is (v : Value) (c : PyClass) : bool :=
  match v with
  | VObj c' _ => bool_decide (c' = c)
  | _ => false
  end.

(** [v is None] *)
Definition is_None (v : Value) : bool :=
  match v with VNone => true | _ => false end.

(** [model.dict()]: pydantic turns the instance and every nested model
    instance into plain dicts. *)
Fixpoint to_plain (v : Value) : Value :=
  match v with
  | VList l => VList (to_plain <$> l)
  | VDict d => VDict (to_plain <$> d)
  | VObj _ d => VDict (to_plain <$> d)
  | _ => v
  end.

(** ** Calls that leave the service layer

    Every invocation of the storage gateway ([self.mongo_api_service]) and
    of a collaborator service whose implementation is outside the five
    modules is recorded, in order. *)
Inductive Call :=
| MongoCreateDocument (obj : Value) (dataset : string)
| MongoCreateDocumentFromDict (d : Value) (collection dataset : string)
| MongoGetDocument (id : Value) (collection dataset : string)
| MongoGetDocuments (collection dataset : string) (query : Dict)
| MongoUpdateDocument (id obj : Value) (dataset : string)
| MongoUpdateDocumentWithDict (collection : string) (id d : Value)
    (dataset : string)
| MongoDeleteDocument (obj : Value) (dataset : string)
| ActivityGetActivity (id : Value) (dataset : string)
| ActivityGetMultiple (dataset : string) (query : Dict) (depth : Z)
    (source : string) (projection : Dict)
| ActivityAddActivityExecution (ae : Value) (dataset : string)
| ActivityRemoveActivityExecution (ae : Value) (dataset : string)
| ActivityUpdateActivityExecution (id d : Value) (dataset : string)
| ArrangementGetArrangement (id : Value) (dataset : string)
| ArrangementGetSingleDict (id : Value) (dataset : string) (depth : Z)
    (source : string)
| ParticipationGetMultiple (dataset : string) (query : Dict) (depth : Z)
    (source : string)
| ExperimentGetExperiment (id : Value) (dataset : string) (depth : Z)
    (source : string)
| MeasureNameGetMeasureName (id : Value) (dataset : string)
| MeasureNameGetSingleDict (id : Value) (dataset : string) (depth : Z)
    (source : string)
| TimeSeriesGetMultiple (dataset : string) (query : Dict) (depth : Z)
    (source : string).

(** ** The effect monad: storage state, call log, exceptions *)

Inductive Exc :=
| KeyError | TypeError | AttributeError | ValueError | IndexError
| RecursionError | InvalidId | ValidationError.

Inductive Outcome (A : Type) :=
| Ok (a : A)
| Raised (e : Exc).
Arguments Ok {A} a.
Arguments Raised {A} e.

(** The database: the documents of every collection of every dataset, in
    storage order, keyed by (dataset, collection). *)
Abbreviation Mongo := (gmap (string * string) (list Value)).

Definition M (A : Type) : Type := Mongo -> Outcome A * Mongo * list Call.

Definition ret {A} (a : A) : M A := fun m => (Ok a, m, []).

Definition raise {A} (e : Exc) : M A := fun m => (Raised e, m, []).

Definition bind {A B} (c : M A) (k : A -> M B) : M B := fun m =>
  match c m with
  | (Ok a, m1, l1) =>
      match k a m1 with (r, m2, l2) => (r, m2, (l1 ++ l2)%list) end
  | (Raised e, m1, l1) => (Raised e, m1, l1)
  end.

Declare Scope py_scope.
Delimit Scope py_scope with py.
Notation "x <- c ;; k" := (bind c (fun x => k))
  (at level 100, c at next level, right associativity) : py_scope.
Notation "c ;;; k" := (bind c (fun _ => k))
  (at level 100, right associativity) : py_scope.
#[local] Open Scope py_scope.

(** A recorded call: [f] is what the callee does to the database. *)
Definition invoke {A} (c : Call) (f : Mongo -> Outcome A * Mongo) : M A :=
  fun m => let '(r, m') := f m in (r, m', [c]).

(** A call that only reads the database. *)
Definition query {A} (c : Call) (f : Mongo -> A) : M A :=
  invoke c (fun m => (Ok (f m), m)).

(** A call that may write the database. *)
Definition command {A} (c : Call) (f : Mongo -> A * Mongo) : M A :=
  invoke c (fun m => let '(a, m') := f m in (Ok a, m')).

(** [[f(x) for x in l]] and [for x in l: f(x)] *)
Fixpoint mapM {A B} (f : A -> M B) (l : list A) : M (list B) :=
  match l with
  | [] => ret []
  | x :: l' => y <- f x ;; ys <- mapM f l' ;; ret (y :: ys)
  end.

Fixpoint foldM {A B} (f : A -> B -> M A) (a : A) (l : list B) : M A :=
  match l with
  | [] => ret a
  | x :: l' => a' <- f a x ;; foldM f a' l'
  end.

Definition result {A} (r : Outcome A * Mongo * list Call) : Outcome A :=
  r.1.1.
Definition db {A} (r : Outcome A * Mongo * list Call) : Mongo := r.1.2.
Definition calls {A} (r : Outcome A * Mongo * list Call) : list Call := r.2.

(** ** Python primitives *)

(** [o.f] on a model instance; an optional field that was not given holds
    [None]. *)
Definition getattr (o : Value) (f : string) : M Value :=
  match o with
  | VObj _ d => ret (default VNone (d !! f))
  | _ => raise AttributeError
  end.

(** [d[k]] *)
Definition getitem (o : Value) (k : string) : M Value :=
  match o with
  | VDict d =>
      match d !! k with
      | Some v => ret v
      | None => raise KeyError
      end
  | _ => raise TypeError
  end.

(** [d[k] = v] *)
Definition setitem (o : Value) (k : string) (v : Value) : M Value :=
  match o with
  | VDict d => ret (VDict (<[k:=v]> d))
  | _ => raise TypeError
  end.

(** [del d[k]] *)
Definition delitem (o : Value) (k : string) : M Value :=
  match o with
  | VDict d =>
      match d !! k with
      | Some _ => ret (VDict (delete k d))
      | None => raise KeyError
      end
  | _ => raise TypeError
  end.

(** [k in d] *)
Definition contains_key (o : Value) (k : string) : M bool :=
  match o with
  | VDict d => ret (bool_decide (is_Some (d !! k)))
  | _ => raise TypeError
  end.

(** Iterating over a value, [len(v)], [v[0]]: the value must be a list. *)
Definition as_list (v : Value) : M (list Value) :=
  match v with
  | VList l => ret l
  | _ => raise TypeError
  end.

Definition first (l : list Value) : M Value :=
  match l with
  | x :: _ => ret x
  | [] => raise IndexError
  end.

(** Keyword construction of a model instance from a record the service
    read or from the fields of an instance it was given; the construction
    is taken to validate, and the coercion of field values is not
    modelled. The constructions whose argument the service assembles
    itself go through [validated] below. *)
Definition construct (c : PyClass) (v : Value) : M Value :=
  match v with
  | VDict d => ret (VObj c d)
  | _ => raise TypeError
  end.

(** [o.dict()] *)
Definition dict_of (o : Value) : M Value :=
  match o with
  | VObj _ _ => ret (to_plain o)
  | _ => raise AttributeError
  end.

(** [l.index(x)]: position of the first element equal to [x]. *)
Fixpoint index_of (x : Value) (l : list Value) : option nat :=
  match l with
  | [] => None
  | y :: l' => if decide (y = x) then Some 0%nat else S <$> index_of x l'
  end.

Definition list_index (l : list Value) (x : Value) : M nat :=
  match index_of x l with
  | Some i => ret i
  | None => raise ValueError
  end.

(** [l.insert(i, x)] for [i >= 0]: an index past the end appends. *)
Definition list_insert_at (i : nat) (x : Value) (l : list Value)
  : list Value :=
  (take i l ++ x :: drop i l)%list.

(** [l.remove(x)]: drops the first element equal to [x]. *)
Fixpoint remove_first (x : Value) (l : list Value) : option (list Value) :=
  match l with
  | [] => None
  | y :: l' =>
      if decide (y = x) then Some l' else cons y <$> remove_first x l'
  end.

Definition list_remove (l : list Value) (x : Value) : M (list Value) :=
  match remove_first x l with
  | Some l' => ret l'
  | None => raise ValueError
  end.

(** [datetime.combine(value, datetime.min.time())] on every field holding
    a [date] that is not a [datetime]. *)
Definition combine_min_time (v : Value) : Value :=
  match v with
  | VDate d => VDateTime d 0
  | _ => v
  end.

(** [d.items()] *)
Definition items (v : Value) : M (list (string * Value)) :=
  match v with
  | VDict d => ret (map_to_list d)
  | _ => raise AttributeError
  end.

Definition is_date_only (v : Value) : bool :=
  match v with VDate _ => true | _ => false end.

(** [NotFoundByIdModel(id=id, errors=errors)] *)
Definition not_found (id errors : Value) : Value :=
  VObj NotFoundByIdModel (<["id" := id]> (<["errors" := errors]> ∅)).

(** A model instance of class [c] that carries only an error payload. *)
Definition with_errors (c : PyClass) (msg : string) : Value :=
  VObj c (<["errors" := VDict (<["errors" := VStr msg]> ∅)]> ∅).

(** The keyword arguments [errors={"errors": msg}]. *)
Definition error_payload (msg : string) : Dict :=
  <["errors" := VDict (<["errors" := VStr msg]> ∅)]> ∅.

(** [str(id)] of an identifier, which is a [str], an [int] or [None]. *)
Definition str (id : Value) : string :=
  match id with
  | VStr s => s
  | VInt z => pretty z
  | _ => "None"
  end.

(** The strings [bson] takes for an object id: 24 hexadecimal digits. An
    object id is represented by its digits in lower case. *)
Definition is_hex_digit (a : Ascii.ascii) : bool :=
  let n := Ascii.N_of_ascii a in
  ((48 <=? n) && (n <=? 57) || (65 <=? n) && (n <=? 70)
   || (97 <=? n) && (n <=? 102))%N.

Definition is_object_id (s : string) : bool :=
  bool_decide (String.length s = 24%nat)
  && forallb is_hex_digit (String.list_ascii_of_string s).

Definition lower_case (s : string) : string :=
  String.string_of_list_ascii
    ((fun a =>
        let n := Ascii.N_of_ascii a in
        if ((65 <=? n) && (n <=? 90))%N then Ascii.ascii_of_N (n + 32)
        else a)
     <$> String.list_ascii_of_string s).

(** ** Collection names *)

Module Collections.
(** Modelled from the spec: mongo_service/collection_mapping.py is not
    among the sources. The constants serve both as collection names and
    as direction tags; [ACTIVITY_EXECUTION] is also the key under which
    an activity document embeds its executions. *)
Definition ACTIVITY : string := "activities".
(** Modelled from the spec: the embedded collection of executions. *)
Definition ACTIVITY_EXECUTION : string := "activity_executions".
(** Modelled from the spec: the collection of arrangements. *)
Definition ARRANGEMENT : string := "arrangements".
(** Modelled from the spec: the collection of experiments. *)
Definition EXPERIMENT : string := "experiments".
(** Modelled from the spec: the collection of measures. *)
Definition MEASURE : string := "measures".
(** Modelled from the spec: the collection of measure names. *)
Definition MEASURE_NAME : string := "measure_names".
(** Modelled from the spec: the collection of participations. *)
Definition PARTICIPATION : string := "participations".
(** Modelled from the spec: the collection of scenarios. *)
Definition SCENARIO : string := "scenarios".
(** Modelled from the spec: the collection of time series. *)
Definition TIME_SERIES : string := "time_series".
(** Modelled from the spec: the collection of datasets. *)
Definition DATASET : string := "datasets".
End Collections.

(** Modelled from the spec: [get_collection_name] of
    mongo_service/collection_mapping.py, the collection that stores the
    instances of a model class. A class without a collection is a
    [KeyError]. *)
Definition get_collection_name (c : PyClass) : M string :=
  match c with
  | DatasetIn | DatasetOut => ret Collections.DATASET
  | MeasureIn | MeasureOut | BasicMeasureOut => ret Collections.MEASURE
  | ScenarioIn | ScenarioOut => ret Collections.SCENARIO
  | ActivityOut => ret Collections.ACTIVITY
  | ArrangementOut => ret Collections.ARRANGEMENT
  | ExperimentOut => ret Collections.EXPERIMENT
  | MeasureNameOut => ret Collections.MEASURE_NAME
  | _ => raise KeyError
  end.

Definition class_of (v : Value) : M PyClass :=
  match v with
  | VObj c _ => ret c
  | _ => raise TypeError
  end.

(** ** What lies outside the five modules

    The pydantic schemas of the [grisera] models, the identifier scheme of
    the storage engine and the collaborator services are parameters: a
    read is a function of the database, a write also returns the new
    database. *)
Class Environment := {
  (** [setattr(o, f, v)] is accepted on an instance of class [c] *)
  declares : PyClass -> string -> bool;
  (** pydantic accepts the keyword arguments [d] for class [c] *)
  accepts : PyClass -> Dict -> bool;
  (** the object id that [ObjectId(None)] generates *)
  generated_object_id : Value;
  (** the identifier the storage gives a document added to a collection *)
  new_id : list Value -> Value;
  ActivityService_get_activity : Value -> string -> Mongo -> Value;
  ActivityService_get_multiple :
    string -> Dict -> Z -> string -> Dict -> Mongo -> list Value;
  ActivityService_add_activity_execution :
    Value -> string -> Mongo -> Value * Mongo;
  ActivityService_remove_activity_execution :
    Value -> string -> Mongo -> Value * Mongo;
  ActivityService_update_activity_execution :
    Value -> Value -> string -> Mongo -> Value * Mongo;
  ArrangementService_get_arrangement : Value -> string -> Mongo -> Value;
  ArrangementService_get_single_dict :
    Value -> string -> Z -> string -> Mongo -> Value;
  ParticipationService_get_multiple :
    string -> Dict -> Z -> string -> Mongo -> list Value;
  ExperimentService_get_experiment :
    Value -> string -> Z -> string -> Mongo -> Value;
  MeasureNameService_get_measure_name : Value -> string -> Mongo -> Value;
  MeasureNameService_get_single_dict :
    Value -> string -> Z -> string -> Mongo -> Value;
  TimeSeriesService_get_multiple :
    string -> Dict -> Z -> string -> Mongo -> list Value
}.

(** [setattr(o, f, v)] on a model instance: pydantic refuses a field the
    class does not declare. *)
Definition setattr `{Environment} (o : Value) (f : string) (v : Value)
  : M Value :=
  match o with
  | VObj c d =>
      if declares c f then ret (VObj c (<[f:=v]> d)) else raise ValueError
  | _ => raise AttributeError
  end.

(** [for field, value in patch.dict().items(): setattr(o, field, value)] *)
Definition setattr_all `{Environment} (o : Value)
    (fields : list (string * Value)) : M Value :=
  foldM (fun o fv => setattr o fv.1 fv.2) o fields.

(** Keyword construction of a model instance from arguments the service
    assembles itself, a hydrated scenario or an error payload of a class
    with required fields: pydantic raises when it does not accept them. *)
Definition validated `{Environment} (c : PyClass) (v : Value) : M Value :=
  match v with
  | VDict d => if accepts c d then ret (VObj c d) else raise ValidationError
  | _ => raise TypeError
  end.

(** [ObjectId(id)] of [bson]: a string of 24 hexadecimal digits gives the
    object id of these digits; any other string is an [InvalidId], [None]
    asks for a generated id, and a value of another type is a
    [TypeError]. *)
Definition ObjectId `{Environment} (id : Value) : M Value :=
  match id with
  | VNone => ret generated_object_id
  | VStr s =>
      if is_object_id s then ret (VStr (lower_case s)) else raise InvalidId
  | _ => raise TypeError
  end.

(** The collaborator services, each call recorded. *)
Module activity_service.
Section Calls.
Context `{Environment}.
Definition get_activity (id : Value) (dataset_name : string) : M Value :=
  query (ActivityGetActivity id dataset_name)
    (ActivityService_get_activity id dataset_name).
Definition get_multiple (dataset_name : string) (q : Dict) (depth : Z)
    (source : string) (projection : Dict) : M (list Value) :=
  query (ActivityGetMultiple dataset_name q depth source projection)
    (ActivityService_get_multiple dataset_name q depth source projection).
Definition add_activity_execution (ae : Value) (dataset_name : string)
  : M Value :=
  command (ActivityAddActivityExecution ae dataset_name)
    (ActivityService_add_activity_execution ae dataset_name).
Definition remove_activity_execution (ae : Value) (dataset_name : string)
  : M Value :=
  command (ActivityRemoveActivityExecution ae dataset_name)
    (ActivityService_remove_activity_execution ae dataset_name).
Definition update_activity_execution (id d : Value)
    (dataset_name : string) : M Value :=
  command (ActivityUpdateActivityExecution id d dataset_name)
    (ActivityService_update_activity_execution id d dataset_name).
End Calls.
End activity_service.

Module arrangement_service.
Section Calls.
Context `{Environment}.
Definition get_arrangement (id : Value) (dataset_name : string)
  : M Value :=
  query (ArrangementGetArrangement id dataset_name)
    (ArrangementService_get_arrangement id dataset_name).
Definition get_single_dict (id : Value) (dataset_name : string)
    (depth : Z) (source : string) : M Value :=
  query (ArrangementGetSingleDict id dataset_name depth source)
    (ArrangementService_get_single_dict id dataset_name depth source).
End Calls.
End arrangement_service.

Module participation_service.
Section Calls.
Context `{Environment}.
Definition get_multiple (dataset_name : string) (q : Dict) (depth : Z)
    (source : string) : M (list Value) :=
  query (ParticipationGetMultiple dataset_name q depth source)
    (ParticipationService_get_multiple dataset_name q depth source).
End Calls.
End participation_service.

Module experiment_service.
Section Calls.
Context `{Environment}.
Definition get_experiment (id : Value) (dataset_name : string)
    (depth : Z) (source : string) : M Value :=
  query (ExperimentGetExperiment id dataset_name depth source)
    (ExperimentService_get_experiment id dataset_name depth source).
End Calls.
End experiment_service.

Module measure_name_service.
Section Calls.
Context `{Environment}.
Definition get_measure_name (id : Value) (dataset_name : string)
  : M Value :=
  query (MeasureNameGetMeasureName id dataset_name)
    (MeasureNameService_get_measure_name id dataset_name).
Definition get_single_dict (id : Value) (dataset_name : string)
    (depth : Z) (source : string) : M Value :=
  query (MeasureNameGetSingleDict id dataset_name depth source)
    (MeasureNameService_get_single_dict id dataset_name depth source).
End Calls.
End measure_name_service.

Module time_series_service.
Section Calls.
Context `{Environment}.
Definition get_multiple (dataset_name : string) (q : Dict) (depth : Z)
    (source : string) : M (list Value) :=
  query (TimeSeriesGetMultiple dataset_name q depth source)
    (TimeSeriesService_get_multiple dataset_name q depth source).
End Calls.
End time_series_service.

(** ** The storage gateway *)

Module mongo_api_service.
Section Gateway.
Context `{Environment}.

(** Modelled from the spec: the records of a collection of a dataset. *)
Definition collection (m : Mongo) (dataset_name name : string)
  : list Value :=
  default [] (m !! (dataset_name, name)).

(** Modelled from the spec: the record carries this identifier. *)
Definition has_id (id : Value) (doc : Value) : bool :=
  match doc with
  | VDict d => bool_decide (d !! "id" = Some id)
  | _ => false
  end.

(** Modelled from the spec: a filter entry [{k: v}] holds of a record
    whose field [k] is an array with an element equal to [v], or is not
    an array and equals [v]. *)
Definition field_matches (d : Dict) (k : string) (v : Value) : bool :=
  match d !! k with
  | Some (VList l) => bool_decide (v ∈ l)
  | Some v' => bool_decide (v' = v)
  | None => false
  end.

(** Modelled from the spec: a record matches a filter when every entry
    of the filter holds of it. *)
Definition matches (q : Dict) (doc : Value) : bool :=
  match doc with
  | VDict d =>
      bool_decide (map_Forall (fun k v => field_matches d k v = true) q)
  | _ => false
  end.

(** Modelled from the spec: the record with this identifier replaced. *)
Definition replace_id (id new : Value) (docs : list Value) : list Value :=
  (fun doc => if has_id id doc then new else doc) <$> docs.

(** Modelled from the spec: a record under the identifier storage
    assigned to it. *)
Definition with_id (id : Value) (doc : Value) : Value :=
  match doc with
  | VDict d => VDict (<["id" := id]> d)
  | _ => doc
  end.

(** Modelled from the spec: mongo_service/mongo_api_service.py is not
    among the sources. [getDocument(id, collection, dataset)] returns
    the record with that id, or the NotFound sentinel carrying the id. *)
Definition get_document (id : Value) (collection_name : string)
    (dataset_name : string) : M Value :=
  query (MongoGetDocument id collection_name dataset_name) (fun m =>
    match List.find (has_id id) (collection m dataset_name collection_name)
    with
    | Some doc => doc
    | None =>
        not_found id
          (VDict (<["errors" := VStr "document not found"]> ∅))
    end).

(** Modelled from the spec: [getDocuments(collection, dataset, filter)]
    returns the records of the collection that match the filter, in
    storage order. *)
Definition get_documents (collection_name dataset_name : string)
    (q : Dict) : M (list Value) :=
  query (MongoGetDocuments collection_name dataset_name q) (fun m =>
    List.filter (matches q) (collection m dataset_name collection_name)).

(** Modelled from the spec: the dict form of [createDocument]: the
    record is appended to the collection under a new id, which is
    returned. *)
Definition create_document_from_dict (d : Value)
    (collection_name dataset_name : string) : M Value :=
  command (MongoCreateDocumentFromDict d collection_name dataset_name)
    (fun m =>
      let docs := collection m dataset_name collection_name in
      let id := new_id docs in
      (id, <[(dataset_name, collection_name) :=
               (docs ++ [with_id id d])%list]> m)).

(** Modelled from the spec: [createDocument(entity, dataset) -> id]; the
    collection is that of the entity's class. *)
Definition create_document (object_in : Value) (dataset_name : string)
  : M Value :=
  invoke (MongoCreateDocument object_in dataset_name) (fun m =>
    match (c <- class_of object_in ;; get_collection_name c) m with
    | (Ok name, _, _) =>
        let docs := collection m dataset_name name in
        let id := new_id docs in
        (Ok id, <[(dataset_name, name) :=
                    (docs ++ [with_id id (to_plain object_in)])%list]> m)
    | (Raised e, _, _) => (Raised e, m)
    end).

(** Modelled from the spec: [updateDocument(id, entity, dataset)]
    replaces the record with that id in the collection of the entity's
    class. *)
Definition update_document (id : Value) (updated_object : Value)
    (dataset_name : string) : M unit :=
  invoke (MongoUpdateDocument id updated_object dataset_name) (fun m =>
    match (c <- class_of updated_object ;; get_collection_name c) m with
    | (Ok name, _, _) =>
        (Ok (), <[(dataset_name, name) :=
           replace_id id (with_id id (to_plain updated_object))
             (collection m dataset_name name)]> m)
    | (Raised e, _, _) => (Raised e, m)
    end).

(** Modelled from the spec:
    [updateDocumentWithRawFields(collection, id, fields, dataset)]
    replaces the record with that id by the given dict. *)
Definition update_document_with_dict (collection_name : string)
    (id : Value) (d : Value) (dataset_name : string) : M unit :=
  command
    (MongoUpdateDocumentWithDict collection_name id d dataset_name)
    (fun m =>
      ((), <[(dataset_name, collection_name) :=
              replace_id id d
                (collection m dataset_name collection_name)]> m)).

(** Modelled from the spec: [deleteDocument(entity, dataset)] removes
    the record with the entity's id from the collection of the entity's
    class. *)
Definition delete_document (object_to_delete : Value)
    (dataset_name : string) : M unit :=
  invoke (MongoDeleteDocument object_to_delete dataset_name) (fun m =>
    match (c <- class_of object_to_delete ;;
           name <- get_collection_name c ;;
           id <- getattr object_to_delete "id" ;;
           ret (name, id)) m with
    | (Ok (name, id), _, _) =>
        (Ok (), <[(dataset_name, name) :=
           List.filter (fun doc => negb (has_id id doc))
             (collection m dataset_name name)]> m)
    | (Raised e, _, _) => (Raised e, m)
    end).

(** Modelled from the spec: [idInFilter(ids)], the filter fragment of
    id is one of [ids]. *)
Definition get_id_in_query (ids : list Value) : Value :=
  VDict (<["$in" := VList ids]> ∅).
End Gateway.
End mongo_api_service.

(** ** mongo_service/service_mixins.py *)

Module GenericMongoServiceMixin.
Section Mixin.
Context `{Environment}.
(** What a subclass supplies: the out model class, which determines the
    collection, and the expansion hook. The hook mutates the record in
    place; here it returns the mutated record. *)
Variable model_out_class : PyClass.
Variable _add_related_documents :
  Value -> string -> Z -> string -> M Value.

(** The loop of [create] and [update] that turns date-only fields into
    timestamps. *)
Definition normalize_dates (object_in : Value) : M Value :=
  d <- dict_of object_in ;;
  fields <- items d ;;
  foldM (fun o fv =>
           if is_date_only fv.2
           then setattr o fv.1 (combine_min_time fv.2)
           else ret o)
        object_in fields.

Definition get_multiple (dataset_name : string) (q : Dict) (depth : Z)
    (source : string) : M (list Value) :=
  collection_name <- get_collection_name model_out_class ;;
  results_dict <-
    mongo_api_service.get_documents collection_name dataset_name q ;;
  mapM (fun result =>
          _add_related_documents result dataset_name depth source)
       results_dict.

Definition get_single_dict (id : Value) (dataset_name : string)
    (depth : Z) (source : string) : M Value :=
  collection_name <- get_collection_name model_out_class ;;
  result_dict <-
    mongo_api_service.get_document id collection_name dataset_name ;;
  if type_is result_dict NotFoundByIdModel then ret result_dict
  else _add_related_documents result_dict dataset_name depth source.

Definition get_single (id : Value) (dataset_name : string) (depth : Z)
    (source : string) : M Value :=
  let out_class := model_out_class in
  result <- get_single_dict id dataset_name depth source ;;
  if type_is result NotFoundByIdModel then ret result
  else construct out_class result.

Definition create (object_in : Value) (dataset_name : string) : M Value :=
  object_in <- normalize_dates object_in ;;
  created_document_id <-
    mongo_api_service.create_document object_in dataset_name ;;
  get_single created_document_id dataset_name 0 "".

Definition update (id : Value) (updated_object : Value)
    (dataset_name : string) : M Value :=
  get_response <- get_single id dataset_name 0 "" ;;
  if type_is get_response NotFoundByIdModel then ret get_response
  else
    updated_object <- normalize_dates updated_object ;;
    mongo_api_service.update_document id updated_object dataset_name ;;;
    get_single id dataset_name 0 "".

Definition delete (id : Value) (dataset_name : string) : M Value :=
  existing_document <- get_single id dataset_name 0 "" ;;
  if is_None existing_document
  then
    ret (not_found id
           (VDict (<["errors" := VStr "document with such id not found"]>
                     ∅)))
  else
    mongo_api_service.delete_document existing_document dataset_name ;;;
    ret existing_document.
End Mixin.
End GenericMongoServiceMixin.

(** ** dataset/dataset_service_mongodb.py *)

Module DatasetServiceMongoDB.
Section Service.
Context `{Environment}.
(** [mongodb_api_config.mongo_database_name] *)
Variable mongo_database_name : string.

Definition model_out_class : PyClass := DatasetOut.

Definition _add_related_documents (participant : Value)
    (dataset_name : string) (depth : Z) (source : string) : M Value :=
  ret participant.

Definition save_dataset (dataset : Value) : M Value :=
  GenericMongoServiceMixin.create model_out_class _add_related_documents
    dataset mongo_database_name.

Definition get_datasets : M (list Value) :=
  GenericMongoServiceMixin.get_multiple model_out_class
    _add_related_documents mongo_database_name ∅ 0 "".

Definition get_dataset (dataset_id : Value) : M Value :=
  GenericMongoServiceMixin.get_single model_out_class
    _add_related_documents dataset_id mongo_database_name 0 "".

Definition delete_dataset (dataset_id : Value) : M Value :=
  GenericMongoServiceMixin.delete model_out_class _add_related_documents
    dataset_id mongo_database_name.
End Service.
End DatasetServiceMongoDB.

(** ** measure/measure_service_mongodb.py *)

Module MeasureServiceMongoDB.
Section Service.
Context `{Environment}.

Definition model_out_class : PyClass := MeasureOut.

Definition _add_related_time_series (measure : Value)
    (dataset_name : string) (depth : Z) (source : string) : M Value :=
  if decide (source ≠ Collections.TIME_SERIES) then
    id <- getitem measure "id" ;;
    time_series <-
      time_series_service.get_multiple dataset_name
        (<["measure_id" := id]> ∅) (depth - 1) Collections.MEASURE ;;
    setitem measure "time_series" (VList time_series)
  else ret measure.

Definition _add_related_measure_name (measure : Value)
    (dataset_name : string) (depth : Z) (source : string) : M Value :=
  measure_name_id <- getitem measure "measure_name_id" ;;
  let has_related_measure_name := negb (is_None measure_name_id) in
  if bool_decide (source ≠ Collections.MEASURE_NAME)
     && has_related_measure_name
  then
    measure_name <-
      measure_name_service.get_single_dict measure_name_id dataset_name
        (depth - 1) Collections.MEASURE ;;
    setitem measure "measure_name" measure_name
  else ret measure.

Definition _add_related_documents (measure : Value)
    (dataset_name : string) (depth : Z) (source : string) : M Value :=
  if (depth >? 0)%Z then
    measure <- _add_related_time_series measure dataset_name depth source ;;
    _add_related_measure_name measure dataset_name depth source
  else ret measure.

Definition create := GenericMongoServiceMixin.create model_out_class
  _add_related_documents.
Definition get_multiple := GenericMongoServiceMixin.get_multiple
  model_out_class _add_related_documents.
Definition get_single_dict := GenericMongoServiceMixin.get_single_dict
  model_out_class _add_related_documents.
Definition get_single := GenericMongoServiceMixin.get_single
  model_out_class _add_related_documents.
Definition update := GenericMongoServiceMixin.update model_out_class
  _add_related_documents.
Definition delete := GenericMongoServiceMixin.delete model_out_class
  _add_related_documents.

Definition save_measure (measure : Value) (dataset_name : string)
  : M Value :=
  measure_name_id <- getattr measure "measure_name_id" ;;
  related_mn <-
    measure_name_service.get_measure_name measure_name_id dataset_name ;;
  let mn_exists := negb (type_is related_mn NotFoundByIdModel) in
  if negb (is_None measure_name_id) && negb mn_exists
  then
    validated MeasureOut
      (VDict (error_payload "given measure name does not exist"))
  else create measure dataset_name.

Definition get_measures (dataset_name : string) (q : Dict) : M Value :=
  measures_dict <- get_multiple dataset_name q 0 "" ;;
  results <- mapM (construct BasicMeasureOut) measures_dict ;;
  ret (VObj MeasuresOut (<["measures" := VList results]> ∅)).

Definition get_measure (measure_id : Value) (dataset_name : string)
    (depth : Z) (source : string) : M Value :=
  get_single measure_id dataset_name depth source.

Definition delete_measure (measure_id : Value) (dataset_name : string)
  : M Value :=
  delete measure_id dataset_name.

Definition update_measure (measure_id : Value) (measure : Value)
    (dataset_name : string) : M Value :=
  existing_measure <- get_measure measure_id dataset_name 0 "" ;;
  d <- dict_of measure ;;
  fields <- items d ;;
  existing_measure <- setattr_all existing_measure fields ;;
  mongo_api_service.update_document measure_id existing_measure
    dataset_name ;;;
  ret existing_measure.

Definition update_measure_relationships (measure_id : Value)
    (measure : Value) (dataset_name : string) : M Value :=
  existing_measure <- get_measure measure_id dataset_name 0 "" ;;
  if type_is existing_measure NotFoundByIdModel then ret existing_measure
  else
    measure_name_id <- getattr measure "measure_name_id" ;;
    related_mn <-
      measure_name_service.get_measure_name measure_name_id dataset_name ;;
    let mn_exists := negb (type_is related_mn NotFoundByIdModel) in
    if negb (is_None measure_name_id) && negb mn_exists
    then
      validated MeasureOut
        (VDict (error_payload "given measure name does not exist"))
    else
      d <- dict_of existing_measure ;;
      existing_measure_in <- construct MeasureIn d ;;
      existing_measure_in <-
        setattr existing_measure_in "measure_name_id" measure_name_id ;;
      mongo_api_service.update_document measure_id existing_measure_in
        dataset_name ;;;
      get_measure measure_id dataset_name 0 "".
End Service.
End MeasureServiceMongoDB.

(** ** activity_execution/activity_execution_service_mongodb.py *)

Module ActivityExecutionServiceMongoDB.
Section Service.
Context `{Environment}.
(** [self.scenario_service.get_scenario_by_activity_execution], with
    arguments id, dataset, depth and multiple. *)
Variable scenario_service_get_scenario_by_activity_execution :
  Value -> string -> Z -> bool -> M Value.

Definition model_out_class : PyClass := ActivityExecutionOut.

Definition save_activity_execution (activity_execution : Value)
    (dataset_name : string) : M Value :=
  activity_id <- getattr activity_execution "activity_id" ;;
  related_activity <-
    activity_service.get_activity activity_id dataset_name ;;
  let related_activity_exists :=
    negb (type_is related_activity NotFoundByIdModel) in
  if negb (is_None activity_id) && negb related_activity_exists
  then
    ret (with_errors ActivityExecutionOut "given activity does not exist")
  else
    arrangement_id <- getattr activity_execution "arrangement_id" ;;
    related_arrangement <-
      arrangement_service.get_arrangement arrangement_id dataset_name ;;
    let related_arrangement_exists :=
      negb (type_is related_arrangement NotFoundByIdModel) in
    if negb (is_None arrangement_id) && negb related_arrangement_exists
    then
      ret (with_errors ActivityExecutionOut
             "given arrangement does not exist")
    else
      activity_service.add_activity_execution activity_execution
        dataset_name.

Definition _get_activity_projection (q : Dict) : Dict :=
  <["activity_executions" :=
      if decide (q = ∅) then VInt 1
      else VDict (<["$elemMatch" := VDict q]> ∅)]>
  (<["additional_properties" := VInt 1]>
  (<["activity_id" := VInt 1]>
  (<["arrangement_id" := VInt 1]> ∅))).

Definition _add_related_experiments (activity_execution : Value)
    (dataset_name : string) (depth : Z) (source : string) : M Value :=
  if (depth <=? 0)%Z || bool_decide (source = Collections.EXPERIMENT)
  then ret activity_execution
  else
    id <- getitem activity_execution "id" ;;
    related_scenarios <-
      scenario_service_get_scenario_by_activity_execution id dataset_name
        depth true ;;
    if type_is related_scenarios NotFoundByIdModel
    then ret activity_execution
    else
      scenarios <- as_list related_scenarios ;;
      experiments <-
        mapM (fun scenario => getattr scenario "experiment") scenarios ;;
      setitem activity_execution "experiments" (VList experiments).

Definition _add_related_participations (activity_execution : Value)
    (dataset_name : string) (depth : Z) (source : string) : M Value :=
  if decide (source ≠ Collections.PARTICIPATION) then
    id <- getitem activity_execution "id" ;;
    participations <-
      participation_service.get_multiple dataset_name
        (<["activity_execution_id" := id]> ∅) (depth - 1)
        Collections.ACTIVITY_EXECUTION ;;
    setitem activity_execution "participations" (VList participations)
  else ret activity_execution.

Definition _add_related_arrangement (activity_execution : Value)
    (dataset_name : string) (depth : Z) (source : string) : M Value :=
  arrangement_id <- getitem activity_execution "arrangement_id" ;;
  let has_related_arrangement := negb (is_None arrangement_id) in
  if bool_decide (source ≠ Collections.ARRANGEMENT)
     && has_related_arrangement
  then
    arrangement <-
      arrangement_service.get_single_dict arrangement_id dataset_name
        (depth - 1) Collections.ACTIVITY_EXECUTION ;;
    setitem activity_execution "arrangement" arrangement
  else ret activity_execution.

Definition _add_activity (activity_execution : Value)
    (dataset_name : string) (depth : Z) (source : string)
    (activity : Value) : M Value :=
  if decide (source ≠ Collections.ACTIVITY)
  then setitem activity_execution "activity" activity
  else ret activity_execution.

Definition _add_related_documents (activity_execution : Value)
    (dataset_name : string) (depth : Z) (source : string)
    (activity : Value) : M Value :=
  if (depth >? 0)%Z then
    activity_execution <-
      _add_related_arrangement activity_execution dataset_name depth
        source ;;
    activity_execution <-
      _add_related_experiments activity_execution dataset_name depth
        source ;;
    activity_execution <-
      _add_related_participations activity_execution dataset_name depth
        source ;;
    _add_activity activity_execution dataset_name depth source activity
  else ret activity_execution.

(** The query on execution fields, rewritten as a query on the array
    embedded in the activity documents. *)
Definition activity_query_of (q : Dict) : Dict :=
  list_to_map
    ((fun fv : string * Value =>
        (String.append Collections.ACTIVITY_EXECUTION
           (String.append "." fv.1), fv.2))
     <$> map_to_list q).

Definition get_multiple (dataset_name : string) (q : Dict) (depth : Z)
    (source : string) : M (list Value) :=
  let activity_query := activity_query_of q in
  activity_results <-
    activity_service.get_multiple dataset_name activity_query (depth - 1)
      Collections.ACTIVITY_EXECUTION (_get_activity_projection q) ;;
  foldM (fun result activity_result =>
           has <- contains_key activity_result "activity_executions" ;;
           if has : bool then
             embedded <- getitem activity_result "activity_executions" ;;
             activity_result <-
               delitem activity_result "activity_executions" ;;
             activity_executions <- as_list embedded ;;
             activity_executions <-
               mapM (fun activity_execution =>
                       _add_related_documents activity_execution
                         dataset_name depth source activity_result)
                    activity_executions ;;
             ret (result ++ activity_executions)%list
           else ret result)
        [] activity_results.

Definition get_single_dict (id : Value) (dataset_name : string)
    (depth : Z) (source : string) : M Value :=
  activity_execution_object_id <- ObjectId id ;;
  activity_result <-
    activity_service.get_multiple dataset_name
      (<[String.append Collections.ACTIVITY_EXECUTION ".id" :=
           activity_execution_object_id]> ∅)
      (depth - 1) Collections.ACTIVITY_EXECUTION
      (_get_activity_projection
         (<["id" := activity_execution_object_id]> ∅)) ;;
  let missing :=
    not_found id (VDict (<["errors" := VStr "activity execution not found"]>
                           ∅)) in
  match activity_result with
  | [] => ret missing
  | related_activity :: _ =>
      embedded <- getitem related_activity Collections.ACTIVITY_EXECUTION ;;
      activity_executions <- as_list embedded ;;
      match activity_executions with
      | [] => ret missing
      | activity_execution_dict :: _ =>
          related_activity <-
            delitem related_activity Collections.ACTIVITY_EXECUTION ;;
          _add_related_documents activity_execution_dict dataset_name
            depth source related_activity
      end
  end.

Definition get_single (id : Value) (dataset_name : string) (depth : Z)
    (source : string) : M Value :=
  result <- get_single_dict id dataset_name depth source ;;
  if type_is result NotFoundByIdModel then ret result
  else construct ActivityExecutionOut result.

Definition get_activity_executions (dataset_name : string) : M Value :=
  activity_execution_dicts <- get_multiple dataset_name ∅ 0 "" ;;
  activity_executions <-
    mapM (construct BasicActivityExecutionOut) activity_execution_dicts ;;
  ret (VObj ActivityExecutionsOut
         (<["activity_executions" := VList activity_executions]> ∅)).

Definition get_activity_execution (activity_execution_id : Value)
    (dataset_name : string) (depth : Z) (source : string) : M Value :=
  get_single activity_execution_id dataset_name depth source.

Definition delete_activity_execution (activity_execution_id : Value)
    (dataset_name : string) : M Value :=
  activity_execution <-
    get_activity_execution activity_execution_id dataset_name 0 "" ;;
  if type_is activity_execution NotFoundByIdModel
  then
    ret (not_found activity_execution_id
           (VDict (<["errors" := VStr "activity execution not found"]> ∅)))
  else
    activity_service.remove_activity_execution activity_execution
      dataset_name.

Definition update_activity_execution (activity_execution_id : Value)
    (activity_execution : Value) (dataset_name : string) : M Value :=
  existing_activity_execution <-
    get_activity_execution activity_execution_id dataset_name 0 "" ;;
  d <- dict_of activity_execution ;;
  fields <- items d ;;
  existing_activity_execution <-
    setattr_all existing_activity_execution fields ;;
  existing_dict <- dict_of existing_activity_execution ;;
  activity_service.update_activity_execution activity_execution_id
    existing_dict dataset_name.

Definition update_activity_execution_relationships
    (activity_execution_id : Value) (activity_execution : Value)
    (dataset_name : string) : M Value :=
  existing_activity_execution <-
    get_activity_execution activity_execution_id dataset_name 0 "" ;;
  if type_is existing_activity_execution NotFoundByIdModel
  then ret existing_activity_execution
  else
    activity_id <- getattr activity_execution "activity_id" ;;
    related_activity <-
      activity_service.get_activity activity_id dataset_name ;;
    let related_activity_exists :=
      negb (type_is related_activity NotFoundByIdModel) in
    if negb related_activity_exists
    then
      ret (with_errors ActivityExecutionOut
             "given activity does not exist")
    else
      arrangement_id <- getattr activity_execution "arrangement_id" ;;
      related_arrangement <-
        arrangement_service.get_arrangement arrangement_id dataset_name ;;
      let related_arrangement_exists :=
        negb (type_is related_arrangement NotFoundByIdModel) in
      if negb (is_None arrangement_id) && negb related_arrangement_exists
      then
        ret (with_errors ActivityExecutionOut
               "given arrangement does not exist")
      else
        d <- dict_of activity_execution ;;
        fields <- items d ;;
        existing_activity_execution <-
          setattr_all existing_activity_execution fields ;;
        existing_dict <- dict_of existing_activity_execution ;;
        activity_service.update_activity_execution activity_execution_id
          existing_dict dataset_name.
End Service.
End ActivityExecutionServiceMongoDB.

(** ** scenario/scenario_service_mongodb.py *)

Module ScenarioServiceMongoDB.
Section Service.
Context `{Environment}.
(** The methods of [self.activity_execution_service] the scenario
    service calls. *)
Variable activity_execution_service_save_activity_execution :
  Value -> string -> M Value.
Variable activity_execution_service_get_activity_execution :
  Value -> string -> Z -> string -> M Value.
Variable activity_execution_service_get_multiple :
  string -> Dict -> Z -> string -> M (list Value).

Definition model_out_class : PyClass := ScenarioOut.

Definition _add_related_documents (experiment : Value)
    (dataset_name : string) (depth : Z) (source : string) : M Value :=
  ret experiment.

Definition get_multiple := GenericMongoServiceMixin.get_multiple
  model_out_class _add_related_documents.

Definition _change_ae_ids_to_objects (scenario : Value)
    (dataset_name : string) (depth : Z) (source : string) : M Value :=
  ids <- getitem scenario "activity_executions" ;;
  activity_execution_ids <- as_list ids ;;
  objects <-
    mapM (fun ae_id =>
            activity_execution_service_get_activity_execution ae_id
              dataset_name depth source)
         activity_execution_ids ;;
  setitem scenario "activity_executions" (VList objects).

Definition _change_experiment_id_to_object (scenario : Value)
    (dataset_name : string) (depth : Z) (source : string) : M Value :=
  experiment_id <- getitem scenario "experiment_id" ;;
  experiment <-
    experiment_service.get_experiment experiment_id dataset_name depth
      source ;;
  setitem scenario "experiment" experiment.

Definition _change_ids_to_objects (scenario : Value)
    (dataset_name : string) (depth : Z) : M Value :=
  let depth := Z.max (depth - 1) 0 in
  scenario <-
    _change_ae_ids_to_objects scenario dataset_name depth
      Collections.ACTIVITY_EXECUTION ;;
  _change_experiment_id_to_object scenario dataset_name depth
    Collections.EXPERIMENT.

Definition get_scenario_by_activity_execution
    (activity_execution_id : Value) (dataset_name : string) (depth : Z)
    (multiple : bool) : M Value :=
  let q : Dict := <["activity_executions" := activity_execution_id]> ∅ in
  scenarios <- get_multiple dataset_name q 0 "" ;;
  match scenarios with
  | [] =>
      ret (not_found activity_execution_id
             (VStr "Given activity execution found, but it is not assigned to any scenario"))
  | scenario :: _ =>
      if multiple then
        scenarios <-
          mapM (fun scenario =>
                  _change_ids_to_objects scenario dataset_name depth)
               scenarios ;;
        objects <- mapM (validated ScenarioOut) scenarios ;;
        ret (VList objects)
      else
        scenario <- _change_ids_to_objects scenario dataset_name depth ;;
        validated ScenarioOut scenario
  end.

Definition get_scenario_by_experiment (experiment_id : Value)
    (dataset_name : string) (depth : Z) : M Value :=
  let q : Dict := <["experiment_id" := experiment_id]> ∅ in
  scenarios <- get_multiple dataset_name q 0 "" ;;
  match scenarios with
  | [] =>
      ret (not_found experiment_id
             (VStr "Given experiment found, but it is not assigned to any scenario"))
  | scenario :: _ =>
      scenario <- _change_ids_to_objects scenario dataset_name depth ;;
      validated ScenarioOut scenario
  end.

Definition get_scenario_by_element_id (element_id : Value)
    (dataset_name : string) (depth : Z) : M (Value * Value) :=
  experiment_result <-
    experiment_service.get_experiment element_id dataset_name 0 "" ;;
  if negb (type_is experiment_result NotFoundByIdModel) then
    scenario <- get_scenario_by_experiment element_id dataset_name depth ;;
    ret (scenario, experiment_result)
  else
    activity_execution_result <-
      activity_execution_service_get_activity_execution element_id
        dataset_name 0 "" ;;
    if negb (type_is activity_execution_result NotFoundByIdModel) then
      scenario <-
        get_scenario_by_activity_execution element_id dataset_name depth
          false ;;
      ret (scenario, activity_execution_result)
    else
      ret (not_found element_id
             (VStr (String.append
                      "No activity execution or expriment with given id ("
                      (String.append (str element_id) ") found"))),
           VNone).

Definition get_scenario (element_id : Value) (dataset_name : string)
    (depth : Z) : M Value :=
  r <- get_scenario_by_element_id element_id dataset_name depth ;;
  ret r.1.

Definition get_scenario_dict_by_scenario_id (scenario_id : Value)
    (dataset_name : string) : M Value :=
  mongo_api_service.get_document scenario_id Collections.SCENARIO
    dataset_name.

(** Returns the NotFound object when [previous_id] leads to no
    scenario, and [None] after the write. *)
Definition _put_activity_execution_after_element (previous_id : Value)
    (activity_execution_id : Value) (dataset_name : string) : M Value :=
  r <- get_scenario_by_element_id previous_id dataset_name 0 ;;
  let scenario := r.1 in
  let related_element := r.2 in
  if type_is scenario NotFoundByIdModel then ret scenario
  else
    scenario_id <- getattr scenario "id" ;;
    scenario_dict <-
      get_scenario_dict_by_scenario_id scenario_id dataset_name ;;
    let is_from_experiment := type_is related_element ExperimentOut in
    new_activity_execution_index <-
      (if negb is_from_experiment then
         stored <- getitem scenario_dict "activity_executions" ;;
         ids <- as_list stored ;;
         previous_activity_execution_index <- list_index ids previous_id ;;
         ret (previous_activity_execution_index + 1)%nat
       else ret 0%nat) ;;
    stored <- getitem scenario_dict "activity_executions" ;;
    ids <- as_list stored ;;
    scenario_dict <-
      setitem scenario_dict "activity_executions"
        (VList (list_insert_at new_activity_execution_index
                  activity_execution_id ids)) ;;
    mongo_api_service.update_document_with_dict Collections.SCENARIO
      scenario_id scenario_dict dataset_name ;;;
    ret VNone.

Definition delete_activity_execution (activity_execution_id : Value)
    (dataset_name : string) : M Value :=
  scenario <-
    get_scenario_by_activity_execution activity_execution_id dataset_name
      0 false ;;
  if type_is scenario NotFoundByIdModel then ret scenario
  else
    scenario_id <- getattr scenario "id" ;;
    scenario_dict <-
      get_scenario_dict_by_scenario_id scenario_id dataset_name ;;
    stored <- getitem scenario_dict "activity_executions" ;;
    ids <- as_list stored ;;
    ids <- list_remove ids activity_execution_id ;;
    scenario_dict <-
      setitem scenario_dict "activity_executions" (VList ids) ;;
    mongo_api_service.update_document_with_dict Collections.SCENARIO
      scenario_id scenario_dict dataset_name ;;;
    activity_execution_service_get_activity_execution
      activity_execution_id dataset_name 0 "".

Definition save_scenario (scenario : Value) (dataset_name : string)
  : M Value :=
  experiment_id <- getattr scenario "experiment_id" ;;
  related_experiment <-
    experiment_service.get_experiment experiment_id dataset_name 0 "" ;;
  let related_experiment_exists :=
    negb (type_is related_experiment NotFoundByIdModel) in
  if negb (is_None experiment_id) && negb related_experiment_exists
  then ret (with_errors ScenarioOut "given experiment does not exist")
  else
    given <- getattr scenario "activity_executions" ;;
    given <- as_list given ;;
    activity_executions <-
      mapM (fun activity_execution =>
              activity_execution_service_save_activity_execution
                activity_execution dataset_name)
           given ;;
    activity_executions_ids <-
      mapM (fun ae => getattr ae "id") activity_executions ;;
    d <- dict_of scenario ;;
    scenario <- construct ScenarioIn d ;;
    scenario_dict <- dict_of scenario ;;
    scenario_dict <-
      setitem scenario_dict "activity_executions"
        (VList activity_executions_ids) ;;
    created_scenario_id <-
      mongo_api_service.create_document_from_dict scenario_dict
        Collections.SCENARIO dataset_name ;;
    scenario_dict <-
      setitem scenario_dict "activity_executions"
        (VList activity_executions) ;;
    validated ScenarioOut scenario_dict.

Definition add_activity_execution (previous_id : Value)
    (activity_execution : Value) (dataset_name : string) : M Value :=
  activity_execution <-
    activity_execution_service_save_activity_execution activity_execution
      dataset_name ;;
  new_activity_execution_id <- getattr activity_execution "id" ;;
  _put_activity_execution_after_element previous_id
    new_activity_execution_id dataset_name ;;;
  ret activity_execution.

Definition change_order (order_change : Value) (dataset_name : string)
  : M Value :=
  activity_execution_id <- getattr order_change "activity_execution_id" ;;
  previous_id <- getattr order_change "previous_id" ;;
  if decide (activity_execution_id = previous_id)
  then
    ret (with_errors OrderChangeOut
           "Given indexes for order change are identical")
  else
    delete_activity_execution activity_execution_id dataset_name ;;;
    _put_activity_execution_after_element previous_id
      activity_execution_id dataset_name ;;;
    ret (VObj OrderChangeOut ∅).

Definition _check_activity_executions (activity_execution_ids : list Value)
    (dataset_name : string) : M bool :=
  existing_activity_executions <-
    activity_execution_service_get_multiple dataset_name
      (<["id" := mongo_api_service.get_id_in_query activity_execution_ids]>
         ∅) 0 "" ;;
  ret (bool_decide (length existing_activity_executions
                    = length activity_execution_ids)).
End Service.
End ScenarioServiceMongoDB.

(** ** The services as the application wires them

    The activity execution service and the scenario service hold
    references to each other. A read at depth [d] re-enters the other
    service only while [d > 0], and the depth drops by one on the way
    back, so the depth itself bounds the recursion. *)
Fixpoint activity_execution_service_at `{Environment} (n : nat)
  : Value -> string -> Z -> string -> M Value :=
  ActivityExecutionServiceMongoDB.get_activity_execution
    (match n with
     | O => fun _ _ _ _ => raise RecursionError
     | S n' =>
         ScenarioServiceMongoDB.get_scenario_by_activity_execution
           (activity_execution_service_at n')
     end).

Module activity_execution_service.
Section Wired.
Context `{Environment}.
Definition get_activity_execution (activity_execution_id : Value)
    (dataset_name : string) (depth : Z) (source : string) : M Value :=
  activity_execution_service_at (Z.to_nat depth) activity_execution_id
    dataset_name depth source.
Definition save_activity_execution :=
  ActivityExecutionServiceMongoDB.save_activity_execution.
End Wired.
End activity_execution_service.

Module scenario_service.
Section Wired.
Context `{Environment}.
Definition get_scenario_by_activity_execution :=
  ScenarioServiceMongoDB.get_scenario_by_activity_execution
    activity_execution_service.get_activity_execution.
Definition get_scenario_by_experiment :=
  ScenarioServiceMongoDB.get_scenario_by_experiment
    activity_execution_service.get_activity_execution.
Definition get_scenario_by_element_id :=
  ScenarioServiceMongoDB.get_scenario_by_element_id
    activity_execution_service.get_activity_execution.
Definition _change_ids_to_objects :=
  ScenarioServiceMongoDB._change_ids_to_objects
    activity_execution_service.get_activity_execution.
Definition _put_activity_execution_after_element :=
  ScenarioServiceMongoDB._put_activity_execution_after_element
    activity_execution_service.get_activity_execution.
Definition delete_activity_execution :=
  ScenarioServiceMongoDB.delete_activity_execution
    activity_execution_service.get_activity_execution.
Definition save_scenario :=
  ScenarioServiceMongoDB.save_scenario
    activity_execution_service.save_activity_execution.
Definition add_activity_execution :=
  ScenarioServiceMongoDB.add_activity_execution
    activity_execution_service.save_activity_execution
    activity_execution_service.get_activity_execution.
Definition change_order :=
  ScenarioServiceMongoDB.change_order
    activity_execution_service.get_activity_execution.
End Wired.
End scenario_service.

(** ** Observations used in the statements *)

(** [o.f] and [d[k]] as plain functions. *)
Definition attr (o : Value) (f : string) : Value :=
  match o with
  | VObj _ d => default VNone (d !! f)
  | _ => VNone
  end.

Definition field (v : Value) (k : string) : option Value :=
  match v with
  | VDict d => d !! k
  | _ => None
  end.

Definition is_obj (v : Value) : bool :=
  match v with VObj _ _ => true | _ => false end.

Definition is_dict (v : Value) : bool :=
  match v with VDict _ => true | _ => false end.

(** An output object populated with an error payload instead of the
    success payload. *)
Definition carries_errors (v : Value) : bool :=
  match v with
  | VObj _ d => bool_decide (is_Some (d !! "errors"))
  | _ => false
  end.

(** The identifier of a stored record. *)
Definition id_of (doc : Value) : option Value := field doc "id".

(** The activity-execution sequence of a stored scenario. *)
Definition sequence_of (doc : Value) : list Value :=
  match field doc "activity_executions" with
  | Some (VList l) => l
  | _ => []
  end.


Definition scenarios (m : Mongo) (dataset_name : string) : list Value :=
  mongo_api_service.collection m dataset_name Collections.SCENARIO.

(** Calls that write to storage. *)
Definition is_write (c : Call) : bool :=
  match c with
  | MongoCreateDocument _ _ | MongoCreateDocumentFromDict _ _ _
  | MongoUpdateDocument _ _ _ | MongoUpdateDocumentWithDict _ _ _ _
  | MongoDeleteDocument _ _
  | ActivityAddActivityExecution _ _ | ActivityRemoveActivityExecution _ _
  | ActivityUpdateActivityExecution _ _ _ => true
  | _ => false
  end.

Definition is_delete_document (c : Call) : bool :=
  match c with MongoDeleteDocument _ _ => true | _ => false end.

Definition is_add_activity_execution (c : Call) : bool :=
  match c with ActivityAddActivityExecution _ _ => true | _ => false end.

Definition is_update_activity_execution (c : Call) : bool :=
  match c with ActivityUpdateActivityExecution _ _ _ => true | _ => false end.

Definition is_arrangement_fetch (c : Call) : bool :=
  match c with
  | ArrangementGetSingleDict _ _ _ _ | ArrangementGetArrangement _ _ => true
  | _ => false
  end.

Definition is_participation_fetch (c : Call) : bool :=
  match c with ParticipationGetMultiple _ _ _ _ => true | _ => false end.

Definition is_experiment_fetch (c : Call) : bool :=
  match c with ExperimentGetExperiment _ _ _ _ => true | _ => false end.

Definition is_scenario_fetch (c : Call) : bool :=
  match c with
  | MongoGetDocuments name _ _ | MongoGetDocument _ name _ =>
      bool_decide (name = Collections.SCENARIO)
  | _ => false
  end.

Definition is_activity_fetch (c : Call) : bool :=
  match c with
  | ActivityGetActivity _ _ | ActivityGetMultiple _ _ _ _ _ => true
  | _ => false
  end.

Definition is_time_series_fetch (c : Call) : bool :=
  match c with TimeSeriesGetMultiple _ _ _ _ => true | _ => false end.

Definition is_measure_name_fetch (c : Call) : bool :=
  match c with
  | MeasureNameGetSingleDict _ _ _ _ | MeasureNameGetMeasureName _ _ => true
  | _ => false
  end.

(** An identifier that [ObjectId] converts: a string of 24 hexadecimal
    digits, or [None]. *)
Definition is_id (id : Value) : bool :=
  match id with
  | VNone => true
  | VStr s => is_object_id s
  | _ => false
  end.

(** The sentinel the gateway returns for an id without a record. *)
Definition gateway_sentinel (id : Value) : Value :=
  not_found id (VDict (<["errors" := VStr "document not found"]> ∅)).

(** A computation reads when it leaves the database as it found it and
    records no write. *)
Definition reads {A} (c : M A) : Prop :=
  forall m,
    db (c m) = m /\ Forall (fun call => is_write call = false) (calls (c m)).

(** A computation is silent when it records no call and leaves the
    database alone. *)
Definition silent {A} (c : M A) : Prop :=
  forall m, exists r, c m = (r, m, []).

(** The arrangements that a log fetches as dicts. *)
Definition arrangements_fetched (l : list Call) : list Value :=
  omap (fun call =>
          match call with
          | ArrangementGetSingleDict id _ _ _ => Some id
          | _ => None
          end) l.

(** A computation avoids the calls that [p] selects when it records
    none of them, whatever the database. *)
Definition avoids {A} (p : Call -> bool) (c : M A) : Prop :=
  forall m, Forall (fun call => p call = false) (calls (c m)).

(** A stored scenario: its id, its experiment id and its sequence of
    activity-execution ids. *)
Definition stored_scenario (sd : Dict) (sid e : Value) (ids : list Value)
  : Prop :=
  sd !! "id" = Some sid
  /\ sd !! "experiment_id" = Some e
  /\ sd !! "activity_executions" = Some (VList ids).


(** An execution payload with an activity or an arrangement that is given
    and does not resolve. *)
Definition relation_unresolved `{Environment} (ae : Value)
    (dataset_name : string) (m : Mongo) : Prop :=
  (attr ae "activity_id" <> VNone
   /\ type_is (ActivityService_get_activity (attr ae "activity_id")
                 dataset_name m) NotFoundByIdModel = true)
  \/ (attr ae "arrangement_id" <> VNone
      /\ type_is (ArrangementService_get_arrangement
                    (attr ae "arrangement_id") dataset_name m)
           NotFoundByIdModel = true).

(** The activity service answers the insert of a model instance with a
    model instance. *)
Definition add_returns_instance `{Environment} : Prop :=
  forall ae dataset_name m,
    is_obj ae = true ->
    is_obj (ActivityService_add_activity_execution ae dataset_name m).1
    = true.

(** Two computations that behave alike on every database. *)
Definition same {A} (c c' : M A) : Prop := forall m, c m = c' m.

(** What the services rely on from the activity service: every activity
    returned by [get_multiple] is a dict that embeds a list of execution
    dicts. *)
Definition embeds_executions (activity : Value) : bool :=
  match field activity Collections.ACTIVITY_EXECUTION with
  | Some (VList l) => forallb is_dict l
  | _ => false
  end.

Definition activity_service_ok `{Environment} : Prop :=
  forall dataset_name q depth source projection m,
    forallb embeds_executions
      (ActivityService_get_multiple dataset_name q depth source projection m)
    = true.

(** ** A reference environment

    The collaborator services (activity, arrangement, participation,
    experiment, measure name, time series) are not among the sources.
    Here they keep their documents in the same database: activities embed
    their executions; the others are plain collections read by id or by
    filter. The schema of the models comes in two forms, one that admits
    every payload and one that refuses what a ScenarioOut and a MeasureOut
    with required fields refuse. The reference environments are used to
    run the services on concrete data. *)
Module Reference.
Import mongo_api_service.

(** Modelled from the spec: the NotFound sentinel of a collaborator. *)
Definition missing (id : Value) : Value :=
  not_found id (VDict (<["errors" := VStr "not found"]> ∅)).

(** Modelled from the spec: a collaborator's [getSingleDict], the record
    with the id or the sentinel. *)
Definition lookup_dict (name : string) (id : Value)
    (dataset_name : string) (m : Mongo) : Value :=
  match List.find (has_id id) (collection m dataset_name name) with
  | Some doc => doc
  | None => missing id
  end.

(** Modelled from the spec: a collaborator's [getOne], the typed form of
    the record or the sentinel. *)
Definition lookup_model (cls : PyClass) (name : string) (id : Value)
    (dataset_name : string) (m : Mongo) : Value :=
  match lookup_dict name id dataset_name m with
  | VDict d => VObj cls d
  | other => other
  end.

(** Modelled from the spec: the executions embedded in an activity. *)
Definition embedded (activity : Value) : list Value :=
  match field activity Collections.ACTIVITY_EXECUTION with
  | Some (VList l) => List.filter is_dict l
  | _ => []
  end.

(** Modelled from the spec: an activity with its embedded executions
    replaced. *)
Definition set_embedded (activity : Value) (l : list Value) : Value :=
  match activity with
  | VDict ad => VDict (<[Collections.ACTIVITY_EXECUTION := VList l]> ad)
  | _ => activity
  end.

(** Modelled from the spec: the activity with the executions that the
    query selects (elem-match on the embedded array), if any. *)
Definition project_executions (q : Dict) (activity : Value)
  : option Value :=
  if is_dict activity then
    match q !! "activity_executions.id" with
    | Some oid =>
        match List.filter (has_id oid) (embedded activity) with
        | [] => None
        | l => Some (set_embedded activity l)
        end
    | None => Some (set_embedded activity (embedded activity))
    end
  else None.

(** Modelled from the spec: the activity service's [getMany] as the
    activity execution service calls it. *)
Definition get_multiple (dataset_name : string) (q : Dict) (depth : Z)
    (source : string) (projection : Dict) (m : Mongo) : list Value :=
  omap (project_executions q)
    (collection m dataset_name Collections.ACTIVITY).

(** Modelled from the spec: a write to every activity document. *)
Definition on_activities (f : Value -> Value) (dataset_name : string)
    (m : Mongo) : Mongo :=
  <[(dataset_name, Collections.ACTIVITY) :=
      f <$> collection m dataset_name Collections.ACTIVITY]> m.

(** Modelled from the spec: the embedded-array insert of the activity
    service; the execution is stored under a new id in the array of its
    activity and returned as an output object. *)
Definition add_activity_execution (ae : Value) (dataset_name : string)
    (m : Mongo) : Value * Mongo :=
  let activities := collection m dataset_name Collections.ACTIVITY in
  let id :=
    VInt (100 + Z.of_nat (length (concat (embedded <$> activities)))) in
  let stored := with_id id (to_plain ae) in
  (match stored with
   | VDict d => VObj ActivityExecutionOut d
   | _ => stored
   end,
   on_activities (fun activity =>
       if has_id (attr ae "activity_id") activity
       then set_embedded activity (embedded activity ++ [stored])%list
       else activity)
     dataset_name m).

(** Modelled from the spec: the embedded-array delete of the activity
    service. *)
Definition remove_activity_execution (ae : Value) (dataset_name : string)
    (m : Mongo) : Value * Mongo :=
  (ae,
   on_activities (fun activity =>
       set_embedded activity
         (List.filter (fun e => negb (has_id (attr ae "id") e))
            (embedded activity)))
     dataset_name m).

(** Modelled from the spec: the embedded-array update of the activity
    service, addressed by item id. *)
Definition update_activity_execution (id d : Value)
    (dataset_name : string) (m : Mongo) : Value * Mongo :=
  (match with_id id d with
   | VDict fields => VObj ActivityExecutionOut fields
   | other => other
   end,
   on_activities (fun activity =>
       set_embedded activity (replace_id id (with_id id d)
                                (embedded activity)))
     dataset_name m).

(** Modelled from the spec: a collaborator's [getMany] on a plain
    collection. *)
Definition find_all (name : string) (dataset_name : string) (q : Dict)
    (depth : Z) (source : string) (m : Mongo) : list Value :=
  List.filter (matches q) (collection m dataset_name name).

(** Modelled from the spec: the collaborators together, under a given
    schema; pydantic refuses fields other than id and errors on the
    sentinel, storage numbers new documents. *)
Definition with_schema (schema : PyClass -> Dict -> bool) : Environment := {|
  declares c f :=
    match c with
    | NotFoundByIdModel => bool_decide (f = "id") || bool_decide (f = "errors")
    | _ => true
    end;
  accepts := schema;
  generated_object_id := VStr "000000000000000000000000";
  new_id docs := VInt (Z.of_nat (length docs));
  ActivityService_get_activity :=
    lookup_model ActivityOut Collections.ACTIVITY;
  ActivityService_get_multiple := get_multiple;
  ActivityService_add_activity_execution := add_activity_execution;
  ActivityService_remove_activity_execution := remove_activity_execution;
  ActivityService_update_activity_execution := update_activity_execution;
  ArrangementService_get_arrangement :=
    lookup_model ArrangementOut Collections.ARRANGEMENT;
  ArrangementService_get_single_dict id dataset_name depth source :=
    lookup_dict Collections.ARRANGEMENT id dataset_name;
  ParticipationService_get_multiple :=
    find_all Collections.PARTICIPATION;
  ExperimentService_get_experiment id dataset_name depth source :=
    lookup_model ExperimentOut Collections.EXPERIMENT id dataset_name;
  MeasureNameService_get_measure_name :=
    lookup_model MeasureNameOut Collections.MEASURE_NAME;
  MeasureNameService_get_single_dict id dataset_name depth source :=
    lookup_dict Collections.MEASURE_NAME id dataset_name;
  TimeSeriesService_get_multiple := find_all Collections.TIME_SERIES
|}.

(** A schema that admits every payload, execution objects in the
    sequence of a scenario included, as the scenario service is written
    for. *)
Definition environment : Environment := with_schema (fun _ _ => true).

(** A schema that refuses a ScenarioOut whose sequence holds anything and
    a MeasureOut without its datatype, and admits the rest. *)
Definition refuses (c : PyClass) (d : Dict) : bool :=
  match c with
  | ScenarioOut =>
      match d !! "activity_executions" with
      | Some (VList (_ :: _)) => true
      | _ => false
      end
  | MeasureOut => bool_decide (d !! "datatype" = None)
  | _ => false
  end.

Definition strict : Environment :=
  with_schema (fun c d => negb (refuses c d)).

(** The identifiers of the executions a, b, c and d, of an execution x
    that is put into a sequence, and an identifier that names nothing. *)
Definition id_a : string := "aaaaaaaaaaaaaaaaaaaaaaaa".
Definition id_b : string := "bbbbbbbbbbbbbbbbbbbbbbbb".
Definition id_c : string := "cccccccccccccccccccccccc".
Definition id_d : string := "dddddddddddddddddddddddd".
Definition id_x : string := "eeeeeeeeeeeeeeeeeeeeeeee".
Definition id_none : string := "ffffffffffffffffffffffff".

(** A dataset with one experiment, one arrangement, two activities
    embedding the executions a, b, c and d, a participation of a, and a
    measure with its name and a time series. *)
Definition rec (fields : list (string * Value)) : Value :=
  VDict (list_to_map fields).

Definition execution (id : string) (arrangement : Value) : Value :=
  rec [("id", VStr id); ("arrangement_id", arrangement)].

Definition activities : list Value :=
  [ rec [("id", VStr "act1");
         ("activity_executions",
          VList [execution id_a (VStr "arr1"); execution id_b VNone])];
    rec [("id", VStr "act2");
         ("activity_executions",
          VList [execution id_c VNone; execution id_d VNone])] ].

Definition scenario (id : string) (experiment : Value)
    (ids : list Value) : Value :=
  rec [("id", VStr id); ("experiment_id", experiment);
       ("activity_executions", VList ids)].

Definition base : Mongo :=
  <[("ds", Collections.ACTIVITY) := activities]>
  (<[("ds", Collections.EXPERIMENT) := [rec [("id", VStr "exp1")]]]>
  (<[("ds", Collections.ARRANGEMENT) := [rec [("id", VStr "arr1")]]]>
  (<[("ds", Collections.PARTICIPATION) :=
       [rec [("id", VStr "p1"); ("activity_execution_id", VStr id_a)]]]>
  (<[("ds", Collections.MEASURE) :=
       [rec [("id", VStr "m1"); ("measure_name_id", VStr "mn1")]]]>
  (<[("ds", Collections.MEASURE_NAME) := [rec [("id", VStr "mn1")]]]>
  (<[("ds", Collections.TIME_SERIES) :=
       [rec [("id", VStr "ts1"); ("measure_id", VStr "m1")]]]> ∅)))))).

(** One scenario running a, b, c. *)
Definition db1 : Mongo :=
  <[("ds", Collections.SCENARIO) :=
      [scenario "s1" (VStr "exp1") [VStr id_a; VStr id_b; VStr id_c]]]>
    base.

(** One scenario of the experiment, still empty. *)
Definition db0 : Mongo :=
  <[("ds", Collections.SCENARIO) := [scenario "s0" (VStr "exp1") []]]> base.

Definition order_change (id previous : Value) : Value :=
  VObj OrderChangeIn
    (list_to_map [("activity_execution_id", id); ("previous_id", previous)]).

Definition execution_in (activity arrangement : Value) : Value :=
  VObj ActivityExecutionIn
    (list_to_map [("activity_id", activity);
                  ("arrangement_id", arrangement)]).

Definition scenario_in (experiment : Value) (executions : list Value)
  : Value :=
  VObj ScenarioIn
    (list_to_map [("experiment_id", experiment);
                  ("activity_executions", VList executions)]).

(** Execution a as it is read out of activity act1, and the expansion
    of measure m1 at depth one. *)
Definition scenarios_of :=
  @scenario_service.get_scenario_by_activity_execution environment.

Definition execution_a : Value := execution id_a (VStr "arr1").

Definition activity1 : Value := rec [("id", VStr "act1")].

Definition measure1 : Value :=
  rec [("id", VStr "m1"); ("measure_name_id", VStr "mn1")].

Definition expand_measure (source : string) :=
  @MeasureServiceMongoDB._add_related_documents environment measure1 "ds" 1
    source db1.

(** The expansion of execution a: at depth one under the schema that
    refuses, while no scenario holds a, and at depth two while the
    scenario s1 holds it. *)
Definition expand_unassigned (source : string) :=
  @ActivityExecutionServiceMongoDB._add_related_documents strict
    (@scenario_service.get_scenario_by_activity_execution strict)
    execution_a "ds" 1 source activity1 db0.

Definition expand_deep (env : Environment) (source : string) :=
  @ActivityExecutionServiceMongoDB._add_related_documents env
    (@scenario_service.get_scenario_by_activity_execution env)
    execution_a "ds" 2 source activity1 db1.

(** The stored scenario s1, its hydration at depth zero and the read of
    the scenario of experiment exp1 at depth zero. *)
Definition stored_s1 : Value :=
  scenario "s1" (VStr "exp1") [VStr id_a; VStr id_b; VStr id_c].

Definition hydrate_s1 :=
  @scenario_service._change_ids_to_objects environment stored_s1 "ds" 0 db1.

Definition read_s1 :=
  @scenario_service.get_scenario_by_experiment environment (VStr "exp1")
    "ds" 0 db1.

Definition read_s1_strict :=
  @scenario_service.get_scenario_by_experiment strict (VStr "exp1") "ds" 0
    db1.

(** Insertions of x and of a new execution, reorderings and a save. *)
Definition put_x_after (previous_id : Value) :=
  @scenario_service._put_activity_execution_after_element environment
    previous_id (VStr id_x) "ds" db1.

Definition add_after_unknown :=
  @scenario_service.add_activity_execution strict (VStr id_none)
    (execution_in (VStr "act1") VNone) "ds" db1.

Definition put_x_strict (m : Mongo) (previous_id : Value) :=
  @scenario_service._put_activity_execution_after_element strict
    previous_id (VStr id_x) "ds" m.



Definition save_with_ghost :=
  @scenario_service.save_scenario strict
    (scenario_in (VStr "exp1") [execution_in (VStr "ghost") VNone]) "ds"
    db1.
End Reference.

(** ** Further observations and runs

    Sentinels, the executions embedded in an activity, and runs of the
    services on the reference data that the later properties are
    exercised on. *)

(** The hook of a service stops at depth zero: it returns the record as
    it is and calls nothing. *)
Definition stops_at_zero
    (hook : Value -> string -> Z -> string -> M Value) : Prop :=
  forall doc dataset_name m, hook doc dataset_name 0 "" m = (Ok doc, m, []).

(** The sentinel of the activity execution service. *)
Definition execution_sentinel (id : Value) : Value :=
  not_found id (VDict (<["errors" := VStr "activity execution not found"]> ∅)).

(** The executions an activity document embeds; none when it has no
    embedded array. *)
Definition embedded_executions (activity : Value) : list Value :=
  match field activity "activity_executions" with
  | Some (VList l) => l
  | _ => []
  end.

(** An activity document whose embedded array, if any, is a list. *)
Definition lists_executions (activity : Value) : bool :=
  match activity with
  | VDict ad =>
      match ad !! "activity_executions" with
      | None | Some (VList _) => true
      | _ => false
      end
  | _ => false
  end.

(** The sentinels of the scenario service. *)
Definition unassigned_execution (id : Value) : Value :=
  not_found id
    (VStr "Given activity execution found, but it is not assigned to any scenario").

Definition unresolved_element (id : Value) : Value :=
  not_found id
    (VStr (String.append
             "No activity execution or expriment with given id ("
             (String.append (str id) ") found"))).

Definition unassigned_experiment (id : Value) : Value :=
  not_found id
    (VStr "Given experiment found, but it is not assigned to any scenario").

(** Runs of the scenario service on the reference data: b is taken out
    of its scenario, a is moved behind c, and execution d, which no
    scenario holds, is read. *)
Definition detach_b :=
  @scenario_service.delete_activity_execution Reference.environment
    (VStr Reference.id_b) "ds" Reference.db1.

Definition move_a_after_c :=
  @scenario_service.change_order Reference.environment
    (Reference.order_change (VStr Reference.id_a) (VStr Reference.id_c))
    "ds" Reference.db1.

(** The same two runs under the schema that refuses a scenario whose
    sequence holds executions. *)
Definition detach_b_strict :=
  @scenario_service.delete_activity_execution Reference.strict
    (VStr Reference.id_b) "ds" Reference.db1.

Definition move_a_after_c_strict :=
  @scenario_service.change_order Reference.strict
    (Reference.order_change (VStr Reference.id_a) (VStr Reference.id_c))
    "ds" Reference.db1.

Definition read_d :=
  @activity_execution_service.get_activity_execution Reference.environment
    (VStr Reference.id_d) "ds" 0 "" Reference.db1.

Definition read_d_value : Value :=
  match result read_d with Ok v => v | _ => VNone end.

Definition execution_object (id : string) (arrangement : Value) : Value :=
  VObj ActivityExecutionOut
    (list_to_map [("id", VStr id); ("arrangement_id", arrangement)]).

(** The rejected payload added behind experiment exp1, and a database
    that holds two datasets. *)
Definition add_ghost_after_exp1 (m : Mongo) :=
  @scenario_service.add_activity_execution Reference.strict
    (VStr "exp1") (Reference.execution_in (VStr "ghost") VNone) "ds" m.

Definition datasets_db : Mongo :=
  <[("main", Collections.DATASET) :=
      [Reference.rec [("id", VStr "ds")];
       Reference.rec [("id", VStr "other")]]]> ∅.

(** * Properties *)

(** ** The monad *)

Lemma bind_Ok {A B} (c : M A) (k : A -> M B) m a m1 l1 :
  c m = (Ok a, m1, l1) ->
  bind c k m = (let '(r, m2, l2) := k a m1 in (r, m2, (l1 ++ l2)%list)).
Proof. intros E. unfold bind. rewrite E. reflexivity. Qed.

Lemma bind_Raised {A B} (c : M A) (k : A -> M B) m e m1 l1 :
  c m = (Raised e, m1, l1) -> bind c k m = (Raised e, m1, l1).
Proof. intros E. unfold bind. rewrite E. reflexivity. Qed.

Lemma bind_ret_l {A B} (a : A) (k : A -> M B) m : bind (ret a) k m = k a m.
Proof. unfold bind, ret. destruct (k a m) as [[r m2] l2]. reflexivity. Qed.

Lemma bind_pure {A B} (c : M A) (k : A -> M B) m a :
  c m = (Ok a, m, []) -> bind c k m = k a m.
Proof.
  intros E. rewrite (bind_Ok _ _ _ _ _ _ E).
  destruct (k a m) as [[r m2] l2]. reflexivity.
Qed.

Lemma bind_assoc {A B C} (c : M A) (k1 : A -> M B) (k2 : B -> M C) m :
  bind (bind c k1) k2 m = bind c (fun a => bind (k1 a) k2) m.
Proof.
  unfold bind. destruct (c m) as [[[a|e] m1] l1]; [|reflexivity].
  destruct (k1 a m1) as [[[b|e] m2] l2]; [|reflexivity].
  destruct (k2 b m2) as [[r m3] l3]. by rewrite app_assoc.
Qed.

(** Running a computation that ends in [Ok] and continuing. *)
Lemma bind_run {A B} (c : M A) (k : A -> M B) m a m1 l1 r m2 l2 :
  c m = (Ok a, m1, l1) -> k a m1 = (r, m2, l2) ->
  bind c k m = (r, m2, (l1 ++ l2)%list).
Proof. intros E1 E2. rewrite (bind_Ok _ _ _ _ _ _ E1), E2. reflexivity. Qed.

(** ** C5: an order change onto itself *)

(** C5. For every order-change request whose activity_execution_id equals
    its previous_id, change_order returns an output object that carries an
    error payload; it calls neither storage nor a collaborator, so the
    database, and with it every scenario's sequence, is unchanged. *)
Theorem change_order_identical_ids_rejected `{Environment}
    (c : PyClass) (d : Dict) (dataset_name : string) (m : Mongo) :
  attr (VObj c d) "activity_execution_id" = attr (VObj c d) "previous_id" ->
  let r := scenario_service.change_order (VObj c d) dataset_name m in
  result r = Ok (with_errors OrderChangeOut
                   "Given indexes for order change are identical")
  /\ carries_errors (with_errors OrderChangeOut
                       "Given indexes for order change are identical") = true
  /\ db r = m
  /\ calls r = []
  /\ scenarios (db r) dataset_name = scenarios m dataset_name.
Proof.
  intros E. simpl in E.
  unfold scenario_service.change_order, ScenarioServiceMongoDB.change_order.
  rewrite (bind_pure _ _ m (default VNone (d !! "activity_execution_id")))
    by reflexivity.
  rewrite (bind_pure _ _ m (default VNone (d !! "previous_id")))
    by reflexivity.
  rewrite E. destruct (decide _) as [_|N]; [|congruence].
  repeat split.
Qed.

Lemma change_order_identical_ids_rejected_witness :
  let request := Reference.order_change (VStr Reference.id_a) (VStr Reference.id_a) in
  attr request "activity_execution_id" = attr request "previous_id"
  /\ result (@scenario_service.change_order Reference.environment request
               "ds" Reference.db1)
     = Ok (with_errors OrderChangeOut
             "Given indexes for order change are identical")
  /\ scenarios (db (@scenario_service.change_order Reference.environment
                      request "ds" Reference.db1)) "ds"
     = scenarios Reference.db1 "ds".
Proof.
  pose proof (@change_order_identical_ids_rejected Reference.environment
                OrderChangeIn
                (list_to_map [("activity_execution_id", VStr Reference.id_a);
                              ("previous_id", VStr Reference.id_a)])
                "ds" Reference.db1 eq_refl) as (R & _ & _ & _ & S).
  split; [reflexivity|]. split; [exact R | exact S].
Defined.

(** ** C6: saving an execution whose relations do not resolve *)

Lemma is_None_false (v : Value) : v <> VNone -> is_None v = false.
Proof. destruct v; simpl; congruence. Qed.

(** A save with an unresolved relation ends in an error output after
    reads only. *)
Lemma save_activity_execution_rejects `{Environment}
    (c : PyClass) (d : Dict) (dataset_name : string) (m : Mongo) :
  let ae := VObj c d in
  (attr ae "activity_id" <> VNone
   /\ type_is (ActivityService_get_activity (attr ae "activity_id")
                 dataset_name m) NotFoundByIdModel = true)
  \/ (attr ae "arrangement_id" <> VNone
      /\ type_is (ArrangementService_get_arrangement
                    (attr ae "arrangement_id") dataset_name m)
           NotFoundByIdModel = true) ->
  exists msg l,
    ActivityExecutionServiceMongoDB.save_activity_execution ae dataset_name m
    = (Ok (with_errors ActivityExecutionOut msg), m, l)
    /\ Forall (fun call => is_write call = false) l.
Proof.
  intros ae Hyp. subst ae. simpl in Hyp.
  unfold ActivityExecutionServiceMongoDB.save_activity_execution.
  unfold bind at 1. simpl.
  unfold bind at 1. simpl.
  set (aid := default VNone (d !! "activity_id")) in *.
  set (rid := default VNone (d !! "arrangement_id")) in *.
  destruct (is_None aid) eqn:Ea; simpl.
  - (* no activity id was given: the arrangement must be the missing one *)
    destruct Hyp as [[Na _]|[Nr Hr]].
    { destruct aid; simpl in Ea; congruence. }
    unfold bind at 1. simpl. unfold bind at 1. simpl.
    rewrite Hr, (is_None_false _ Nr). simpl.
    do 2 eexists. split; [reflexivity | repeat constructor].
  - destruct (type_is (ActivityService_get_activity aid dataset_name m)
                NotFoundByIdModel) eqn:Et; simpl.
    + do 2 eexists. split; [reflexivity | repeat constructor].
    + destruct Hyp as [[_ Ha]|[Nr Hr]]; [congruence|].
      unfold bind at 1. simpl. unfold bind at 1. simpl.
      rewrite Hr, (is_None_false _ Nr). simpl.
      do 2 eexists. split; [reflexivity | repeat constructor].
Qed.

Lemma no_write_no_add (l : list Call) :
  Forall (fun call => is_write call = false) l ->
  Forall (fun call => is_add_activity_execution call = false) l.
Proof.
  intros W. eapply Forall_impl; [exact W|].
  intros call. destruct call; simpl; congruence.
Qed.

(** C6. save_activity_execution with a non-null activity_id that resolves
    to no activity, or a non-null arrangement_id that resolves to no
    arrangement, returns an output object carrying an error payload (and
    no id); nothing is written: the database is unchanged and the
    activity service's embedded-array insert is not called. *)
Theorem save_activity_execution_rejects_missing_relation `{Environment}
    (c : PyClass) (d : Dict) (dataset_name : string) (m : Mongo) :
  let ae := VObj c d in
  (attr ae "activity_id" <> VNone
   /\ type_is (ActivityService_get_activity (attr ae "activity_id")
                 dataset_name m) NotFoundByIdModel = true)
  \/ (attr ae "arrangement_id" <> VNone
      /\ type_is (ArrangementService_get_arrangement
                    (attr ae "arrangement_id") dataset_name m)
           NotFoundByIdModel = true) ->
  let r :=
    ActivityExecutionServiceMongoDB.save_activity_execution ae dataset_name m
  in
  (exists msg, result r = Ok (with_errors ActivityExecutionOut msg))
  /\ (forall v, result r = Ok v ->
        carries_errors v = true /\ attr v "id" = VNone)
  /\ db r = m
  /\ Forall (fun call => is_write call = false) (calls r)
  /\ Forall (fun call => is_add_activity_execution call = false) (calls r).
Proof.
  intros ae Hyp r.
  destruct (save_activity_execution_rejects c d dataset_name m Hyp)
    as (msg & l & E & W).
  subst r ae. rewrite E. unfold result, db, calls. simpl.
  split; [eauto|]. split.
  { intros v Ev. injection Ev as <-. split; reflexivity. }
  split; [reflexivity|]. split; [exact W | exact (no_write_no_add l W)].
Qed.

Lemma save_activity_execution_rejects_missing_relation_witness :
  let ae := Reference.execution_in (VStr "ghost") VNone in
  let r :=
    @ActivityExecutionServiceMongoDB.save_activity_execution
      Reference.environment ae "ds" Reference.db1 in
  result r = Ok (with_errors ActivityExecutionOut
                   "given activity does not exist")
  /\ db r = Reference.db1
  /\ Forall (fun call => is_add_activity_execution call = false) (calls r).
Proof.
  pose proof (@save_activity_execution_rejects_missing_relation
                Reference.environment ActivityExecutionIn
                (list_to_map [("activity_id", VStr "ghost");
                              ("arrangement_id", VNone)])
                "ds" Reference.db1) as W.
  simpl in W.
  destruct W as (_ & _ & D & _ & A).
  { left. split; [discriminate | vm_compute; reflexivity]. }
  split; [vm_compute; reflexivity|]. split; [exact D | exact A].
Defined.

(** ** Computations that only read *)

Lemma reads_ret {A} (a : A) : reads (ret a).
Proof. intros m. split; [reflexivity | constructor]. Qed.

Lemma reads_raise {A} (e : Exc) : reads (@raise A e).
Proof. intros m. split; [reflexivity | constructor]. Qed.

Lemma reads_query {A} (c : Call) (f : Mongo -> A) :
  is_write c = false -> reads (query c f).
Proof. intros W m. split; [reflexivity | repeat constructor; exact W]. Qed.

Lemma reads_bind {A B} (c : M A) (k : A -> M B) :
  reads c -> (forall a, reads (k a)) -> reads (bind c k).
Proof.
  intros Rc Rk m. unfold bind.
  destruct (Rc m) as [D W]. destruct (c m) as [[[a|e] m1] l1];
    unfold db, calls in *; simpl in *; subst m1.
  - destruct (Rk a m) as [D' W']. destruct (k a m) as [[r m2] l2].
    unfold db, calls in *; simpl in *. split; [exact D'|].
    apply Forall_app; split; assumption.
  - split; [reflexivity | exact W].
Qed.

Lemma reads_mapM {A B} (f : A -> M B) (l : list A) :
  (forall x, reads (f x)) -> reads (mapM f l).
Proof.
  intros Rf. induction l as [|x l IH]; simpl.
  - apply reads_ret.
  - apply reads_bind; [apply Rf|]. intros y.
    apply reads_bind; [exact IH|]. intros ys. apply reads_ret.
Qed.

Lemma reads_foldM {A B} (f : A -> B -> M A) (a : A) (l : list B) :
  (forall a x, reads (f a x)) -> reads (foldM f a l).
Proof.
  intros Rf. revert a. induction l as [|x l IH]; intros a; simpl.
  - apply reads_ret.
  - apply reads_bind; [apply Rf | intros a'; apply IH].
Qed.

(** What a computation that reads returns, as an equation. *)
Lemma reads_run {A} (c : M A) (m : Mongo) :
  reads c ->
  exists r l, c m = (r, m, l)
              /\ Forall (fun call => is_write call = false) l.
Proof.
  intros R. destruct (R m) as [D W]. destruct (c m) as [[r m1] l].
  unfold db, calls in *; simpl in *. subst m1. eauto.
Qed.

(** A read that returns, as a triple. *)
Lemma read_as_triple {A : Type} (c : M A) (m : Mongo) (v : A) :
  reads c -> result (c m) = Ok v -> c m = (Ok v, m, calls (c m)).
Proof.
  intros R E. destruct (R m) as [Ed _].
  destruct (c m) as [[r m'] l]. unfold result, db in *. simpl in *.
  by subst.
Qed.

(** A run that returned, as a triple. *)
Lemma run_as_triple {A : Type} (c : M A) (m : Mongo) (v : A) :
  result (c m) = Ok v -> c m = (Ok v, db (c m), calls (c m)).
Proof.
  destruct (c m) as [[r m'] l]. unfold result, db, calls. simpl.
  by intros ->.
Qed.

(** What a read returns when it returned, with a log free of writes. *)
Lemma read_run {A : Type} (c : M A) (m : Mongo) (v : A) :
  reads c -> result (c m) = Ok v ->
  exists l, c m = (Ok v, m, l)
            /\ Forall (fun call => is_write call = false) l.
Proof.
  intros R E. destruct (reads_run c m R) as (r & l & Er & W).
  rewrite Er in E. unfold result in E. simpl in E. subst r. eauto.
Qed.

#[local] Ltac reads_step :=
  match goal with
  | |- reads (bind _ _) => apply reads_bind; [|intros ?]
  | |- reads (ret _) => apply reads_ret
  | |- reads (raise _) => apply reads_raise
  | |- reads (query _ _) => apply reads_query; reflexivity
  | |- reads (mapM _ _) => apply reads_mapM; intros ?
  | |- reads (foldM _ _ _) => apply reads_foldM; intros ? ?
  | |- reads (if ?b then _ else _) => destruct b
  | |- reads (match ?x with _ => _ end) => destruct x
  | |- reads (getattr _ _) => unfold getattr
  | |- reads (getitem _ _) => unfold getitem
  | |- reads (setitem _ _ _) => unfold setitem
  | |- reads (delitem _ _) => unfold delitem
  | |- reads (contains_key _ _) => unfold contains_key
  | |- reads (as_list _) => unfold as_list
  | |- reads (construct _ _) => unfold construct
  | |- reads (validated _ _) => unfold validated
  | |- reads (ObjectId _) => unfold ObjectId
  | |- reads (dict_of _) => unfold dict_of
  | |- reads (items _) => unfold items
  | |- reads (list_index _ _) => unfold list_index
  | |- reads (list_remove _ _) => unfold list_remove
  | |- reads (get_collection_name _) => unfold get_collection_name
  | |- reads (setattr _ _ _) => unfold setattr
  | |- reads (setattr_all _ _) => unfold setattr_all
  | H : forall a b c d, reads (?f a b c d) |- reads (?f _ _ _ _) => apply H
  end.

#[local] Ltac reads_auto := cbv zeta; repeat (reads_step; cbv zeta).

Section Reads.
Context `{Environment}.

Lemma reads_mixin_get_multiple cls hook dataset_name q depth source :
  (forall v ds d s, reads (hook v ds d s)) ->
  reads (GenericMongoServiceMixin.get_multiple cls hook dataset_name q
           depth source).
Proof.
  intros Rh. unfold GenericMongoServiceMixin.get_multiple,
    mongo_api_service.get_documents.
  reads_auto.
Qed.

Lemma reads_mixin_get_single cls hook id dataset_name depth source :
  (forall v ds d s, reads (hook v ds d s)) ->
  reads (GenericMongoServiceMixin.get_single cls hook id dataset_name
           depth source).
Proof.
  intros Rh. unfold GenericMongoServiceMixin.get_single,
    GenericMongoServiceMixin.get_single_dict,
    mongo_api_service.get_document.
  reads_auto.
Qed.

Lemma reads_activity_execution scen id dataset_name depth source :
  (forall a b c d, reads (scen a b c d)) ->
  reads (ActivityExecutionServiceMongoDB.get_activity_execution scen id
           dataset_name depth source).
Proof.
  intros Rs.
  unfold ActivityExecutionServiceMongoDB.get_activity_execution,
    ActivityExecutionServiceMongoDB.get_single,
    ActivityExecutionServiceMongoDB.get_single_dict,
    ActivityExecutionServiceMongoDB._add_related_documents,
    ActivityExecutionServiceMongoDB._add_related_arrangement,
    ActivityExecutionServiceMongoDB._add_related_experiments,
    ActivityExecutionServiceMongoDB._add_related_participations,
    ActivityExecutionServiceMongoDB._add_activity,
    activity_service.get_multiple, arrangement_service.get_single_dict,
    participation_service.get_multiple.
  reads_auto.
Qed.

Lemma reads_change_ids_to_objects get_ae scenario dataset_name depth :
  (forall a b c d, reads (get_ae a b c d)) ->
  reads (ScenarioServiceMongoDB._change_ids_to_objects get_ae scenario
           dataset_name depth).
Proof.
  intros Rg.
  unfold ScenarioServiceMongoDB._change_ids_to_objects,
    ScenarioServiceMongoDB._change_ae_ids_to_objects,
    ScenarioServiceMongoDB._change_experiment_id_to_object,
    experiment_service.get_experiment.
  reads_auto.
Qed.

Lemma reads_scenario_by_activity_execution get_ae id dataset_name depth
    multiple :
  (forall a b c d, reads (get_ae a b c d)) ->
  reads (ScenarioServiceMongoDB.get_scenario_by_activity_execution get_ae
           id dataset_name depth multiple).
Proof.
  intros Rg.
  unfold ScenarioServiceMongoDB.get_scenario_by_activity_execution,
    ScenarioServiceMongoDB.get_multiple.
  apply reads_bind.
  { apply reads_mixin_get_multiple. intros. apply reads_ret. }
  intros scenarios. destruct scenarios; [apply reads_ret|].
  destruct multiple.
  - apply reads_bind.
    { apply reads_mapM. intros. apply reads_change_ids_to_objects, Rg. }
    intros. reads_auto.
  - apply reads_bind; [apply reads_change_ids_to_objects, Rg|].
    intros. reads_auto.
Qed.

Lemma reads_scenario_by_experiment get_ae id dataset_name depth :
  (forall a b c d, reads (get_ae a b c d)) ->
  reads (ScenarioServiceMongoDB.get_scenario_by_experiment get_ae id
           dataset_name depth).
Proof.
  intros Rg.
  unfold ScenarioServiceMongoDB.get_scenario_by_experiment,
    ScenarioServiceMongoDB.get_multiple.
  apply reads_bind.
  { apply reads_mixin_get_multiple. intros. apply reads_ret. }
  intros scenarios. destruct scenarios; [apply reads_ret|].
  apply reads_bind; [apply reads_change_ids_to_objects, Rg|].
  intros. reads_auto.
Qed.

Lemma reads_scenario_by_element_id get_ae id dataset_name depth :
  (forall a b c d, reads (get_ae a b c d)) ->
  reads (ScenarioServiceMongoDB.get_scenario_by_element_id get_ae id
           dataset_name depth).
Proof.
  intros Rg.
  unfold ScenarioServiceMongoDB.get_scenario_by_element_id,
    experiment_service.get_experiment.
  apply reads_bind; [apply reads_query; reflexivity|]. intros e.
  destruct (negb _).
  - apply reads_bind; [apply reads_scenario_by_experiment, Rg|].
    intros. apply reads_ret.
  - apply reads_bind; [apply Rg|]. intros a. destruct (negb _).
    + apply reads_bind;
        [apply reads_scenario_by_activity_execution, Rg|].
      intros. apply reads_ret.
    + apply reads_ret.
Qed.

(** Every level of the wired activity execution service reads. *)
Lemma reads_activity_execution_service_at n :
  forall id dataset_name depth source,
    reads (activity_execution_service_at n id dataset_name depth source).
Proof.
  induction n as [|n IH]; intros; simpl;
    apply reads_activity_execution; intros.
  - apply reads_raise.
  - apply reads_scenario_by_activity_execution, IH.
Qed.

Lemma reads_wired_get_activity_execution id dataset_name depth source :
  reads (activity_execution_service.get_activity_execution id dataset_name
           depth source).
Proof. apply reads_activity_execution_service_at. Qed.
End Reads.

(** ** The wiring is well founded *)

Lemma same_refl {A} (c : M A) : same c c.
Proof. intros m. reflexivity. Qed.

Lemma same_bind {A B} (c c' : M A) (k k' : A -> M B) :
  same c c' -> (forall a, same (k a) (k' a)) -> same (bind c k) (bind c' k').
Proof.
  intros Ec Ek m. unfold bind. rewrite (Ec m).
  destruct (c' m) as [[[a|e] m1] l1]; [|reflexivity].
  by rewrite (Ek a m1).
Qed.

Lemma same_mapM {A B} (f g : A -> M B) (l : list A) :
  (forall x, same (f x) (g x)) -> same (mapM f l) (mapM g l).
Proof.
  intros E. induction l as [|x l IH]; simpl; [apply same_refl|].
  apply same_bind; [apply E|]. intros y.
  apply same_bind; [exact IH|]. intros ys. apply same_refl.
Qed.

#[local] Ltac same_step :=
  match goal with
  | H : forall a b, same (?f a _ _ _ b) _ |- same (?f _ _ _ _ _) _ =>
      apply H
  | H : forall a b, same (?f a _ _ b) _ |- same (?f _ _ _ _) _ => apply H
  | |- same (bind _ _) (bind _ _) => apply same_bind; [|intros ?]
  | |- same (mapM _ _) (mapM _ _) => apply same_mapM; intros ?
  | |- same (if ?b then _ else _) (if ?b then _ else _) => destruct b
  | |- same (match ?x with _ => _ end) (match ?x with _ => _ end) =>
      destruct x
  | |- same ?c ?c => apply same_refl
  end.

#[local] Ltac same_auto := cbv zeta; repeat (same_step; cbv zeta).

Section Wiring.
Context `{Environment}.
Variables (dataset_name : string) (depth : Z).

(** A read of an execution uses the scenario service at its own depth
    only. *)
Lemma get_activity_execution_ext scen scen' id source :
  (forall a multiple,
     same (scen a dataset_name depth multiple)
          (scen' a dataset_name depth multiple)) ->
  same (ActivityExecutionServiceMongoDB.get_activity_execution scen id
          dataset_name depth source)
       (ActivityExecutionServiceMongoDB.get_activity_execution scen' id
          dataset_name depth source).
Proof.
  intros E.
  unfold ActivityExecutionServiceMongoDB.get_activity_execution,
    ActivityExecutionServiceMongoDB.get_single,
    ActivityExecutionServiceMongoDB.get_single_dict,
    ActivityExecutionServiceMongoDB._add_related_documents,
    ActivityExecutionServiceMongoDB._add_related_experiments.
  same_auto.
Qed.

(** At depth zero or below it does not use it at all. *)
Lemma get_activity_execution_alone scen scen' id source :
  depth <= 0 ->
  same (ActivityExecutionServiceMongoDB.get_activity_execution scen id
          dataset_name depth source)
       (ActivityExecutionServiceMongoDB.get_activity_execution scen' id
          dataset_name depth source).
Proof.
  intros D.
  unfold ActivityExecutionServiceMongoDB.get_activity_execution,
    ActivityExecutionServiceMongoDB.get_single,
    ActivityExecutionServiceMongoDB.get_single_dict,
    ActivityExecutionServiceMongoDB._add_related_documents.
  destruct (Z.gtb_spec depth 0); [lia|]. same_auto.
Qed.

(** A lookup of scenarios reads executions one level down only. *)
Lemma scenario_by_activity_execution_ext get_ae get_ae' a multiple :
  (forall id source,
     same (get_ae id dataset_name (Z.max (depth - 1) 0) source)
          (get_ae' id dataset_name (Z.max (depth - 1) 0) source)) ->
  same (ScenarioServiceMongoDB.get_scenario_by_activity_execution get_ae a
          dataset_name depth multiple)
       (ScenarioServiceMongoDB.get_scenario_by_activity_execution get_ae' a
          dataset_name depth multiple).
Proof.
  intros E.
  unfold ScenarioServiceMongoDB.get_scenario_by_activity_execution,
    ScenarioServiceMongoDB._change_ids_to_objects,
    ScenarioServiceMongoDB._change_ae_ids_to_objects.
  same_auto.
Qed.

(** The wired read of an execution is the read of the activity execution
    service with the wired scenario service behind it: the level at which
    the recursion is cut is never reached. *)
Lemma wired_get_activity_execution_unfolds id source :
  same (activity_execution_service.get_activity_execution id dataset_name
          depth source)
       (ActivityExecutionServiceMongoDB.get_activity_execution
          scenario_service.get_scenario_by_activity_execution id
          dataset_name depth source).
Proof.
  unfold activity_execution_service.get_activity_execution.
  destruct (Z.to_nat depth) as [|n] eqn:En; simpl.
  - apply get_activity_execution_alone. lia.
  - apply get_activity_execution_ext. intros a multiple.
    apply scenario_by_activity_execution_ext. intros id' source'.
    unfold activity_execution_service.get_activity_execution.
    replace (Z.to_nat (Z.max (depth - 1) 0)) with n by lia.
    apply same_refl.
Qed.
End Wiring.

(** ** C3 and C7: operations on an id that is not stored *)

Section Missing.
Context `{Environment}.
Import mongo_api_service.

Lemma get_single_of_missing cls hook name id dataset_name depth source m :
  get_collection_name cls m = (Ok name, m, []) ->
  List.find (has_id id) (collection m dataset_name name) = None ->
  GenericMongoServiceMixin.get_single cls hook id dataset_name depth
    source m
  = (Ok (gateway_sentinel id), m, [MongoGetDocument id name dataset_name]).
Proof.
  intros Ec Ef.
  unfold GenericMongoServiceMixin.get_single,
    GenericMongoServiceMixin.get_single_dict.
  unfold bind at 1. unfold bind at 1. rewrite Ec.
  unfold get_document, query, invoke, bind. rewrite Ef. reflexivity.
Qed.

(** The generic update does stop at a missing id: the sentinel comes
    back and the only call made is the read. *)
Lemma update_of_missing_id cls hook name id updated dataset_name m :
  get_collection_name cls m = (Ok name, m, []) ->
  List.find (has_id id) (collection m dataset_name name) = None ->
  GenericMongoServiceMixin.update cls hook id updated dataset_name m
  = (Ok (gateway_sentinel id), m, [MongoGetDocument id name dataset_name]).
Proof.
  intros Ec Ef. unfold GenericMongoServiceMixin.update.
  unfold bind at 1.
  rewrite (get_single_of_missing _ _ _ _ _ _ _ _ Ec Ef). reflexivity.
Qed.
End Missing.

(** C3. The generic delete on an id without a record: the re-fetch yields
    the NotFound sentinel, which is not [None], so the test
    [existing_document is None] does not stop the operation and
    [delete_document] is called on storage with the sentinel. *)
Theorem delete_of_missing_id_reaches_storage `{Environment}
    (cls : PyClass) (hook : Value -> string -> Z -> string -> M Value)
    (name : string) (id : Value) (dataset_name : string) (m : Mongo) :
  get_collection_name cls m = (Ok name, m, []) ->
  List.find (mongo_api_service.has_id id)
    (mongo_api_service.collection m dataset_name name) = None ->
  let r := GenericMongoServiceMixin.delete cls hook id dataset_name m in
  calls r = [MongoGetDocument id name dataset_name;
             MongoDeleteDocument (gateway_sentinel id) dataset_name]
  /\ Exists (fun call => is_delete_document call = true) (calls r).
Proof.
  intros Ec Ef r.
  assert (calls r = [MongoGetDocument id name dataset_name;
                     MongoDeleteDocument (gateway_sentinel id) dataset_name])
    as E.
  { subst r. unfold GenericMongoServiceMixin.delete.
    unfold bind at 1.
    rewrite (get_single_of_missing _ _ _ _ _ 0 "" _ Ec Ef).
    simpl. unfold bind, mongo_api_service.delete_document, invoke. simpl.
    reflexivity. }
  split; [exact E|]. rewrite E. right. left. reflexivity.
Qed.

Lemma delete_of_missing_id_reaches_storage_witness :
  calls (@MeasureServiceMongoDB.delete_measure Reference.environment
           (VStr "nope") "ds" Reference.db1)
  = [MongoGetDocument (VStr "nope") Collections.MEASURE "ds";
     MongoDeleteDocument (gateway_sentinel (VStr "nope")) "ds"].
Proof.
  exact (proj1 (@delete_of_missing_id_reaches_storage Reference.environment
                  MeasureOut
                  (@MeasureServiceMongoDB._add_related_documents
                     Reference.environment)
                  Collections.MEASURE (VStr "nope") "ds" Reference.db1
                  eq_refl eq_refl)).
Defined.

(** Patching an instance field by field either succeeds silently or
    stops at a field the class does not declare. *)
Lemma setattr_all_outcome `{Environment} (fields : list (string * Value))
    (c : PyClass) (d : Dict) (m : Mongo) :
  (exists d', setattr_all (VObj c d) fields m = (Ok (VObj c d'), m, []))
  \/ setattr_all (VObj c d) fields m = (Raised ValueError, m, []).
Proof.
  revert d. induction fields as [|[f v] fields IH]; intros d.
  - left. exists d. reflexivity.
  - unfold setattr_all in *. simpl. unfold bind. simpl.
    destruct (declares c f) eqn:Ed; simpl.
    + destruct (IH (<[f:=v]> d)) as [[d' E]|E]; rewrite E;
        [left; eauto | right; reflexivity].
    + right. reflexivity.
Qed.

(** C7. update_activity_execution on an id that resolves to no execution
    does not return at the sentinel: it goes on to patch the sentinel and
    either stops with the [ValueError] of pydantic or calls the activity
    service's update. *)
Theorem update_activity_execution_skips_existence_check `{Environment}
    (scen : Value -> string -> Z -> bool -> M Value)
    (id : Value) (c : PyClass) (patch : Dict) (dataset_name : string)
    (m : Mongo) (sentinel : Dict) (l0 : list Call) :
  ActivityExecutionServiceMongoDB.get_activity_execution scen id
    dataset_name 0 "" m = (Ok (VObj NotFoundByIdModel sentinel), m, l0) ->
  let r :=
    ActivityExecutionServiceMongoDB.update_activity_execution scen id
      (VObj c patch) dataset_name m in
  result r = Raised ValueError
  \/ Exists (fun call => is_update_activity_execution call = true) (calls r).
Proof.
  intros Eg r. subst r.
  unfold ActivityExecutionServiceMongoDB.update_activity_execution.
  erewrite bind_Ok by exact Eg.
  rewrite (bind_pure (dict_of _) _ m (VDict (to_plain <$> patch)))
    by reflexivity.
  rewrite (bind_pure (items _) _ m (map_to_list (to_plain <$> patch)))
    by reflexivity.
  destruct (setattr_all_outcome (map_to_list (to_plain <$> patch))
              NotFoundByIdModel sentinel m) as [[d' E]|E].
  - right. erewrite bind_Ok by exact E.
    rewrite (bind_pure (dict_of _) _ m (VDict (to_plain <$> d')))
      by reflexivity.
    unfold activity_service.update_activity_execution, command, invoke.
    destruct (ActivityService_update_activity_execution id
                (VDict (to_plain <$> d')) dataset_name m) as [v m'].
    unfold calls. simpl.
    apply Exists_app. right. left. reflexivity.
  - left. erewrite bind_Raised by exact E. reflexivity.
Qed.

Lemma update_activity_execution_skips_existence_check_witness :
  result (@ActivityExecutionServiceMongoDB.update_activity_execution
            Reference.environment (fun _ _ _ _ => raise RecursionError)
            (VStr Reference.id_none)
            (VObj ActivityExecutionPropertyIn
               (list_to_map [("additional_properties", VNone)]))
            "ds" Reference.db1)
  = Raised ValueError.
Proof.
  destruct (@update_activity_execution_skips_existence_check
              Reference.environment (fun _ _ _ _ => raise RecursionError)
              (VStr Reference.id_none) ActivityExecutionPropertyIn
              (list_to_map [("additional_properties", VNone)])
              "ds" Reference.db1 _ _ eq_refl) as [E|E].
  - exact E.
  - vm_compute. reflexivity.
Defined.

(** ** Computations that call nothing *)

Lemma silent_ret {A} (a : A) : silent (ret a).
Proof. intros m. eexists. reflexivity. Qed.

Lemma silent_raise {A} (e : Exc) : silent (@raise A e).
Proof. intros m. eexists. reflexivity. Qed.

Lemma silent_bind {A B} (c : M A) (k : A -> M B) :
  silent c -> (forall a, silent (k a)) -> silent (bind c k).
Proof.
  intros Sc Sk m. destruct (Sc m) as [[a|e] E].
  - destruct (Sk a m) as [r E']. exists r.
    rewrite (bind_pure _ _ _ _ E). exact E'.
  - exists (Raised e). apply bind_Raised, E.
Qed.

Lemma silent_mapM {A B} (f : A -> M B) (l : list A) :
  (forall x, silent (f x)) -> silent (mapM f l).
Proof.
  intros Sf. induction l as [|x l IH]; simpl.
  - apply silent_ret.
  - apply silent_bind; [apply Sf|]. intros y.
    apply silent_bind; [exact IH|]. intros ys. apply silent_ret.
Qed.

(** One recorded read followed by silence. *)
Lemma query_then_silent {A B : Type} (c : Call) (f : Mongo -> A) (k : A -> M B) m :
  (forall a, silent (k a)) ->
  exists r, bind (query c f) k m = (r, m, [c]).
Proof.
  intros Sk. destruct (Sk (f m) m) as [r E]. exists r.
  erewrite bind_Ok by reflexivity. rewrite E. reflexivity.
Qed.

#[local] Ltac silent_step :=
  match goal with
  | |- silent (bind _ _) => apply silent_bind; [|intros ?]
  | |- silent (ret _) => apply silent_ret
  | |- silent (raise _) => apply silent_raise
  | |- silent (mapM _ _) => apply silent_mapM; intros ?
  | |- silent (if ?b then _ else _) => destruct b
  | |- silent (match ?x with _ => _ end) => destruct x
  | |- silent (getattr _ _) => unfold getattr
  | |- silent (getitem _ _) => unfold getitem
  | |- silent (setitem _ _ _) => unfold setitem
  | |- silent (delitem _ _) => unfold delitem
  | |- silent (as_list _) => unfold as_list
  | |- silent (construct _ _) => unfold construct
  | |- silent (validated _ _) => unfold validated
  | |- silent (ObjectId _) => unfold ObjectId
  | |- silent (dict_of _) => unfold dict_of
  | |- silent (items _) => unfold items
  end.

#[local] Ltac silent_auto := cbv zeta; repeat (silent_step; cbv zeta).

Section DepthZero.
Context `{Environment}.

(** At depth zero or below the expansion hook of an execution does
    nothing. *)
Lemma activity_execution_hook_stops scen v dataset_name depth source
    activity m :
  depth <= 0 ->
  ActivityExecutionServiceMongoDB._add_related_documents scen v
    dataset_name depth source activity m = (Ok v, m, []).
Proof.
  intros D. unfold ActivityExecutionServiceMongoDB._add_related_documents.
  destruct (Z.gtb_spec depth 0); [lia | reflexivity].
Qed.

(** The conversion of an identifier calls nothing. *)
Lemma ObjectId_run (id : Value) (m : Mongo) :
  exists r, ObjectId id m = (r, m, []).
Proof.
  destruct id as [| |s| | | | |]; simpl; try (eexists; reflexivity).
  destruct (is_object_id s); eexists; reflexivity.
Qed.

(** A read of an execution at depth zero or below stops at an identifier
    that is no object id, before any call; otherwise it makes one call,
    the query on the activities, whatever the scenario service is. *)
Lemma get_activity_execution_at_depth_zero scen id dataset_name depth
    source m :
  depth <= 0 ->
  (exists e,
     ActivityExecutionServiceMongoDB.get_activity_execution scen id
       dataset_name depth source m = (Raised e, m, []))
  \/ exists r q projection,
       ActivityExecutionServiceMongoDB.get_activity_execution scen id
         dataset_name depth source m
       = (r, m, [ActivityGetMultiple dataset_name q (depth - 1)
                   Collections.ACTIVITY_EXECUTION projection]).
Proof.
  intros D.
  unfold ActivityExecutionServiceMongoDB.get_activity_execution,
    ActivityExecutionServiceMongoDB.get_single,
    ActivityExecutionServiceMongoDB.get_single_dict,
    activity_service.get_multiple.
  assert (forall v activity,
    silent (ActivityExecutionServiceMongoDB._add_related_documents scen v
              dataset_name depth source activity)) as Sh.
  { intros v activity m'. exists (Ok v).
    apply activity_execution_hook_stops, D. }
  rewrite bind_assoc.
  destruct (ObjectId_run id m) as [[oid|e] Eo].
  - right. rewrite (bind_pure _ _ m oid Eo). cbv beta. rewrite bind_assoc.
    match goal with
    | |- context [bind (query ?c ?f) ?k] =>
        destruct (query_then_silent c f k m) as [r E]
    end.
    { intros a. silent_auto; apply Sh. }
    exists r. do 2 eexists. exact E.
  - left. exists e. erewrite bind_Raised by exact Eo. reflexivity.
Qed.
End DepthZero.

(** ** C8: updating the relationships of an execution *)

Lemma setattr_all_declared `{Environment} (fields : list (string * Value))
    (c : PyClass) (d : Dict) (m : Mongo) :
  Forall (fun fv => declares c fv.1 = true) fields ->
  setattr_all (VObj c d) fields m
  = (Ok (VObj c (foldl (fun acc fv => <[fv.1 := fv.2]> acc) d fields)),
     m, []).
Proof.
  revert d. induction fields as [|[f v] fields IH]; intros d D.
  - reflexivity.
  - inversion D as [|? ? Df D']; subst. simpl in Df.
    unfold setattr_all in *. simpl.
    rewrite (bind_pure _ _ m (VObj c (<[f:=v]> d)));
      [|unfold setattr; simpl; rewrite Df; reflexivity].
    apply IH, D'.
Qed.

Lemma foldl_insert_union (fields : list (string * Value)) (d : Dict) :
  NoDup fields.*1 ->
  foldl (fun acc fv => <[fv.1 := fv.2]> acc) d fields
  = list_to_map fields ∪ d.
Proof.
  revert d. induction fields as [|[f v] fields IH]; intros d N; simpl.
  - by rewrite (left_id_L ∅ (∪)).
  - inversion N as [|? ? Nf N']; subst.
    rewrite (IH _ N'), <- insert_union_l. symmetry.
    apply insert_union_r. by apply not_elem_of_list_to_map_1.
Qed.

(** The loop that copies the fields of a patch onto an instance: the
    patch wins, the other fields stay. *)
Lemma setattr_all_patch `{Environment} (patch : Dict) (c : PyClass)
    (d : Dict) (m : Mongo) :
  (forall f, is_Some (patch !! f) -> declares c f = true) ->
  setattr_all (VObj c d) (map_to_list patch) m
  = (Ok (VObj c (patch ∪ d)), m, []).
Proof.
  intros D. rewrite setattr_all_declared.
  - rewrite foldl_insert_union by apply NoDup_fst_map_to_list.
    by rewrite list_to_map_to_list.
  - apply Forall_forall. intros [f v] Hin. simpl.
    apply D. exists v. by apply elem_of_map_to_list.
Qed.

(** C8. update_activity_execution_relationships on an existing execution:
    an activity_id that does not resolve gives an error output, null or
    not; an arrangement_id that does not resolve gives an error output
    when it is not null; otherwise (the arrangement_id is null or
    resolves) the existing record with the patch merged over it is handed
    to the activity service's update, whose result is returned. *)
Theorem update_relationships_validates_then_persists `{Environment}
    (scen : Value -> string -> Z -> bool -> M Value)
    (id : Value) (c : PyClass) (patch : Dict) (dataset_name : string)
    (m : Mongo) (existing : Dict) :
  let request := VObj c patch in
  let aid := attr request "activity_id" in
  let rid := attr request "arrangement_id" in
  let activity_missing :=
    type_is (ActivityService_get_activity aid dataset_name m)
      NotFoundByIdModel in
  let arrangement_missing :=
    type_is (ArrangementService_get_arrangement rid dataset_name m)
      NotFoundByIdModel in
  let fetch :=
    ActivityExecutionServiceMongoDB.get_activity_execution scen id
      dataset_name 0 "" m in
  let r :=
    ActivityExecutionServiceMongoDB.update_activity_execution_relationships
      scen id request dataset_name m in
  result fetch = Ok (VObj ActivityExecutionOut existing) ->
  (activity_missing = true ->
     result r = Ok (with_errors ActivityExecutionOut
                      "given activity does not exist")
     /\ db r = m
     /\ Forall (fun call => is_write call = false) (calls r))
  /\ (activity_missing = false -> rid <> VNone ->
      arrangement_missing = true ->
        result r = Ok (with_errors ActivityExecutionOut
                         "given arrangement does not exist")
        /\ db r = m
        /\ Forall (fun call => is_write call = false) (calls r))
  /\ (activity_missing = false ->
      rid = VNone \/ arrangement_missing = false ->
      (forall f, is_Some (patch !! f) ->
                 declares ActivityExecutionOut f = true) ->
        let merged :=
          VDict (to_plain <$> ((to_plain <$> patch) ∪ existing)) in
        let out :=
          ActivityService_update_activity_execution id merged dataset_name
            m in
        result r = Ok out.1
        /\ db r = out.2
        /\ calls r
           = (calls fetch ++
              [ActivityGetActivity aid dataset_name;
               ArrangementGetArrangement rid dataset_name;
               ActivityUpdateActivityExecution id merged dataset_name])%list).
Proof.
  intros request aid rid activity_missing arrangement_missing fetch r Ef.
  destruct (get_activity_execution_at_depth_zero scen id dataset_name 0 ""
              m ltac:(lia)) as [(e & Eg)|(x & q & projection & Eg)];
    fold fetch in Eg; rewrite Eg in Ef; unfold result in Ef; simpl in Ef;
    [discriminate|].
  subst x.
  assert (calls fetch = [ActivityGetMultiple dataset_name q (0 - 1)
                           Collections.ACTIVITY_EXECUTION projection])
    as Ec by (rewrite Eg; reflexivity).
  rewrite Ec. clear Ec.
  (* the three ways through the validations, each as an equation *)
  assert (activity_missing = true ->
          r = (Ok (with_errors ActivityExecutionOut
                     "given activity does not exist"), m,
               [ActivityGetMultiple dataset_name q (0 - 1)
                  Collections.ACTIVITY_EXECUTION projection;
                ActivityGetActivity aid dataset_name])) as E1.
  { intros Ha. subst r. unfold
      ActivityExecutionServiceMongoDB.update_activity_execution_relationships.
    erewrite bind_Ok by exact Eg.
    cbn [type_is]. rewrite bool_decide_eq_false_2 by discriminate.
    rewrite (bind_pure (getattr request _) _ m aid) by reflexivity.
    unfold activity_service.get_activity at 1.
    erewrite (bind_Ok (query _ _)) by reflexivity.
    fold activity_missing. rewrite Ha. reflexivity. }
  assert (activity_missing = false -> rid <> VNone ->
          arrangement_missing = true ->
          r = (Ok (with_errors ActivityExecutionOut
                     "given arrangement does not exist"), m,
               [ActivityGetMultiple dataset_name q (0 - 1)
                  Collections.ACTIVITY_EXECUTION projection;
                ActivityGetActivity aid dataset_name;
                ArrangementGetArrangement rid dataset_name])) as E2.
  { intros Ha Nr Hr. subst r. unfold
      ActivityExecutionServiceMongoDB.update_activity_execution_relationships.
    erewrite bind_Ok by exact Eg.
    cbn [type_is]. rewrite bool_decide_eq_false_2 by discriminate.
    rewrite (bind_pure (getattr request _) _ m aid) by reflexivity.
    unfold activity_service.get_activity at 1.
    erewrite (bind_Ok (query _ _)) by reflexivity.
    fold activity_missing. rewrite Ha. cbn [negb].
    rewrite (bind_pure (getattr request _) _ m rid) by reflexivity.
    unfold arrangement_service.get_arrangement at 1.
    erewrite (bind_Ok (query _ _)) by reflexivity.
    fold arrangement_missing. rewrite Hr, (is_None_false _ Nr).
    reflexivity. }
  assert (activity_missing = false ->
          rid = VNone \/ arrangement_missing = false ->
          (forall f, is_Some (patch !! f) ->
                     declares ActivityExecutionOut f = true) ->
          let merged :=
            VDict (to_plain <$> ((to_plain <$> patch) ∪ existing)) in
          let out :=
            ActivityService_update_activity_execution id merged dataset_name
              m in
          r = (Ok out.1, out.2,
               [ActivityGetMultiple dataset_name q (0 - 1)
                  Collections.ACTIVITY_EXECUTION projection;
                ActivityGetActivity aid dataset_name;
                ArrangementGetArrangement rid dataset_name;
                ActivityUpdateActivityExecution id merged dataset_name]))
    as E3.
  { intros Ha Hr Hd merged out. subst r. unfold
      ActivityExecutionServiceMongoDB.update_activity_execution_relationships.
    erewrite bind_Ok by exact Eg.
    cbn [type_is]. rewrite bool_decide_eq_false_2 by discriminate.
    rewrite (bind_pure (getattr request _) _ m aid) by reflexivity.
    unfold activity_service.get_activity at 1.
    erewrite (bind_Ok (query _ _)) by reflexivity.
    fold activity_missing. rewrite Ha. cbn [negb].
    rewrite (bind_pure (getattr request _) _ m rid) by reflexivity.
    unfold arrangement_service.get_arrangement at 1.
    erewrite (bind_Ok (query _ _)) by reflexivity.
    fold arrangement_missing.
    assert (negb (is_None rid) && negb (negb arrangement_missing) = false)
      as ->.
    { destruct Hr as [->| ->]; [reflexivity|].
      by rewrite andb_false_r. }
    rewrite (bind_pure (dict_of _) _ m (VDict (to_plain <$> patch)))
      by reflexivity.
    rewrite (bind_pure (items _) _ m (map_to_list (to_plain <$> patch)))
      by reflexivity.
    erewrite bind_Ok.
    2:{ apply setattr_all_patch. intros f Hf. apply Hd.
        rewrite lookup_fmap in Hf. by apply fmap_is_Some in Hf. }
    rewrite (bind_pure (dict_of _) _ m merged) by reflexivity.
    unfold activity_service.update_activity_execution, command, invoke.
    fold out. destruct out as [v m']. reflexivity. }
  clearbody r. split; [|split].
  - intros Ha. rewrite (E1 Ha). repeat split. repeat constructor.
  - intros Ha Nr Hr. rewrite (E2 Ha Nr Hr). repeat split.
    repeat constructor.
  - intros Ha Hr Hd merged out. rewrite (E3 Ha Hr Hd). repeat split.
Qed.

Lemma update_relationships_validates_then_persists_witness :
  let env := Reference.environment in
  let scen : Value -> string -> Z -> bool -> M Value :=
    fun _ _ _ _ => raise RecursionError in
  let run request :=
    @ActivityExecutionServiceMongoDB.update_activity_execution_relationships
      env scen (VStr Reference.id_a) request "ds" Reference.db1 in
  result (run (Reference.execution_in (VStr "ghost") VNone))
  = Ok (with_errors ActivityExecutionOut "given activity does not exist")
  /\ result (run (Reference.execution_in (VStr "act1") (VStr "ghost")))
     = Ok (with_errors ActivityExecutionOut
             "given arrangement does not exist")
  /\ Exists (fun call => is_update_activity_execution call = true)
       (calls (run (Reference.execution_in (VStr "act2") VNone))).
Proof.
  intros env scen run.
  pose (existing := list_to_map [("id", VStr Reference.id_a);
                                 ("arrangement_id", VStr "arr1")] : Dict).
  pose (thm := fun activity arrangement =>
    @update_relationships_validates_then_persists env scen (VStr Reference.id_a)
      ActivityExecutionIn
      (list_to_map [("activity_id", activity);
                    ("arrangement_id", arrangement)])
      "ds" Reference.db1 existing).
  split; [|split].
  - destruct (thm (VStr "ghost") VNone) as ((R & _) & _).
    + vm_compute. reflexivity.
    + vm_compute. reflexivity.
    + exact R.
  - destruct (thm (VStr "act1") (VStr "ghost")) as (_ & (R & _) & _).
    + vm_compute. reflexivity.
    + vm_compute. reflexivity.
    + discriminate.
    + vm_compute. reflexivity.
    + exact R.
  - destruct (thm (VStr "act2") VNone) as (_ & _ & (_ & _ & C)).
    + vm_compute. reflexivity.
    + vm_compute. reflexivity.
    + left. reflexivity.
    + intros f _. reflexivity.
    + unfold run, Reference.execution_in. rewrite C. apply Exists_app. right.
      right. right. left. reflexivity.
Defined.

(** ** C1 and C2: the expansion hooks *)

Lemma bind_inv_Ok {A B} (c : M A) (k : A -> M B) m b :
  result (bind c k m) = Ok b ->
  exists a m1 l1, c m = (Ok a, m1, l1) /\ result (k a m1) = Ok b.
Proof.
  unfold bind, result. destruct (c m) as [[[a|e] m1] l1]; simpl.
  - intros E. exists a, m1, l1. split; [reflexivity|].
    destruct (k a m1) as [[r m2] l2]. exact E.
  - discriminate.
Qed.

Lemma field_setitem_ne (v v' x : Value) (key k : string) m m' l :
  setitem v key x m = (Ok v', m', l) -> k <> key -> field v' k = field v k.
Proof.
  destruct v; simpl; try discriminate. intros [= <- _ _] N.
  simpl. by rewrite lookup_insert_ne.
Qed.

Lemma mapM_ret {A} (l : list A) m :
  mapM (fun x => ret x) l m = (Ok l, m, []).
Proof.
  induction l as [|x l IH]; [reflexivity|]. simpl.
  rewrite bind_ret_l. rewrite (bind_pure _ _ m l) by exact IH. reflexivity.
Qed.

(** The scenario service's filtered read: the matching stored scenarios,
    untouched by its empty hook. *)
Lemma scenario_get_multiple_run `{Environment} dataset_name q depth
    source m :
  ScenarioServiceMongoDB.get_multiple dataset_name q depth source m
  = (Ok (List.filter (mongo_api_service.matches q)
           (scenarios m dataset_name)), m,
     [MongoGetDocuments Collections.SCENARIO dataset_name q]).
Proof.
  unfold ScenarioServiceMongoDB.get_multiple,
    GenericMongoServiceMixin.get_multiple,
    mongo_api_service.get_documents.
  rewrite (bind_pure _ _ m Collections.SCENARIO) by reflexivity.
  erewrite (bind_Ok (query _ _)) by reflexivity.
  unfold ScenarioServiceMongoDB._add_related_documents.
  rewrite mapM_ret. reflexivity.
Qed.

(** Computations that avoid a kind of call. *)
Lemma avoids_ret {A} (p : Call -> bool) (a : A) : avoids p (ret a).
Proof. intros m. constructor. Qed.

Lemma avoids_raise {A} (p : Call -> bool) (e : Exc) : avoids p (@raise A e).
Proof. intros m. constructor. Qed.

Lemma avoids_query {A} (p : Call -> bool) (c : Call) (f : Mongo -> A) :
  p c = false -> avoids p (query c f).
Proof. intros E m. repeat constructor. exact E. Qed.

Lemma avoids_bind {A B} (p : Call -> bool) (c : M A) (k : A -> M B) :
  avoids p c -> (forall a, avoids p (k a)) -> avoids p (bind c k).
Proof.
  intros Ac Ak m. unfold bind. specialize (Ac m).
  destruct (c m) as [[[a|e] m1] l1]; unfold calls in *; simpl in *.
  - specialize (Ak a m1). destruct (k a m1) as [[r m2] l2].
    unfold calls in *; simpl in *. apply Forall_app; split; assumption.
  - exact Ac.
Qed.

Lemma avoids_mapM {A B} (p : Call -> bool) (f : A -> M B) (l : list A) :
  (forall x, avoids p (f x)) -> avoids p (mapM f l).
Proof.
  intros Af. induction l as [|x l IH]; simpl.
  - apply avoids_ret.
  - apply avoids_bind; [apply Af|]. intros y.
    apply avoids_bind; [exact IH|]. intros ys. apply avoids_ret.
Qed.

#[local] Ltac avoids_step :=
  match goal with
  | |- avoids _ (bind _ _) => apply avoids_bind; [|intros ?]
  | |- avoids _ (ret _) => apply avoids_ret
  | |- avoids _ (raise _) => apply avoids_raise
  | |- avoids _ (query _ _) => apply avoids_query; reflexivity
  | |- avoids _ (mapM _ _) => apply avoids_mapM; intros ?
  | |- avoids _ (if ?b then _ else _) => destruct b
  | |- avoids _ (match ?x with _ => _ end) => destruct x
  | |- avoids _ (getattr _ _) => unfold getattr
  | |- avoids _ (getitem _ _) => unfold getitem
  | |- avoids _ (setitem _ _ _) => unfold setitem
  | |- avoids _ (as_list _) => unfold as_list
  | |- avoids _ (validated _ _) => unfold validated
  | |- avoids _ (get_collection_name _) => unfold get_collection_name
  | H : forall a b, avoids ?p (?f a _ _ b) |- avoids ?p (?f _ _ _ _) =>
      apply H
  end.

#[local] Ltac avoids_auto := cbv zeta; repeat (avoids_step; cbv zeta).

Section Avoidance.
Context `{Environment}.
Variable p : Call -> bool.
Variable dataset_name : string.

(** A read of an execution at depth zero asks the activity service
    only. *)
Lemma get_activity_execution_avoids scen id source :
  (forall q depth source projection,
     p (ActivityGetMultiple dataset_name q depth source projection)
     = false) ->
  avoids p (ActivityExecutionServiceMongoDB.get_activity_execution scen id
              dataset_name 0 source).
Proof.
  intros Hp m.
  destruct (get_activity_execution_at_depth_zero scen id dataset_name 0
              source m ltac:(lia)) as [(e & E)|(r & q & projection & E)];
    rewrite E; repeat constructor. apply Hp.
Qed.

(** The lookup of the scenarios of an execution at depth one reads the
    scenarios, the executions at depth zero and the experiment. *)
Lemma scenarios_of_execution_avoid id multiple :
  (forall q depth source projection,
     p (ActivityGetMultiple dataset_name q depth source projection)
     = false) ->
  (forall q, p (MongoGetDocuments Collections.SCENARIO dataset_name q)
             = false) ->
  (forall id depth source,
     p (ExperimentGetExperiment id dataset_name depth source) = false) ->
  avoids p (scenario_service.get_scenario_by_activity_execution id
              dataset_name 1 multiple).
Proof.
  intros Ha Hs He.
  assert (forall id source,
            avoids p (activity_execution_service.get_activity_execution id
                        dataset_name (Z.max (1 - 1) 0) source)) as Hg.
  { intros id' source'. apply get_activity_execution_avoids, Ha. }
  assert (forall scenario,
            avoids p (scenario_service._change_ids_to_objects scenario
                        dataset_name 1)) as Hh.
  { intros scenario.
    unfold scenario_service._change_ids_to_objects,
      ScenarioServiceMongoDB._change_ids_to_objects,
      ScenarioServiceMongoDB._change_ae_ids_to_objects,
      ScenarioServiceMongoDB._change_experiment_id_to_object,
      experiment_service.get_experiment.
    cbv zeta. apply avoids_bind.
    - apply avoids_bind; [avoids_auto|]. intros ids.
      apply avoids_bind; [avoids_auto|]. intros l.
      apply avoids_bind; [|intros; avoids_auto].
      apply avoids_mapM. intros ae_id. apply Hg.
    - intros sc. apply avoids_bind; [avoids_auto|]. intros e.
      apply avoids_bind; [|intros; avoids_auto].
      apply avoids_query, He. }
  unfold scenario_service.get_scenario_by_activity_execution,
    ScenarioServiceMongoDB.get_scenario_by_activity_execution.
  fold scenario_service._change_ids_to_objects. cbv zeta.
  apply avoids_bind.
  - intros m. rewrite scenario_get_multiple_run.
    repeat constructor. apply Hs.
  - intros scenarios. destruct scenarios as [|scenario rest];
      [apply avoids_ret|].
    destruct multiple.
    + apply avoids_bind; [|intros; avoids_auto].
      apply avoids_mapM. intros sc. apply Hh.
    + apply avoids_bind; [apply Hh | intros; avoids_auto].
Qed.
End Avoidance.

Section Expansion.
Context `{Environment}.
Variable scen : Value -> string -> Z -> bool -> M Value.
Variables (dataset_name : string) (depth : Z).

(** Each step of the expansion of an execution writes at most its own
    key, and nothing when the source is its own relation. *)
Lemma arrangement_step v source m v' :
  result (ActivityExecutionServiceMongoDB._add_related_arrangement v
            dataset_name depth source m) = Ok v' ->
  (source = Collections.ARRANGEMENT -> v' = v)
  /\ forall k, k <> "arrangement" -> field v' k = field v k.
Proof.
  unfold ActivityExecutionServiceMongoDB._add_related_arrangement.
  intros E. apply bind_inv_Ok in E as (rid & m1 & l1 & _ & E).
  destruct (bool_decide (source ≠ Collections.ARRANGEMENT)) eqn:Es; simpl in E.
  - apply bool_decide_eq_true_1 in Es. split; [congruence|].
    destruct (is_None rid); simpl in E.
    + injection E as <-. reflexivity.
    + apply bind_inv_Ok in E as (x & m2 & l2 & _ & E).
      destruct (setitem v "arrangement" x m2) as [[r m3] l3] eqn:Ei.
      unfold result in E. simpl in E. subst r.
      intros k N. eapply field_setitem_ne; eauto.
  - injection E as <-. split; reflexivity.
Qed.

Lemma experiments_step v source m v' :
  result (ActivityExecutionServiceMongoDB._add_related_experiments scen v
            dataset_name depth source m) = Ok v' ->
  (source = Collections.EXPERIMENT -> v' = v)
  /\ forall k, k <> "experiments" -> field v' k = field v k.
Proof.
  unfold ActivityExecutionServiceMongoDB._add_related_experiments.
  intros E.
  destruct (bool_decide (source = Collections.EXPERIMENT)) eqn:Es.
  - rewrite orb_true_r in E. injection E as <-. split; reflexivity.
  - apply bool_decide_eq_false_1 in Es. split; [congruence|].
    destruct (depth <=? 0)%Z; simpl in E.
    + injection E as <-. reflexivity.
    + apply bind_inv_Ok in E as (id & m1 & l1 & _ & E).
      apply bind_inv_Ok in E as (related & m2 & l2 & _ & E).
      destruct (type_is related NotFoundByIdModel).
      * injection E as <-. reflexivity.
      * apply bind_inv_Ok in E as (scs & m3 & l3 & _ & E).
        apply bind_inv_Ok in E as (exps & m4 & l4 & _ & E).
        destruct (setitem v "experiments" (VList exps) m4)
          as [[r m5] l5] eqn:Ei.
        unfold result in E. simpl in E. subst r.
        intros k N. eapply field_setitem_ne; eauto.
Qed.

Lemma participations_step v source m v' :
  result (ActivityExecutionServiceMongoDB._add_related_participations v
            dataset_name depth source m) = Ok v' ->
  (source = Collections.PARTICIPATION -> v' = v)
  /\ forall k, k <> "participations" -> field v' k = field v k.
Proof.
  unfold ActivityExecutionServiceMongoDB._add_related_participations.
  intros E. destruct (decide (source ≠ Collections.PARTICIPATION)) as [N|N].
  - split; [congruence|].
    apply bind_inv_Ok in E as (id & m1 & l1 & _ & E).
    apply bind_inv_Ok in E as (ps & m2 & l2 & _ & E).
    destruct (setitem v "participations" (VList ps) m2)
      as [[r m3] l3] eqn:Ei.
    unfold result in E. simpl in E. subst r.
    intros k Nk. eapply field_setitem_ne; eauto.
  - injection E as <-. split; reflexivity.
Qed.

Lemma activity_step v source activity m v' :
  result (ActivityExecutionServiceMongoDB._add_activity v dataset_name
            depth source activity m) = Ok v' ->
  (source = Collections.ACTIVITY -> v' = v)
  /\ forall k, k <> "activity" -> field v' k = field v k.
Proof.
  unfold ActivityExecutionServiceMongoDB._add_activity.
  intros E. destruct (decide (source ≠ Collections.ACTIVITY)) as [N|N].
  - split; [congruence|].
    destruct (setitem v "activity" activity m) as [[r m3] l3] eqn:Ei.
    unfold result in E. simpl in E. subst r.
    intros k Nk. eapply field_setitem_ne; eauto.
  - injection E as <-. split; reflexivity.
Qed.

(** The four steps in sequence. *)
Lemma activity_execution_hook_steps v source activity m v' :
  depth > 0 ->
  result (ActivityExecutionServiceMongoDB._add_related_documents scen v
            dataset_name depth source activity m) = Ok v' ->
  exists v1 v2 v3 m1 m2 m3,
    result (ActivityExecutionServiceMongoDB._add_related_arrangement v
              dataset_name depth source m) = Ok v1
    /\ result (ActivityExecutionServiceMongoDB._add_related_experiments
                 scen v1 dataset_name depth source m1) = Ok v2
    /\ result (ActivityExecutionServiceMongoDB._add_related_participations
                 v2 dataset_name depth source m2) = Ok v3
    /\ result (ActivityExecutionServiceMongoDB._add_activity v3
                 dataset_name depth source activity m3) = Ok v'.
Proof.
  intros D. unfold ActivityExecutionServiceMongoDB._add_related_documents.
  destruct (Z.gtb_spec depth 0); [|lia]. intros E.
  apply bind_inv_Ok in E as (v1 & m1 & l1 & E1 & E).
  apply bind_inv_Ok in E as (v2 & m2 & l2 & E2 & E).
  apply bind_inv_Ok in E as (v3 & m3 & l3 & E3 & E).
  exists v1, v2, v3, m1, m2, m3.
  rewrite E1, E2, E3. repeat split. exact E.
Qed.

(** A key survives the whole expansion when the source is the relation
    that writes it. *)
Lemma activity_execution_hook_keeps v source activity m v' key :
  depth > 0 ->
  (key = "arrangement" /\ source = Collections.ARRANGEMENT)
  \/ (key = "experiments" /\ source = Collections.EXPERIMENT)
  \/ (key = "participations" /\ source = Collections.PARTICIPATION)
  \/ (key = "activity" /\ source = Collections.ACTIVITY) ->
  result (ActivityExecutionServiceMongoDB._add_related_documents scen v
            dataset_name depth source activity m) = Ok v' ->
  field v' key = field v key.
Proof.
  intros D K E.
  apply activity_execution_hook_steps in E
    as (v1 & v2 & v3 & m1 & m2 & m3 & E1 & E2 & E3 & E4); [|exact D].
  apply arrangement_step in E1 as [I1 F1].
  apply experiments_step in E2 as [I2 F2].
  apply participations_step in E3 as [I3 F3].
  apply activity_step in E4 as [I4 F4].
  destruct K as [[-> S]|[[-> S]|[[-> S]|[-> S]]]].
  - rewrite F4, F3, F2, (I1 S) by discriminate. reflexivity.
  - rewrite F4, F3, (I2 S), F1 by discriminate. reflexivity.
  - rewrite F4, (I3 S), F2, F1 by discriminate. reflexivity.
  - rewrite (I4 S), F3, F2, F1 by discriminate. reflexivity.
Qed.

(** With the experiment as source the scenario service is not consulted:
    the expansion is the same whatever that service is. *)
Lemma activity_execution_hook_ignores_scenarios scen' v activity m :
  ActivityExecutionServiceMongoDB._add_related_documents scen v
    dataset_name depth Collections.EXPERIMENT activity m
  = ActivityExecutionServiceMongoDB._add_related_documents scen' v
      dataset_name depth Collections.EXPERIMENT activity m.
Proof.
  unfold ActivityExecutionServiceMongoDB._add_related_documents,
    ActivityExecutionServiceMongoDB._add_related_experiments.
  rewrite bool_decide_eq_true_2 by reflexivity.
  rewrite orb_true_r. reflexivity.
Qed.

(** The calls of the whole expansion: a kind of call that neither the
    scenario service nor a step that runs makes is not made. *)
Lemma activity_execution_hook_avoids (p : Call -> bool) v source activity :
  source = Collections.EXPERIMENT
  \/ (forall id multiple, avoids p (scen id dataset_name depth multiple)) ->
  source = Collections.ARRANGEMENT
  \/ (forall id d s, p (ArrangementGetSingleDict id dataset_name d s)
                     = false) ->
  source = Collections.PARTICIPATION
  \/ (forall q d s, p (ParticipationGetMultiple dataset_name q d s)
                    = false) ->
  avoids p (ActivityExecutionServiceMongoDB._add_related_documents scen v
              dataset_name depth source activity).
Proof.
  intros Hs Ha Hp.
  unfold ActivityExecutionServiceMongoDB._add_related_documents.
  destruct (depth >? 0); [|apply avoids_ret].
  apply avoids_bind; [|intros v1; apply avoids_bind;
    [|intros v2; apply avoids_bind; [|intros v3]]].
  - unfold ActivityExecutionServiceMongoDB._add_related_arrangement,
      arrangement_service.get_single_dict.
    apply avoids_bind; [avoids_auto|]. intros rid. cbv zeta.
    destruct Ha as [->|Ha].
    + rewrite bool_decide_eq_false_2 by (intros N; by apply N).
      apply avoids_ret.
    + destruct (_ && _); [|apply avoids_ret].
      apply avoids_bind; [apply avoids_query, Ha | intros; avoids_auto].
  - unfold ActivityExecutionServiceMongoDB._add_related_experiments.
    destruct Hs as [->|Hs].
    + rewrite bool_decide_eq_true_2 by reflexivity.
      rewrite orb_true_r. apply avoids_ret.
    + destruct (_ || _); [apply avoids_ret|].
      apply avoids_bind; [avoids_auto|]. intros id.
      apply avoids_bind; [apply Hs|]. intros related.
      destruct (type_is related NotFoundByIdModel); [apply avoids_ret|].
      avoids_auto.
  - unfold ActivityExecutionServiceMongoDB._add_related_participations,
      participation_service.get_multiple.
    destruct (decide (source ≠ Collections.PARTICIPATION)) as [N|N];
      [|apply avoids_ret].
    destruct Hp as [->|Hp]; [by destruct N|].
    apply avoids_bind; [avoids_auto|]. intros id.
    apply avoids_bind; [apply avoids_query, Hp | intros; avoids_auto].
  - unfold ActivityExecutionServiceMongoDB._add_activity.
    destruct (decide _); avoids_auto.
Qed.

(** The two steps of the expansion of a measure. *)
Lemma time_series_step v source m v' :
  result (MeasureServiceMongoDB._add_related_time_series v dataset_name
            depth source m) = Ok v' ->
  (source = Collections.TIME_SERIES -> v' = v)
  /\ forall k, k <> "time_series" -> field v' k = field v k.
Proof.
  unfold MeasureServiceMongoDB._add_related_time_series.
  intros E. destruct (decide (source ≠ Collections.TIME_SERIES)) as [N|N].
  - split; [congruence|].
    apply bind_inv_Ok in E as (id & m1 & l1 & _ & E).
    apply bind_inv_Ok in E as (ts & m2 & l2 & _ & E).
    destruct (setitem v "time_series" (VList ts) m2) as [[r m3] l3] eqn:Ei.
    unfold result in E. simpl in E. subst r.
    intros k Nk. eapply field_setitem_ne; eauto.
  - injection E as <-. split; reflexivity.
Qed.

Lemma measure_name_step v source m v' :
  result (MeasureServiceMongoDB._add_related_measure_name v dataset_name
            depth source m) = Ok v' ->
  (source = Collections.MEASURE_NAME -> v' = v)
  /\ forall k, k <> "measure_name" -> field v' k = field v k.
Proof.
  unfold MeasureServiceMongoDB._add_related_measure_name.
  intros E. apply bind_inv_Ok in E as (rid & m1 & l1 & _ & E).
  destruct (bool_decide (source ≠ Collections.MEASURE_NAME)) eqn:Es;
    simpl in E.
  - apply bool_decide_eq_true_1 in Es. split; [congruence|].
    destruct (is_None rid); simpl in E.
    + injection E as <-. reflexivity.
    + apply bind_inv_Ok in E as (x & m2 & l2 & _ & E).
      destruct (setitem v "measure_name" x m2) as [[r m3] l3] eqn:Ei.
      unfold result in E. simpl in E. subst r.
      intros k N. eapply field_setitem_ne; eauto.
  - injection E as <-. split; reflexivity.
Qed.

Lemma measure_hook_keeps v source m v' key :
  depth > 0 ->
  (key = "time_series" /\ source = Collections.TIME_SERIES)
  \/ (key = "measure_name" /\ source = Collections.MEASURE_NAME) ->
  result (MeasureServiceMongoDB._add_related_documents v dataset_name depth
            source m) = Ok v' ->
  field v' key = field v key.
Proof.
  intros D K. unfold MeasureServiceMongoDB._add_related_documents.
  destruct (Z.gtb_spec depth 0); [|lia]. intros E.
  apply bind_inv_Ok in E as (v1 & m1 & l1 & E1 & E2).
  assert (result (MeasureServiceMongoDB._add_related_time_series v
                    dataset_name depth source m) = Ok v1) as E1'
    by (rewrite E1; reflexivity).
  apply time_series_step in E1' as [I1 F1].
  apply measure_name_step in E2 as [I2 F2].
  destruct K as [[-> S]|[-> S]].
  - rewrite F2, (I1 S) by discriminate. reflexivity.
  - rewrite (I2 S), F1 by discriminate. reflexivity.
Qed.
End Expansion.

#[local] Ltac run_hook :=
  unfold bind, query, invoke, ret, raise, getitem, setitem, calls, db,
    result; simpl;
  repeat match goal with
         | |- context [match ?x with _ => _ end] =>
             is_var x; destruct x; simpl
         | |- context [match ?d !! ?k with _ => _ end] =>
             destruct (d !! k); simpl
         | |- context [if ?b then _ else _] => destruct b; simpl
         end.

(** C2 (as the code has it). At every depth above zero the expansion of
    an entity skips the step of the relation named by the source tag:
    that step makes no call and changes nothing, and the field of that
    relation comes out of the whole expansion as it went in. For a
    measure the whole expansion makes no fetch of that relation (time
    series, measure name). For an execution with the experiment as
    source the whole expansion makes no experiment or scenario fetch,
    whatever the scenario service is. With the arrangement or the
    participations as source the whole expansion fetches that relation
    only if the scenario service does, which the experiments step
    consults: at depth one it does not; deeper it does, through the
    hydration of the scenarios. *)
Theorem expansion_skips_the_step_of_its_source `{Environment}
    (scen scen' : Value -> string -> Z -> bool -> M Value)
    (ae activity measure : Value) (dataset_name : string) (depth : Z)
    (m : Mongo) :
  depth > 0 ->
  let expand s source :=
    ActivityExecutionServiceMongoDB._add_related_documents s ae
      dataset_name depth source activity m in
  let expand_measure source :=
    MeasureServiceMongoDB._add_related_documents measure dataset_name depth
      source m in
  let wired := scenario_service.get_scenario_by_activity_execution in
  (ActivityExecutionServiceMongoDB._add_activity ae dataset_name depth
     Collections.ACTIVITY activity m = (Ok ae, m, [])
   /\ forall v, result (expand scen Collections.ACTIVITY) = Ok v ->
                field v "activity" = field ae "activity")
  /\ (let step :=
        ActivityExecutionServiceMongoDB._add_related_arrangement ae
          dataset_name depth Collections.ARRANGEMENT m in
      db step = m /\ calls step = []
      /\ (forall v, result step = Ok v -> v = ae)
      /\ (forall v, result (expand scen Collections.ARRANGEMENT) = Ok v ->
                    field v "arrangement" = field ae "arrangement")
      /\ ((forall id multiple,
             avoids is_arrangement_fetch
               (scen id dataset_name depth multiple)) ->
          Forall (fun call => is_arrangement_fetch call = false)
            (calls (expand scen Collections.ARRANGEMENT)))
      /\ (depth = 1 ->
          Forall (fun call => is_arrangement_fetch call = false)
            (calls (expand wired Collections.ARRANGEMENT))))
  /\ (ActivityExecutionServiceMongoDB._add_related_participations ae
        dataset_name depth Collections.PARTICIPATION m = (Ok ae, m, [])
      /\ (forall v, result (expand scen Collections.PARTICIPATION) = Ok v ->
                    field v "participations" = field ae "participations")
      /\ ((forall id multiple,
             avoids is_participation_fetch
               (scen id dataset_name depth multiple)) ->
          Forall (fun call => is_participation_fetch call = false)
            (calls (expand scen Collections.PARTICIPATION)))
      /\ (depth = 1 ->
          Forall (fun call => is_participation_fetch call = false)
            (calls (expand wired Collections.PARTICIPATION))))
  /\ (ActivityExecutionServiceMongoDB._add_related_experiments scen ae
        dataset_name depth Collections.EXPERIMENT m = (Ok ae, m, [])
      /\ (forall v, result (expand scen Collections.EXPERIMENT) = Ok v ->
                    field v "experiments" = field ae "experiments")
      /\ expand scen Collections.EXPERIMENT
         = expand scen' Collections.EXPERIMENT
      /\ Forall (fun call => is_experiment_fetch call = false
                             /\ is_scenario_fetch call = false)
           (calls (expand scen Collections.EXPERIMENT)))
  /\ (MeasureServiceMongoDB._add_related_time_series measure dataset_name
        depth Collections.TIME_SERIES m = (Ok measure, m, [])
      /\ (forall v, result (expand_measure Collections.TIME_SERIES) = Ok v ->
                    field v "time_series" = field measure "time_series")
      /\ Forall (fun call => is_time_series_fetch call = false)
           (calls (expand_measure Collections.TIME_SERIES)))
  /\ (let step :=
        MeasureServiceMongoDB._add_related_measure_name measure
          dataset_name depth Collections.MEASURE_NAME m in
      db step = m /\ calls step = []
      /\ (forall v, result step = Ok v -> v = measure)
      /\ (forall v, result (expand_measure Collections.MEASURE_NAME) = Ok v ->
                    field v "measure_name" = field measure "measure_name")
      /\ Forall (fun call => is_measure_name_fetch call = false)
           (calls (expand_measure Collections.MEASURE_NAME))).
Proof.
  intros D expand expand_measure wired.
  split; [|split; [|split; [|split; [|split]]]].
  - split; [reflexivity|]. intros v E.
    exact (activity_execution_hook_keeps scen dataset_name depth ae _
             activity m v "activity" D ltac:(tauto) E).
  - cbv zeta. split; [|split; [|split; [|split; [|split]]]].
    + unfold ActivityExecutionServiceMongoDB._add_related_arrangement.
      run_hook; reflexivity.
    + unfold ActivityExecutionServiceMongoDB._add_related_arrangement.
      run_hook; reflexivity.
    + intros v E. eapply arrangement_step in E as [I _]. by apply I.
    + intros v E.
      exact (activity_execution_hook_keeps scen dataset_name depth ae _
               activity m v "arrangement" D ltac:(tauto) E).
    + intros Hs.
      apply (activity_execution_hook_avoids scen dataset_name depth
               is_arrangement_fetch ae _ activity); auto.
    + intros ->.
      apply (activity_execution_hook_avoids wired dataset_name 1
               is_arrangement_fetch ae _ activity); auto.
      right. intros id multiple.
      apply scenarios_of_execution_avoid; reflexivity.
  - split; [reflexivity|]. split; [|split].
    + intros v E.
      exact (activity_execution_hook_keeps scen dataset_name depth ae _
               activity m v "participations" D ltac:(tauto) E).
    + intros Hs.
      apply (activity_execution_hook_avoids scen dataset_name depth
               is_participation_fetch ae _ activity); auto.
    + intros ->.
      apply (activity_execution_hook_avoids wired dataset_name 1
               is_participation_fetch ae _ activity); auto.
      right. intros id multiple.
      apply scenarios_of_execution_avoid; reflexivity.
  - split; [|split; [|split]].
    + unfold ActivityExecutionServiceMongoDB._add_related_experiments.
      rewrite bool_decide_eq_true_2 by reflexivity.
      by rewrite orb_true_r.
    + intros v E.
      exact (activity_execution_hook_keeps scen dataset_name depth ae _
               activity m v "experiments" D ltac:(tauto) E).
    + apply activity_execution_hook_ignores_scenarios.
    + pose proof (activity_execution_hook_avoids scen dataset_name depth
                    (fun call => is_experiment_fetch call
                                 || is_scenario_fetch call)
                    ae Collections.EXPERIMENT activity
                    ltac:(by left) ltac:(by right) ltac:(by right) m) as F.
      eapply Forall_impl; [exact F|]. intros call.
      by intros [? ?]%orb_false_iff.
  - split; [reflexivity|]. split.
    + intros v E. exact (measure_hook_keeps dataset_name depth measure _ m v
               "time_series" D ltac:(tauto) E).
    + unfold expand_measure, MeasureServiceMongoDB._add_related_documents,
        MeasureServiceMongoDB._add_related_time_series,
        MeasureServiceMongoDB._add_related_measure_name,
        measure_name_service.get_single_dict.
      destruct (Z.gtb_spec depth 0); [|lia].
      run_hook; repeat constructor.
  - cbv zeta. split; [|split; [|split; [|split]]].
    + unfold MeasureServiceMongoDB._add_related_measure_name.
      run_hook; reflexivity.
    + unfold MeasureServiceMongoDB._add_related_measure_name.
      run_hook; reflexivity.
    + intros v E. eapply measure_name_step in E as [I _]. by apply I.
    + intros v E. exact (measure_hook_keeps dataset_name depth measure _ m v
               "measure_name" D ltac:(tauto) E).
    + unfold expand_measure, MeasureServiceMongoDB._add_related_documents,
        MeasureServiceMongoDB._add_related_time_series,
        MeasureServiceMongoDB._add_related_measure_name,
        time_series_service.get_multiple.
      destruct (Z.gtb_spec depth 0); [|lia].
      run_hook; repeat constructor.
Qed.

Lemma expansion_skips_the_step_of_its_source_witness :
  (exists v,
     result (Reference.expand_unassigned Collections.ARRANGEMENT) = Ok v
     /\ field v "arrangement" = None
     /\ is_Some (field v "participations")
     /\ Forall (fun call => is_arrangement_fetch call = false)
          (calls (Reference.expand_unassigned Collections.ARRANGEMENT)))
  /\ (exists v,
        result (Reference.expand_measure Collections.TIME_SERIES) = Ok v
        /\ field v "time_series" = None
        /\ is_Some (field v "measure_name"))
  /\ (exists v,
        result (Reference.expand_unassigned "") = Ok v
        /\ is_Some (field v "arrangement")
        /\ Exists (fun call => is_arrangement_fetch call = true)
             (calls (Reference.expand_unassigned ""))).
Proof.
  pose proof (@expansion_skips_the_step_of_its_source Reference.strict
                (@scenario_service.get_scenario_by_activity_execution
                   Reference.strict)
                (@scenario_service.get_scenario_by_activity_execution
                   Reference.strict)
                Reference.execution_a Reference.activity1
                Reference.measure1 "ds" 1 Reference.db0 ltac:(lia))
    as (_ & (_ & _ & _ & K & _ & A) & _).
  pose proof (@expansion_skips_the_step_of_its_source Reference.environment
                Reference.scenarios_of Reference.scenarios_of
                Reference.execution_a Reference.activity1
                Reference.measure1 "ds" 1 Reference.db1 ltac:(lia))
    as (_ & _ & _ & _ & (_ & T & _) & _).
  split; [|split].
  - eexists. split; [vm_compute; reflexivity|]. split; [|split].
    + etransitivity; [apply K; vm_compute; reflexivity|].
      vm_compute. reflexivity.
    + vm_compute. eauto.
    + apply A. reflexivity.
  - eexists. split; [vm_compute; reflexivity|]. split.
    + etransitivity; [apply T; vm_compute; reflexivity|].
      vm_compute. reflexivity.
    + vm_compute. eauto.
  - eexists. split; [vm_compute; reflexivity|]. split.
    + vm_compute. eauto.
    + vm_compute. left. reflexivity.
Defined.

(** At depth two the expansion of execution a with the arrangement as
    source does fetch the arrangement of a: the experiments step asks
    for the scenarios of a, whose hydration reads their executions, a
    among them, at depth one with the execution collection as source.
    This is so under either schema; under the one that refuses the
    hydrated scenario the fetch comes before the ValidationError. *)
Lemma expansion_at_depth_two_fetches_the_source_relation :
  field Reference.execution_a "id" = Some (VStr Reference.id_a)
  /\ field Reference.execution_a "arrangement_id" = Some (VStr "arr1")
  /\ arrangements_fetched
       (calls (Reference.expand_deep Reference.strict
                 Collections.ARRANGEMENT))
     = [VStr "arr1"]
  /\ arrangements_fetched
       (calls (Reference.expand_deep Reference.environment
                 Collections.ARRANGEMENT))
     = [VStr "arr1"]
  /\ ~ Forall (fun call => is_arrangement_fetch call = false)
         (calls (Reference.expand_deep Reference.strict
                   Collections.ARRANGEMENT)).
Proof.
  assert (forall l : list Call,
            Forall (fun call => is_arrangement_fetch call = false) l ->
            arrangements_fetched l = []) as None_fetched.
  { induction 1 as [|call l E _ IH]; [reflexivity|].
    unfold arrangements_fetched in *. simpl.
    destruct call; try discriminate; exact IH. }
  assert (arrangements_fetched
            (calls (Reference.expand_deep Reference.strict
                      Collections.ARRANGEMENT))
          = [VStr "arr1"]) as E by (vm_compute; reflexivity).
  split; [vm_compute; reflexivity|].
  split; [vm_compute; reflexivity|].
  split; [exact E|].
  split; [vm_compute; reflexivity|].
  intros F. apply None_fetched in F. rewrite E in F. discriminate.
Qed.

(** C1 (as the code has it). At depth zero or below the expansion hooks
    of measures, executions, datasets and scenarios return the record
    untouched and call nothing, so a generic read hands back the stored
    record and a read of an execution hands back the embedded record,
    provided its id converts to an object id; an id that does not is
    raised as the error of the conversion before any call.
    The hydration of a scenario is not such a hook: at depth zero or
    below it still replaces the id sequence by the executions fetched at
    depth zero and attaches the fetched experiment. *)
Theorem expansion_hooks_stop_at_depth_zero `{Environment}
    (scen : Value -> string -> Z -> bool -> M Value)
    (get_ae : Value -> string -> Z -> string -> M Value)
    (v activity : Value) (dataset_name : string) (depth : Z)
    (source : string) (m : Mongo) :
  depth <= 0 ->
  MeasureServiceMongoDB._add_related_documents v dataset_name depth source m
  = (Ok v, m, [])
  /\ ActivityExecutionServiceMongoDB._add_related_documents scen v
       dataset_name depth source activity m = (Ok v, m, [])
  /\ DatasetServiceMongoDB._add_related_documents v dataset_name depth
       source m = (Ok v, m, [])
  /\ ScenarioServiceMongoDB._add_related_documents v dataset_name depth
       source m = (Ok v, m, [])
  /\ (forall cls hook name id,
        get_collection_name cls m = (Ok name, m, []) ->
        hook v dataset_name depth source m = (Ok v, m, []) ->
        List.find (mongo_api_service.has_id id)
          (mongo_api_service.collection m dataset_name name) = Some v ->
        type_is v NotFoundByIdModel = false ->
        GenericMongoServiceMixin.get_single_dict cls hook id dataset_name
          depth source m
        = (Ok v, m, [MongoGetDocument id name dataset_name]))
  /\ (forall id oid ad rest es,
        ObjectId id m = (Ok oid, m, []) ->
        let q : Dict :=
          <[String.append Collections.ACTIVITY_EXECUTION ".id" := oid]> ∅ in
        let projection :=
          ActivityExecutionServiceMongoDB._get_activity_projection
            (<["id" := oid]> ∅) in
        ActivityService_get_multiple dataset_name q (depth - 1)
          Collections.ACTIVITY_EXECUTION projection m = VDict ad :: rest ->
        ad !! Collections.ACTIVITY_EXECUTION = Some (VList (v :: es)) ->
        ActivityExecutionServiceMongoDB.get_single_dict scen id dataset_name
          depth source m
        = (Ok v, m,
           [ActivityGetMultiple dataset_name q (depth - 1)
              Collections.ACTIVITY_EXECUTION projection]))
  /\ (forall id e,
        ObjectId id m = (Raised e, m, []) ->
        ActivityExecutionServiceMongoDB.get_single_dict scen id dataset_name
          depth source m = (Raised e, m, []))
  /\ (forall sd ids e objects m1 l1,
        v = VDict sd ->
        sd !! "activity_executions" = Some (VList ids) ->
        sd !! "experiment_id" = Some e ->
        mapM (fun ae_id =>
                get_ae ae_id dataset_name 0 Collections.ACTIVITY_EXECUTION)
             ids m = (Ok objects, m1, l1) ->
        ScenarioServiceMongoDB._change_ids_to_objects get_ae v dataset_name
          depth m
        = (Ok (VDict
                 (<["experiment" :=
                      ExperimentService_get_experiment e dataset_name 0
                        Collections.EXPERIMENT m1]>
                  (<["activity_executions" := VList objects]> sd))),
           m1,
           (l1 ++ [ExperimentGetExperiment e dataset_name 0
                     Collections.EXPERIMENT])%list)).
Proof.
  intros D.
  split; [|split; [|split; [|split; [|split; [|split; [|split]]]]]].
  - unfold MeasureServiceMongoDB._add_related_documents.
    destruct (Z.gtb_spec depth 0); [lia | reflexivity].
  - apply activity_execution_hook_stops, D.
  - reflexivity.
  - reflexivity.
  - intros cls hook name id Ec Eh Ef Et.
    unfold GenericMongoServiceMixin.get_single_dict.
    rewrite (bind_pure _ _ m name) by exact Ec.
    unfold mongo_api_service.get_document.
    erewrite (bind_Ok (query _ _)) by reflexivity.
    rewrite Ef, Et, Eh. reflexivity.
  - intros id oid ad rest es Eo q projection Eg Ee.
    unfold ActivityExecutionServiceMongoDB.get_single_dict,
      activity_service.get_multiple.
    rewrite (bind_pure _ _ m oid Eo).
    erewrite (bind_Ok (query _ _)) by reflexivity.
    fold q projection. rewrite Eg.
    rewrite (bind_pure (getitem _ _) _ m (VList (v :: es)))
      by (unfold getitem; rewrite Ee; reflexivity).
    rewrite (bind_pure (as_list _) _ m (v :: es)) by reflexivity.
    rewrite (bind_pure (delitem _ _) _ m
               (VDict (delete Collections.ACTIVITY_EXECUTION ad)))
      by (unfold delitem; rewrite Ee; reflexivity).
    rewrite activity_execution_hook_stops by exact D. reflexivity.
  - intros id e Eo.
    unfold ActivityExecutionServiceMongoDB.get_single_dict.
    erewrite bind_Raised by exact Eo. reflexivity.
  - intros sd ids e objects m1 l1 -> Ei Ee Em.
    unfold ScenarioServiceMongoDB._change_ids_to_objects,
      ScenarioServiceMongoDB._change_ae_ids_to_objects,
      ScenarioServiceMongoDB._change_experiment_id_to_object,
      experiment_service.get_experiment.
    replace (Z.max (depth - 1) 0) with 0 by lia.
    rewrite bind_assoc.
    rewrite (bind_pure (getitem _ _) _ m (VList ids))
      by (unfold getitem; rewrite Ei; reflexivity).
    cbv beta. rewrite bind_assoc.
    rewrite (bind_pure (as_list _) _ m ids) by reflexivity.
    cbv beta. rewrite bind_assoc.
    erewrite bind_Ok by exact Em.
    rewrite (bind_pure (setitem _ _ _) _ m1
               (VDict (<["activity_executions" := VList objects]> sd)))
      by reflexivity.
    rewrite (bind_pure (getitem _ _) _ m1 e).
    2:{ unfold getitem. rewrite lookup_insert_ne by discriminate.
        rewrite Ee. reflexivity. }
    erewrite (bind_Ok (query _ _)) by reflexivity.
    reflexivity.
Qed.

Lemma expansion_hooks_stop_at_depth_zero_witness :
  0 <= 0
  /\ @MeasureServiceMongoDB._add_related_documents Reference.environment
       Reference.measure1 "ds" 0 "" Reference.db1
     = (Ok Reference.measure1, Reference.db1, [])
  /\ @ActivityExecutionServiceMongoDB._add_related_documents
       Reference.environment Reference.scenarios_of Reference.execution_a
       "ds" 0 "" Reference.activity1 Reference.db1
     = (Ok Reference.execution_a, Reference.db1, [])
  /\ result (@ActivityExecutionServiceMongoDB.get_single_dict
               Reference.environment Reference.scenarios_of
               (VStr Reference.id_a) "ds" 0 "" Reference.db1)
     = Ok Reference.execution_a
  /\ @ActivityExecutionServiceMongoDB.get_single_dict
       Reference.environment Reference.scenarios_of (VStr "a") "ds" 0 ""
       Reference.db1
     = (Raised InvalidId, Reference.db1, []).
Proof.
  split; [lia|].
  pose proof (@expansion_hooks_stop_at_depth_zero Reference.environment
                Reference.scenarios_of
                (@activity_execution_service.get_activity_execution
                   Reference.environment)
                Reference.measure1 Reference.activity1 "ds" 0 ""
                Reference.db1 ltac:(lia)) as (Hm & _).
  pose proof (@expansion_hooks_stop_at_depth_zero Reference.environment
                Reference.scenarios_of
                (@activity_execution_service.get_activity_execution
                   Reference.environment)
                Reference.execution_a Reference.activity1 "ds" 0 ""
                Reference.db1 ltac:(lia))
    as (_ & Ha & _ & _ & _ & Hr & Hi & _).
  split; [exact Hm|]. split; [exact Ha|]. split.
  - erewrite (Hr (VStr Reference.id_a) (VStr Reference.id_a)).
    + reflexivity.
    + reflexivity.
    + vm_compute. reflexivity.
    + vm_compute. reflexivity.
  - apply Hi. reflexivity.
Defined.

(** The hydration of a scenario at depth zero does expand: the stored
    sequence of the ids of a, b and c comes back as three execution
    objects, with the experiment object attached, and the read of the
    scenario of the experiment at depth zero fetches the executions and
    the experiment on its way. *)
Lemma scenario_hydration_at_depth_zero_expands :
  (exists v,
     result Reference.hydrate_s1 = Ok v
     /\ field Reference.stored_s1 "activity_executions"
        = Some (VList [VStr Reference.id_a; VStr Reference.id_b;
                       VStr Reference.id_c])
     /\ field v "activity_executions"
        = Some (VList [execution_object Reference.id_a (VStr "arr1");
                       execution_object Reference.id_b VNone;
                       execution_object Reference.id_c VNone])
     /\ field Reference.stored_s1 "experiment" = None
     /\ field v "experiment"
        = Some (VObj ExperimentOut (list_to_map [("id", VStr "exp1")]))
     /\ Exists (fun call => is_activity_fetch call = true)
          (calls Reference.hydrate_s1)
     /\ Exists (fun call => is_experiment_fetch call = true)
          (calls Reference.hydrate_s1))
  /\ length (List.filter is_activity_fetch (calls Reference.read_s1_strict))
     = 3%nat
  /\ length (List.filter is_experiment_fetch
               (calls Reference.read_s1_strict)) = 1%nat.
Proof.
  split.
  - eexists. split; [vm_compute; reflexivity|].
    split; [vm_compute; reflexivity|].
    split; [vm_compute; reflexivity|].
    split; [vm_compute; reflexivity|].
    split; [vm_compute; reflexivity|].
    split; vm_compute.
    + left. reflexivity.
    + do 3 right. left. reflexivity.
  - split; vm_compute; reflexivity.
Qed.

(** ** The scenario service on stored scenarios *)


Lemma filter_head {A} (f : A -> bool) (l : list A) x rest :
  List.filter f l = x :: rest -> f x = true /\ In x l.
Proof.
  intros E. assert (In x (List.filter f l)) as I by (rewrite E; left; done).
  apply filter_In in I. tauto.
Qed.

(** With unique ids, the first record a filter selects is the record its
    id leads to. *)
Lemma find_by_id_of_member (docs : list Value) (sd : Dict) (sid : Value) :
  NoDup (id_of <$> docs) ->
  In (VDict sd) docs -> sd !! "id" = Some sid ->
  List.find (mongo_api_service.has_id sid) docs = Some (VDict sd).
Proof.
  induction docs as [|d docs IH]; intros N I S; [destruct I|].
  simpl in N. inversion N as [|? ? Nd N']; subst.
  simpl. destruct (mongo_api_service.has_id sid d) eqn:E.
  - destruct I as [->|I]; [reflexivity|]. exfalso. apply Nd.
    destruct d; simpl in E; try discriminate.
    apply bool_decide_eq_true_1 in E.
    apply list_elem_of_fmap. exists (VDict sd). split.
    + simpl. congruence.
    + by apply list_elem_of_In.
  - destruct I as [->|I].
    + simpl in E. rewrite S in E.
      by rewrite bool_decide_eq_true_2 in E.
    + by apply IH.
Qed.

Lemma index_of_member (x : Value) (l : list Value) :
  x ∈ l -> exists i, index_of x l = Some i.
Proof.
  induction 1 as [x l|x y l _ [i IH]]; simpl.
  - rewrite decide_True by done. eauto.
  - destruct (decide (y = x)); [eauto|]. rewrite IH. simpl. eauto.
Qed.

Lemma remove_first_member (x : Value) (l : list Value) :
  x ∈ l -> exists l', remove_first x l = Some l'.
Proof.
  induction 1 as [x l|x y l _ [l' IH]]; simpl.
  - rewrite decide_True by done. eauto.
  - destruct (decide (y = x)); [eauto|]. rewrite IH. simpl. eauto.
Qed.

(** A record selected by a one-entry filter on an array field has the
    value in that array. *)
Lemma matches_array (key : string) (x : Value) (sd : Dict)
    (ids : list Value) :
  mongo_api_service.matches (<[key := x]> ∅) (VDict sd) = true ->
  sd !! key = Some (VList ids) -> x ∈ ids.
Proof.
  unfold mongo_api_service.matches. intros Hm Hk.
  apply bool_decide_eq_true_1 in Hm.
  specialize (Hm key x (lookup_insert_eq _ _ _)).
  unfold mongo_api_service.field_matches in Hm. rewrite Hk in Hm.
  by apply bool_decide_eq_true_1 in Hm.
Qed.

(** What the hydration of a scenario computes: the executions of the id
    sequence are fetched at depth [max (depth - 1) 0], then the experiment. *)
Lemma change_ids_to_objects_run `{Environment}
    (get_ae : Value -> string -> Z -> string -> M Value)
    (sd : Dict) (ids : list Value) (e : Value) (objects : list Value)
    (m m1 : Mongo) (l1 : list Call) (dataset_name : string) (depth : Z) :
  sd !! "activity_executions" = Some (VList ids) ->
  sd !! "experiment_id" = Some e ->
  mapM (fun ae_id =>
          get_ae ae_id dataset_name (Z.max (depth - 1) 0)
            Collections.ACTIVITY_EXECUTION)
       ids m = (Ok objects, m1, l1) ->
  ScenarioServiceMongoDB._change_ids_to_objects get_ae (VDict sd)
    dataset_name depth m
  = (Ok (VDict
           (<["experiment" :=
                ExperimentService_get_experiment e dataset_name
                  (Z.max (depth - 1) 0) Collections.EXPERIMENT m1]>
            (<["activity_executions" := VList objects]> sd))),
     m1,
     (l1 ++ [ExperimentGetExperiment e dataset_name (Z.max (depth - 1) 0)
               Collections.EXPERIMENT])%list).
Proof.
  intros Ei Ee Em.
  unfold ScenarioServiceMongoDB._change_ids_to_objects,
    ScenarioServiceMongoDB._change_ae_ids_to_objects,
    ScenarioServiceMongoDB._change_experiment_id_to_object,
    experiment_service.get_experiment.
  cbv zeta. rewrite bind_assoc.
  rewrite (bind_pure (getitem _ _) _ m (VList ids))
    by (unfold getitem; rewrite Ei; reflexivity).
  cbv beta. rewrite bind_assoc.
  rewrite (bind_pure (as_list _) _ m ids) by reflexivity.
  cbv beta. rewrite bind_assoc.
  erewrite bind_Ok by exact Em.
  rewrite (bind_pure (setitem _ _ _) _ m1
             (VDict (<["activity_executions" := VList objects]> sd)))
    by reflexivity.
  rewrite (bind_pure (getitem _ _) _ m1 e).
  2:{ unfold getitem. rewrite lookup_insert_ne by discriminate.
      rewrite Ee. reflexivity. }
  erewrite (bind_Ok (query _ _)) by reflexivity.
  reflexivity.
Qed.

#[local] Ltac nowrites :=
  repeat first
    [ assumption
    | apply Forall_nil_2
    | apply Forall_cons_2; [reflexivity|]
    | apply Forall_app_2 ].

Section Ordering.
Context `{Environment}.
Hypothesis activities_ok : activity_service_ok.

(** The conversion of an identifier that is one. *)
Lemma ObjectId_of_id (id : Value) :
  is_id id = true -> exists oid, forall m : Mongo, ObjectId id m = (Ok oid, m, []).
Proof.
  destruct id as [| |s| | | | |]; try discriminate; simpl.
  - eexists. reflexivity.
  - intros ->. eexists. reflexivity.
Qed.

(** A read of an execution at depth zero returns when the id converts:
    the sentinel, or an execution object. *)
Lemma get_activity_execution_returns id dataset_name source m :
  is_id id = true ->
  exists v l,
    activity_execution_service.get_activity_execution id dataset_name 0
      source m = (Ok v, m, l)
    /\ (type_is v NotFoundByIdModel = true
        \/ type_is v ActivityExecutionOut = true).
Proof.
  intros [oid Eo]%ObjectId_of_id.
  unfold activity_execution_service.get_activity_execution. simpl.
  unfold ActivityExecutionServiceMongoDB.get_activity_execution,
    ActivityExecutionServiceMongoDB.get_single,
    ActivityExecutionServiceMongoDB.get_single_dict,
    activity_service.get_multiple.
  rewrite bind_assoc. rewrite (bind_pure _ _ m oid (Eo m)). cbv beta.
  rewrite bind_assoc. erewrite (bind_Ok (query _ _)) by reflexivity.
  match goal with
  | |- context [ActivityService_get_multiple ?a ?b ?c ?d ?e ?f] =>
      pose proof (activities_ok a b c d e f) as Ok;
      destruct (ActivityService_get_multiple a b c d e f) as [|act rest]
  end.
  - rewrite bind_ret_l. simpl. eauto.
  - simpl in Ok. apply andb_true_iff in Ok as [Ok _].
    unfold embeds_executions, field in Ok.
    destruct act as [| | | | | |ad|]; try discriminate.
    destruct (ad !! Collections.ACTIVITY_EXECUTION) as [[| | | | |l| |]|]
      eqn:El; try discriminate.
    rewrite bind_assoc.
    rewrite (bind_pure (getitem _ _) _ m (VList l))
      by (unfold getitem; rewrite El; reflexivity).
    cbv beta. rewrite bind_assoc.
    rewrite (bind_pure (as_list _) _ m l) by reflexivity.
    destruct l as [|e es].
    + rewrite bind_ret_l. simpl. eauto.
    + simpl in Ok. apply andb_true_iff in Ok as [Oe _].
      destruct e as [| | | | | |ed|]; try discriminate.
      rewrite bind_assoc.
      rewrite (bind_pure (delitem _ _) _ m
                 (VDict (delete Collections.ACTIVITY_EXECUTION ad)))
        by (unfold delitem; rewrite El; reflexivity).
      cbv beta.
      rewrite (bind_pure _ _ m (VDict ed))
        by (apply activity_execution_hook_stops; lia).
      simpl. eauto.
Qed.

Lemma get_activity_executions_return ids dataset_name source m :
  forallb is_id ids = true ->
  exists objects l,
    mapM (fun ae_id =>
            activity_execution_service.get_activity_execution ae_id
              dataset_name 0 source) ids m = (Ok objects, m, l).
Proof.
  induction ids as [|id ids IH]; simpl.
  - do 2 eexists. reflexivity.
  - intros [Ei Eis]%andb_true_iff.
    destruct (IH Eis) as (objects & l & E').
    destruct (get_activity_execution_returns id dataset_name source m Ei)
      as (v & l0 & E & _).
    do 2 eexists. erewrite bind_Ok by exact E.
    erewrite bind_Ok by exact E'. reflexivity.
Qed.


(** The hydration of a stored scenario at depth zero succeeds when the
    ids of its sequence convert, and keeps the id of the scenario. *)
Lemma hydration_returns (sd : Dict) (ids : list Value) (e : Value)
    dataset_name depth m :
  depth <= 1 ->
  sd !! "activity_executions" = Some (VList ids) ->
  sd !! "experiment_id" = Some e ->
  forallb is_id ids = true ->
  exists sd' l,
    scenario_service._change_ids_to_objects (VDict sd) dataset_name depth m
    = (Ok (VDict sd'), m, l)
    /\ sd' !! "id" = sd !! "id".
Proof.
  intros D Ei Ee Eids.
  destruct (get_activity_executions_return ids dataset_name
              Collections.ACTIVITY_EXECUTION m Eids) as (objects & l & Em).
  do 2 eexists. split.
  - unfold scenario_service._change_ids_to_objects.
    apply (change_ids_to_objects_run _ sd ids e objects m m l); auto.
    replace (Z.max (depth - 1) 0) with 0 by lia. exact Em.
  - rewrite !lookup_insert_ne by discriminate. reflexivity.
Qed.

(** A hydration that returned: it wrote nothing, and its result is the
    record with two keys set. *)
Lemma hydration_run (sd : Dict) dataset_name depth m v :
  result (scenario_service._change_ids_to_objects (VDict sd) dataset_name
            depth m) = Ok v ->
  exists sd' l,
    v = VDict sd'
    /\ scenario_service._change_ids_to_objects (VDict sd) dataset_name depth
         m = (Ok (VDict sd'), m, l)
    /\ sd' !! "id" = sd !! "id"
    /\ Forall (fun call => is_write call = false) l.
Proof.
  intros E.
  destruct (read_run _ m v
              (reads_change_ids_to_objects _ (VDict sd) dataset_name depth
                 reads_wired_get_activity_execution) E) as (l & Er & W).
  fold scenario_service._change_ids_to_objects in Er.
  unfold scenario_service._change_ids_to_objects,
    ScenarioServiceMongoDB._change_ids_to_objects,
    ScenarioServiceMongoDB._change_ae_ids_to_objects,
    ScenarioServiceMongoDB._change_experiment_id_to_object in E.
  cbv zeta in E.
  apply bind_inv_Ok in E as (s1 & m1 & l1 & E1 & E2).
  assert (exists objects, s1 = VDict (<["activity_executions" := VList objects]> sd))
    as [objects ->].
  { assert (result ((ids <- getitem (VDict sd) "activity_executions" ;;
                     activity_execution_ids <- as_list ids ;;
                     objects <-
                       mapM (fun ae_id =>
                               activity_execution_service.get_activity_execution
                                 ae_id dataset_name (Z.max (depth - 1) 0)
                                 Collections.ACTIVITY_EXECUTION)
                            activity_execution_ids ;;
                     setitem (VDict sd) "activity_executions" (VList objects))
                      m) = Ok s1) as E1' by (rewrite E1; reflexivity).
    apply bind_inv_Ok in E1' as (x1 & m2 & l2 & _ & E1').
    apply bind_inv_Ok in E1' as (x2 & m3 & l3 & _ & E1').
    apply bind_inv_Ok in E1' as (objects & m4 & l4 & _ & E1').
    exists objects. unfold result in E1'. simpl in E1'. by injection E1'. }
  apply bind_inv_Ok in E2 as (x1 & m2 & l2 & _ & E2).
  apply bind_inv_Ok in E2 as (x2 & m3 & l3 & _ & E2).
  unfold result in E2. simpl in E2. injection E2 as <-.
  do 2 eexists. split; [reflexivity|]. split; [exact Er|].
  split; [|exact W].
  rewrite !lookup_insert_ne by discriminate. reflexivity.
Qed.

(** The two lookups of a scenario, on the records the filter selects:
    the first of them is hydrated and handed to the schema. *)
Lemma scenario_by_activity_execution_found a dataset_name m sd rest sd' :
  List.filter
    (mongo_api_service.matches (<["activity_executions" := a]> ∅))
    (scenarios m dataset_name) = VDict sd :: rest ->
  result (scenario_service._change_ids_to_objects (VDict sd) dataset_name 0
            m) = Ok (VDict sd') ->
  sd' !! "id" = sd !! "id"
  /\ exists l,
       scenario_service.get_scenario_by_activity_execution a dataset_name 0
         false m
       = ((if accepts ScenarioOut sd' then Ok (VObj ScenarioOut sd')
           else Raised ValidationError), m, l)
       /\ Forall (fun call => is_write call = false) l.
Proof.
  intros Ef Er.
  destruct (hydration_run sd dataset_name 0 m _ Er)
    as (sd0 & l & [= <-] & Eh & Eid & W).
  split; [exact Eid|].
  exists (MongoGetDocuments Collections.SCENARIO dataset_name
            (<["activity_executions" := a]> ∅) :: l ++ [])%list.
  split; [|nowrites].
  unfold scenario_service.get_scenario_by_activity_execution,
    ScenarioServiceMongoDB.get_scenario_by_activity_execution.
  cbv zeta. erewrite bind_Ok by apply scenario_get_multiple_run.
  rewrite Ef.
  fold scenario_service._change_ids_to_objects.
  erewrite bind_Ok by exact Eh. unfold validated.
  destruct (accepts ScenarioOut sd'); reflexivity.
Qed.

Lemma scenario_by_experiment_found x dataset_name m sd rest sd' :
  List.filter (mongo_api_service.matches (<["experiment_id" := x]> ∅))
    (scenarios m dataset_name) = VDict sd :: rest ->
  result (scenario_service._change_ids_to_objects (VDict sd) dataset_name 0
            m) = Ok (VDict sd') ->
  sd' !! "id" = sd !! "id"
  /\ exists l,
       scenario_service.get_scenario_by_experiment x dataset_name 0 m
       = ((if accepts ScenarioOut sd' then Ok (VObj ScenarioOut sd')
           else Raised ValidationError), m, l)
       /\ Forall (fun call => is_write call = false) l.
Proof.
  intros Ef Er.
  destruct (hydration_run sd dataset_name 0 m _ Er)
    as (sd0 & l & [= <-] & Eh & Eid & W).
  split; [exact Eid|].
  exists (MongoGetDocuments Collections.SCENARIO dataset_name
            (<["experiment_id" := x]> ∅) :: l ++ [])%list.
  split; [|nowrites].
  unfold scenario_service.get_scenario_by_experiment,
    ScenarioServiceMongoDB.get_scenario_by_experiment.
  cbv zeta. erewrite bind_Ok by apply scenario_get_multiple_run.
  rewrite Ef.
  fold scenario_service._change_ids_to_objects.
  erewrite bind_Ok by exact Eh. unfold validated.
  destruct (accepts ScenarioOut sd'); reflexivity.
Qed.

(** The write of the insertion, once the scenario of [previous_id] is
    known: the record found under the scenario's id gets the new id at
    index 0 for an experiment, after [previous_id] otherwise. *)
Lemma put_after_element_run previous_id x dataset_name m sd' related l
    sid sd ids idx :
  scenario_service.get_scenario_by_element_id previous_id dataset_name 0 m
  = (Ok (VObj ScenarioOut sd', related), m, l) ->
  sd' !! "id" = Some sid ->
  List.find (mongo_api_service.has_id sid) (scenarios m dataset_name)
  = Some (VDict sd) ->
  sd !! "activity_executions" = Some (VList ids) ->
  (if type_is related ExperimentOut then idx = 0%nat
   else exists i, index_of previous_id ids = Some i /\ idx = S i) ->
  let updated :=
    VDict (<["activity_executions" := VList (list_insert_at idx x ids)]> sd)
  in
  scenario_service._put_activity_execution_after_element previous_id x
    dataset_name m
  = (Ok VNone,
     <[(dataset_name, Collections.SCENARIO) :=
         mongo_api_service.replace_id sid updated
           (scenarios m dataset_name)]> m,
     (l ++ [MongoGetDocument sid Collections.SCENARIO dataset_name;
            MongoUpdateDocumentWithDict Collections.SCENARIO sid updated
              dataset_name])%list).
Proof.
  intros Eg Eid Ef Ei Ex updated.
  unfold scenario_service._put_activity_execution_after_element,
    ScenarioServiceMongoDB._put_activity_execution_after_element.
  fold scenario_service.get_scenario_by_element_id.
  erewrite bind_Ok by exact Eg. cbv zeta. cbn [fst snd type_is].
  rewrite bool_decide_eq_false_2 by discriminate.
  rewrite (bind_pure (getattr _ _) _ m sid)
    by (unfold getattr; rewrite Eid; reflexivity).
  unfold ScenarioServiceMongoDB.get_scenario_dict_by_scenario_id,
    mongo_api_service.get_document.
  erewrite (bind_Ok (query _ _)) by reflexivity.
  fold (scenarios m dataset_name). rewrite Ef.
  rewrite (bind_pure _ _ m idx).
  2:{ destruct (type_is related ExperimentOut); cbn [negb].
      - subst idx. reflexivity.
      - destruct Ex as (i & Ex & ->).
        rewrite (bind_pure (getitem _ _) _ m (VList ids))
          by (unfold getitem; rewrite Ei; reflexivity).
        rewrite (bind_pure (as_list _) _ m ids) by reflexivity.
        rewrite (bind_pure (list_index _ _) _ m i)
          by (unfold list_index; rewrite Ex; reflexivity).
        unfold ret. do 3 f_equal. lia. }
  rewrite (bind_pure (getitem _ _) _ m (VList ids))
    by (unfold getitem; rewrite Ei; reflexivity).
  rewrite (bind_pure (as_list _) _ m ids) by reflexivity.
  rewrite (bind_pure (setitem _ _ _) _ m updated) by reflexivity.
  unfold mongo_api_service.update_document_with_dict, command, invoke.
  unfold bind, ret. simpl. fold (scenarios m dataset_name).
  reflexivity.
Qed.

(** The three ways [get_scenario_by_element_id] resolves an id. *)
Lemma element_is_experiment previous_id dataset_name m sc l :
  let experiment :=
    ExperimentService_get_experiment previous_id dataset_name 0 "" m in
  type_is experiment NotFoundByIdModel = false ->
  scenario_service.get_scenario_by_experiment previous_id dataset_name 0 m
  = (Ok sc, m, l) ->
  scenario_service.get_scenario_by_element_id previous_id dataset_name 0 m
  = (Ok (sc, experiment), m,
     (ExperimentGetExperiment previous_id dataset_name 0 "" :: l ++ [])%list).
Proof.
  intros experiment Et Es.
  unfold scenario_service.get_scenario_by_element_id,
    ScenarioServiceMongoDB.get_scenario_by_element_id,
    experiment_service.get_experiment.
  erewrite (bind_Ok (query _ _)) by reflexivity.
  fold experiment. rewrite Et. cbn [negb].
  fold scenario_service.get_scenario_by_experiment.
  erewrite bind_Ok by exact Es. reflexivity.
Qed.

Lemma element_is_execution previous_id dataset_name m v l0 sc l :
  type_is (ExperimentService_get_experiment previous_id dataset_name 0 "" m)
    NotFoundByIdModel = true ->
  activity_execution_service.get_activity_execution previous_id
    dataset_name 0 "" m = (Ok v, m, l0) ->
  type_is v NotFoundByIdModel = false ->
  scenario_service.get_scenario_by_activity_execution previous_id
    dataset_name 0 false m = (Ok sc, m, l) ->
  scenario_service.get_scenario_by_element_id previous_id dataset_name 0 m
  = (Ok (sc, v), m,
     (ExperimentGetExperiment previous_id dataset_name 0 ""
        :: l0 ++ l ++ [])%list).
Proof.
  intros Et Ea Ev Es.
  unfold scenario_service.get_scenario_by_element_id,
    ScenarioServiceMongoDB.get_scenario_by_element_id,
    experiment_service.get_experiment.
  erewrite (bind_Ok (query _ _)) by reflexivity.
  rewrite Et. cbn [negb].
  erewrite bind_Ok by exact Ea. rewrite Ev. cbn [negb].
  fold scenario_service.get_scenario_by_activity_execution.
  erewrite bind_Ok by exact Es. reflexivity.
Qed.

Lemma element_is_neither previous_id dataset_name m v l0 :
  type_is (ExperimentService_get_experiment previous_id dataset_name 0 "" m)
    NotFoundByIdModel = true ->
  activity_execution_service.get_activity_execution previous_id
    dataset_name 0 "" m = (Ok v, m, l0) ->
  type_is v NotFoundByIdModel = true ->
  scenario_service.get_scenario_by_element_id previous_id dataset_name 0 m
  = (Ok (unresolved_element previous_id, VNone), m,
     (ExperimentGetExperiment previous_id dataset_name 0 ""
        :: l0 ++ [])%list).
Proof.
  intros Et Ea Ev.
  unfold scenario_service.get_scenario_by_element_id,
    ScenarioServiceMongoDB.get_scenario_by_element_id,
    experiment_service.get_experiment.
  erewrite (bind_Ok (query _ _)) by reflexivity.
  rewrite Et. cbn [negb].
  erewrite bind_Ok by exact Ea. rewrite Ev. reflexivity.
Qed.

(** A result of a read, with the database it left and a log free of
    writes. *)
Lemma get_activity_execution_run id dataset_name source m v :
  result (activity_execution_service.get_activity_execution id
            dataset_name 0 source m) = Ok v ->
  exists l,
    activity_execution_service.get_activity_execution id dataset_name 0
      source m = (Ok v, m, l)
    /\ Forall (fun call => is_write call = false) l.
Proof.
  intros E.
  destruct (reads_run _ m
              (reads_wired_get_activity_execution id dataset_name 0 source))
    as (r & l & Er & W).
  rewrite Er in E. unfold result in E. simpl in E. subst r. eauto.
Qed.

(** When the id leads nowhere the insertion returns the sentinel and
    writes nothing. *)
Lemma put_after_unknown_element previous_id x dataset_name m v :
  type_is (ExperimentService_get_experiment previous_id dataset_name 0 "" m)
    NotFoundByIdModel = true ->
  result (activity_execution_service.get_activity_execution previous_id
            dataset_name 0 "" m) = Ok v ->
  type_is v NotFoundByIdModel = true ->
  exists l,
    scenario_service._put_activity_execution_after_element previous_id x
      dataset_name m = (Ok (unresolved_element previous_id), m, l)
    /\ Forall (fun call => is_write call = false) l.
Proof.
  intros Et Ea Ev.
  apply get_activity_execution_run in Ea as (l0 & Ea & W).
  pose proof (element_is_neither _ _ _ _ _ Et Ea Ev) as Eg.
  eexists. split.
  - unfold scenario_service._put_activity_execution_after_element,
      ScenarioServiceMongoDB._put_activity_execution_after_element.
    fold scenario_service.get_scenario_by_element_id.
    erewrite bind_Ok by exact Eg. reflexivity.
  - nowrites.
Qed.

(** An error of the lookup of the scenario passes through the
    resolution of the element and through the insertion. *)
Lemma element_is_experiment_raised previous_id dataset_name m e l :
  type_is (ExperimentService_get_experiment previous_id dataset_name 0 "" m)
    NotFoundByIdModel = false ->
  scenario_service.get_scenario_by_experiment previous_id dataset_name 0 m
  = (Raised e, m, l) ->
  scenario_service.get_scenario_by_element_id previous_id dataset_name 0 m
  = (Raised e, m,
     (ExperimentGetExperiment previous_id dataset_name 0 "" :: l)%list).
Proof.
  intros Et Es.
  unfold scenario_service.get_scenario_by_element_id,
    ScenarioServiceMongoDB.get_scenario_by_element_id,
    experiment_service.get_experiment.
  erewrite (bind_Ok (query _ _)) by reflexivity.
  rewrite Et. cbn [negb].
  fold scenario_service.get_scenario_by_experiment.
  erewrite bind_Raised by exact Es. reflexivity.
Qed.

Lemma element_is_execution_raised previous_id dataset_name m v l0 e l :
  type_is (ExperimentService_get_experiment previous_id dataset_name 0 "" m)
    NotFoundByIdModel = true ->
  activity_execution_service.get_activity_execution previous_id
    dataset_name 0 "" m = (Ok v, m, l0) ->
  type_is v NotFoundByIdModel = false ->
  scenario_service.get_scenario_by_activity_execution previous_id
    dataset_name 0 false m = (Raised e, m, l) ->
  scenario_service.get_scenario_by_element_id previous_id dataset_name 0 m
  = (Raised e, m,
     (ExperimentGetExperiment previous_id dataset_name 0 ""
        :: l0 ++ l)%list).
Proof.
  intros Et Ea Ev Es.
  unfold scenario_service.get_scenario_by_element_id,
    ScenarioServiceMongoDB.get_scenario_by_element_id,
    experiment_service.get_experiment.
  erewrite (bind_Ok (query _ _)) by reflexivity.
  rewrite Et. cbn [negb].
  erewrite bind_Ok by exact Ea. rewrite Ev. cbn [negb].
  fold scenario_service.get_scenario_by_activity_execution.
  erewrite bind_Raised by exact Es. reflexivity.
Qed.

(** What a read of an execution returns is the sentinel or an execution
    object. *)
Lemma get_activity_execution_type id dataset_name source m v :
  result (activity_execution_service.get_activity_execution id
            dataset_name 0 source m) = Ok v ->
  type_is v NotFoundByIdModel = true
  \/ type_is v ActivityExecutionOut = true.
Proof.
  unfold activity_execution_service.get_activity_execution. simpl.
  unfold ActivityExecutionServiceMongoDB.get_activity_execution,
    ActivityExecutionServiceMongoDB.get_single.
  intros E. apply bind_inv_Ok in E as (x & m1 & l1 & _ & E).
  destruct (type_is x NotFoundByIdModel) eqn:Ex.
  - injection E as <-. by left.
  - destruct x; try discriminate. injection E as <-. by right.
Qed.

Lemma put_after_element_raised previous_id x dataset_name m e l :
  scenario_service.get_scenario_by_element_id previous_id dataset_name 0 m
  = (Raised e, m, l) ->
  scenario_service._put_activity_execution_after_element previous_id x
    dataset_name m = (Raised e, m, l).
Proof.
  intros Eg.
  unfold scenario_service._put_activity_execution_after_element,
    ScenarioServiceMongoDB._put_activity_execution_after_element.
  fold scenario_service.get_scenario_by_element_id.
  erewrite bind_Raised by exact Eg. reflexivity.
Qed.
End Ordering.

Lemma type_is_exclusive (v : Value) (c c' : PyClass) :
  type_is v c = true -> c <> c' -> type_is v c' = false.
Proof.
  destruct v; simpl; try discriminate. intros E N.
  apply bool_decide_eq_true_1 in E. subst.
  by apply bool_decide_eq_false_2.
Qed.

(** ** C4: insertion after an element *)

(** C4 (the code against the claim). _put_activity_execution_after_element
    tries [previous_id] as an experiment first and as an activity
    execution second, and reads the scenario it finds as a ScenarioOut:
    when the schema refuses the hydrated scenario the insertion raises
    ValidationError and writes nothing; when it admits it, an experiment
    match puts the new id at index 0 of the sequence of the first
    scenario of that experiment, and an execution match puts it at
    index(previous_id) + 1 in the first scenario that holds
    [previous_id], so that a, b, c with x after a becomes a, x, b, c.
    When [previous_id] is neither, the helper returns the NotFound
    sentinel and writes nothing, but add_activity_execution drops that
    sentinel: it returns the execution it has just saved, and the only
    writes are those of the save, so the new execution belongs to no
    scenario. *)
Theorem insert_after_drops_the_sentinel `{Environment}
    (previous_id x : Value) (dataset_name : string) (m : Mongo) :
  NoDup (id_of <$> scenarios m dataset_name) ->
  let experiment :=
    ExperimentService_get_experiment previous_id dataset_name 0 "" m in
  let execution :=
    result (activity_execution_service.get_activity_execution previous_id
              dataset_name 0 "" m) in
  let hydrated sd :=
    result (scenario_service._change_ids_to_objects (VDict sd) dataset_name
              0 m) in
  let r :=
    scenario_service._put_activity_execution_after_element previous_id x
      dataset_name m in
  let written sid sd ids :=
    <[(dataset_name, Collections.SCENARIO) :=
        mongo_api_service.replace_id sid
          (VDict (<["activity_executions" := VList ids]> sd))
          (scenarios m dataset_name)]> m in
  (forall sd rest sid e ids sd',
     type_is experiment ExperimentOut = true ->
     List.filter
       (mongo_api_service.matches (<["experiment_id" := previous_id]> ∅))
       (scenarios m dataset_name) = VDict sd :: rest ->
     stored_scenario sd sid e ids ->
     hydrated sd = Ok (VDict sd') ->
     (accepts ScenarioOut sd' = true ->
        result r = Ok VNone /\ db r = written sid sd (x :: ids))
     /\ (accepts ScenarioOut sd' = false ->
         result r = Raised ValidationError /\ db r = m
         /\ Forall (fun call => is_write call = false) (calls r)))
  /\ (forall sd rest sid e ids sd' v,
        type_is experiment NotFoundByIdModel = true ->
        execution = Ok v -> type_is v NotFoundByIdModel = false ->
        List.filter
          (mongo_api_service.matches
             (<["activity_executions" := previous_id]> ∅))
          (scenarios m dataset_name) = VDict sd :: rest ->
        stored_scenario sd sid e ids ->
        hydrated sd = Ok (VDict sd') ->
        exists i,
          index_of previous_id ids = Some i
          /\ (accepts ScenarioOut sd' = true ->
              result r = Ok VNone
              /\ db r = written sid sd (list_insert_at (S i) x ids))
          /\ (accepts ScenarioOut sd' = false ->
              result r = Raised ValidationError /\ db r = m
              /\ Forall (fun call => is_write call = false) (calls r)))
  /\ (forall v,
        type_is experiment NotFoundByIdModel = true ->
        execution = Ok v -> type_is v NotFoundByIdModel = true ->
        result r = Ok (unresolved_element previous_id)
        /\ db r = m
        /\ Forall (fun call => is_write call = false) (calls r))
  /\ (forall a b c : Value,
        index_of a [a; b; c] = Some 0%nat
        /\ list_insert_at 1 x [a; b; c] = [a; x; b; c])
  /\ (forall ae out m1 l1 v,
        activity_execution_service.save_activity_execution ae dataset_name
          m = (Ok out, m1, l1) ->
        is_obj out = true ->
        type_is (ExperimentService_get_experiment previous_id dataset_name
                   0 "" m1) NotFoundByIdModel = true ->
        result (activity_execution_service.get_activity_execution
                  previous_id dataset_name 0 "" m1) = Ok v ->
        type_is v NotFoundByIdModel = true ->
        let inserted :=
          scenario_service._put_activity_execution_after_element
            previous_id (attr out "id") dataset_name m1 in
        let added :=
          scenario_service.add_activity_execution previous_id ae
            dataset_name m in
        result inserted = Ok (unresolved_element previous_id)
        /\ result added = Ok out
        /\ db added = m1
        /\ List.filter is_write (calls added) = List.filter is_write l1).
Proof.
  intros N experiment execution hydrated r written.
  split; [|split; [|split; [|split]]].
  - intros sd rest sid e ids sd' Et Ef (Sid & Se & Si) Eh.
    destruct (filter_head _ _ _ _ Ef) as [_ I].
    destruct (scenario_by_experiment_found previous_id dataset_name m sd
                rest sd' Ef Eh) as (Eid & l & Es & W).
    rewrite Sid in Eid.
    pose proof (type_is_exclusive _ _ NotFoundByIdModel Et
                  ltac:(discriminate)) as En.
    split; intros Ea; rewrite Ea in Es.
    + pose proof (element_is_experiment previous_id dataset_name m _ _
                    En Es) as Eg.
      pose proof (find_by_id_of_member _ sd sid N I Sid) as Efind.
      subst r.
      rewrite (put_after_element_run previous_id x dataset_name m sd'
                 experiment _ sid sd ids 0%nat Eg Eid Efind Si).
      * split; reflexivity.
      * fold experiment. rewrite Et. reflexivity.
    + pose proof (element_is_experiment_raised previous_id dataset_name m
                    _ _ En Es) as Eg.
      subst r.
      rewrite (put_after_element_raised previous_id x dataset_name m _ _
                 Eg).
      repeat split. nowrites.
  - intros sd rest sid e ids sd' v Et Ea Ev Ef (Sid & Se & Si) Eh.
    destruct (filter_head _ _ _ _ Ef) as [Hm I].
    destruct (index_of_member previous_id ids
                (matches_array _ _ _ _ Hm Si)) as [i Ei].
    exists i. split; [exact Ei|].
    destruct (scenario_by_activity_execution_found previous_id
                dataset_name m sd rest sd' Ef Eh) as (Eid & l & Es & W).
    rewrite Sid in Eid.
    destruct (get_activity_execution_type _ _ _ _ _ Ea) as [Tv|Tv];
      [congruence|].
    apply get_activity_execution_run in Ea as (l0 & Eg0 & W0).
    split; intros Eacc; rewrite Eacc in Es.
    + pose proof (element_is_execution previous_id dataset_name m v l0 _ _
                    Et Eg0 Ev Es) as Eg.
      pose proof (find_by_id_of_member _ sd sid N I Sid) as Efind.
      subst r.
      rewrite (put_after_element_run previous_id x dataset_name m sd'
                 v _ sid sd ids (S i) Eg Eid Efind Si).
      * split; reflexivity.
      * rewrite (type_is_exclusive _ _ ExperimentOut Tv
                   ltac:(discriminate)).
        eauto.
    + pose proof (element_is_execution_raised previous_id dataset_name m v
                    l0 _ _ Et Eg0 Ev Es) as Eg.
      subst r.
      rewrite (put_after_element_raised previous_id x dataset_name m _ _
                 Eg).
      repeat split. nowrites.
  - intros v Et Ea Ev.
    destruct (put_after_unknown_element previous_id x dataset_name m v
                Et Ea Ev) as (l & E & W).
    subst r. rewrite E. repeat split; eauto.
  - intros a b c. split; [|reflexivity].
    simpl. by rewrite decide_True.
  - intros ae out m1 l1 v Es Eo Et Ea Ev inserted added.
    destruct (put_after_unknown_element previous_id (attr out "id")
                dataset_name m1 v Et Ea Ev) as (l & E & W).
    fold inserted in E.
    assert (added = (Ok out, m1, (l1 ++ l ++ [])%list)) as ->.
    { subst added.
      unfold scenario_service.add_activity_execution,
        ScenarioServiceMongoDB.add_activity_execution.
      erewrite bind_Ok by exact Es.
      destruct out as [| | | | | | |c d]; try discriminate.
      rewrite (bind_pure (getattr _ _) _ m1 (attr (VObj c d) "id"))
        by reflexivity.
      fold scenario_service._put_activity_execution_after_element.
      erewrite bind_Ok by exact E. reflexivity. }
    rewrite E. repeat split.
    unfold calls. simpl. rewrite app_nil_r, List.filter_app.
    assert (List.filter is_write l = []) as ->.
    { clear E. induction W as [|c l' Ec _ IH]; [reflexivity|].
      simpl. by rewrite Ec. }
    by rewrite app_nil_r.
Qed.

(** The reference activity service keeps its side of the contract. *)
Lemma reference_project_embeds (q : Dict) (activity projected : Value) :
  Reference.project_executions q activity = Some projected ->
  embeds_executions projected = true.
Proof.
  unfold Reference.project_executions.
  destruct activity as [| | | | | |ad|]; try discriminate. simpl.
  assert (forall l : list Value,
            forallb is_dict (List.filter is_dict l) = true) as Fd.
  { induction l as [|y l IH]; [reflexivity|]. simpl.
    destruct (is_dict y) eqn:E; [simpl; by rewrite E|exact IH]. }
  assert (forall (f : Value -> bool) (l : list Value),
            forallb is_dict l = true ->
            forallb is_dict (List.filter f l) = true) as Ff.
  { intros f. induction l as [|y l IH]; [reflexivity|]. simpl.
    intros [Ey El]%andb_true_iff.
    destruct (f y); [simpl; rewrite Ey|]; by apply IH. }
  assert (forall l, forallb is_dict l = true ->
            embeds_executions
              (VDict (<[Collections.ACTIVITY_EXECUTION := VList l]> ad))
            = true) as Fe.
  { intros l El. unfold embeds_executions, field.
    by rewrite lookup_insert_eq. }
  assert (forallb is_dict (Reference.embedded (VDict ad)) = true) as Fa.
  { unfold Reference.embedded.
    destruct (field (VDict ad) Collections.ACTIVITY_EXECUTION)
      as [[| | | | |l| |]|]; try reflexivity. apply Fd. }
  destruct (q !! "activity_executions.id") as [oid|].
  - destruct (List.filter _ _) as [|y l] eqn:E; [discriminate|].
    intros [= <-]. apply Fe. rewrite <- E. by apply Ff.
  - intros [= <-]. by apply Fe.
Qed.

Lemma reference_activities_ok_under schema :
  @activity_service_ok (Reference.with_schema schema).
Proof.
  intros dataset_name q depth source projection m. simpl.
  unfold Reference.get_multiple.
  apply forallb_forall. intros projected I.
  apply list_elem_of_In, list_elem_of_omap in I as (activity & _ & E).
  exact (reference_project_embeds _ _ _ E).
Qed.

Lemma reference_activities_ok : @activity_service_ok Reference.environment.
Proof. apply reference_activities_ok_under. Qed.

(** On the reference data, under the schema that refuses a scenario
    whose sequence holds executions: x after the experiment of the empty
    scenario gives the sequence x; x after a raises ValidationError and
    leaves the database as it was; x after an id that names nothing
    gives the sentinel; and the new execution added after that id is
    returned while the scenarios stay as they were. Under the schema
    that admits the hydrated scenario, x after a turns a, b, c into
    a, x, b, c. *)
Lemma insert_after_drops_the_sentinel_witness :
  sequence_of
    <$> scenarios (db (Reference.put_x_strict Reference.db0 (VStr "exp1")))
          "ds"
  = [[VStr Reference.id_x]]
  /\ Reference.put_x_strict Reference.db1 (VStr Reference.id_a)
     = (Raised ValidationError, Reference.db1,
        calls (Reference.put_x_strict Reference.db1 (VStr Reference.id_a)))
  /\ sequence_of
       <$> scenarios (db (Reference.put_x_after (VStr Reference.id_a))) "ds"
     = [[VStr Reference.id_a; VStr Reference.id_x; VStr Reference.id_b;
         VStr Reference.id_c]]
  /\ result (Reference.put_x_strict Reference.db1 (VStr Reference.id_none))
     = Ok (unresolved_element (VStr Reference.id_none))
  /\ type_is (match result Reference.add_after_unknown with
              | Ok out => out
              | Raised _ => VNone
              end) ActivityExecutionOut = true
  /\ scenarios (db Reference.add_after_unknown) "ds"
     = scenarios Reference.db1 "ds".
Proof.
  pose (sd := list_to_map
                [("id", VStr "s1"); ("experiment_id", VStr "exp1");
                 ("activity_executions",
                  VList [VStr Reference.id_a; VStr Reference.id_b;
                         VStr Reference.id_c])] : Dict).
  assert (stored_scenario sd (VStr "s1") (VStr "exp1")
            [VStr Reference.id_a; VStr Reference.id_b; VStr Reference.id_c])
    as S by (repeat split; vm_compute; reflexivity).
  pose (sd0 := list_to_map
                 [("id", VStr "s0"); ("experiment_id", VStr "exp1");
                  ("activity_executions", VList [])] : Dict).
  assert (stored_scenario sd0 (VStr "s0") (VStr "exp1") []) as S0
    by (repeat split; vm_compute; reflexivity).
  assert (NoDup (id_of <$> scenarios Reference.db1 "ds")) as N
    by (apply (bool_decide_eq_true_1 _); vm_compute; reflexivity).
  assert (NoDup (id_of <$> scenarios Reference.db0 "ds")) as N0
    by (apply (bool_decide_eq_true_1 _); vm_compute; reflexivity).
  split; [|split; [|split; [|split]]].
  - destruct (@insert_after_drops_the_sentinel Reference.strict
                (VStr "exp1") (VStr Reference.id_x) "ds" Reference.db0 N0)
      as (A & _).
    edestruct (A sd0 [] (VStr "s0") (VStr "exp1") []) as ((_ & D) & _).
    + vm_compute. reflexivity.
    + vm_compute. reflexivity.
    + exact S0.
    + vm_compute. reflexivity.
    + vm_compute. reflexivity.
    + unfold Reference.put_x_strict. rewrite D. vm_compute. reflexivity.
  - destruct (@insert_after_drops_the_sentinel Reference.strict
                (VStr Reference.id_a) (VStr Reference.id_x) "ds"
                Reference.db1 N)
      as (_ & B & _).
    edestruct (B sd [] (VStr "s1") (VStr "exp1")
                 [VStr Reference.id_a; VStr Reference.id_b;
                  VStr Reference.id_c])
      as (i & _ & _ & R).
    + vm_compute. reflexivity.
    + vm_compute. reflexivity.
    + vm_compute. reflexivity.
    + vm_compute. reflexivity.
    + exact S.
    + vm_compute. reflexivity.
    + destruct R as (R & D & _); [vm_compute; reflexivity|].
      unfold Reference.put_x_strict.
      destruct (scenario_service._put_activity_execution_after_element _ _
                  _ _) as [[r' m'] l'].
      unfold result, db, calls in *. simpl in *. by subst.
  - destruct (@insert_after_drops_the_sentinel Reference.environment
                (VStr Reference.id_a) (VStr Reference.id_x) "ds"
                Reference.db1 N)
      as (_ & B & _).
    edestruct (B sd [] (VStr "s1") (VStr "exp1")
                 [VStr Reference.id_a; VStr Reference.id_b;
                  VStr Reference.id_c])
      as (i & Ei & R & _).
    + vm_compute. reflexivity.
    + vm_compute. reflexivity.
    + vm_compute. reflexivity.
    + vm_compute. reflexivity.
    + exact S.
    + vm_compute. reflexivity.
    + destruct R as (_ & D); [reflexivity|].
      unfold Reference.put_x_after. rewrite D.
      vm_compute in Ei. injection Ei as <-. vm_compute. reflexivity.
  - destruct (@insert_after_drops_the_sentinel Reference.strict
                (VStr Reference.id_none) (VStr Reference.id_x) "ds"
                Reference.db1 N)
      as (_ & _ & C & _).
    edestruct C as (R & _).
    + vm_compute. reflexivity.
    + vm_compute. reflexivity.
    + vm_compute. reflexivity.
    + exact R.
  - destruct (@insert_after_drops_the_sentinel Reference.strict
                (VStr Reference.id_none) (VStr Reference.id_x) "ds"
                Reference.db1 N)
      as (_ & _ & _ & _ & E).
    edestruct (E (Reference.execution_in (VStr "act1") VNone))
      as (_ & R & D & _).
    + apply run_as_triple. vm_compute. reflexivity.
    + vm_compute. reflexivity.
    + vm_compute. reflexivity.
    + vm_compute. reflexivity.
    + vm_compute. reflexivity.
    + unfold Reference.add_after_unknown. rewrite R, D. split.
      * vm_compute. reflexivity.
      * vm_compute. reflexivity.
Defined.

(** ** C9: a reordering whose insertion fails *)

Lemma filter_no_write (l : list Call) :
  Forall (fun call => is_write call = false) l -> List.filter is_write l = [].
Proof.
  induction 1 as [|c l E _ IH]; [reflexivity|]. simpl. by rewrite E.
Qed.

Section Detach.
Context `{Environment}.
Hypothesis activities_ok : activity_service_ok.

(** The removal step: the first scenario that holds the id is read as
    a ScenarioOut; when the schema admits it, the stored scenario loses
    the first occurrence of the id, and this is the only write. *)
Lemma delete_activity_execution_run a dataset_name m sd rest sid e ids sd' :
  NoDup (id_of <$> scenarios m dataset_name) ->
  is_id a = true ->
  List.filter
    (mongo_api_service.matches (<["activity_executions" := a]> ∅))
    (scenarios m dataset_name) = VDict sd :: rest ->
  stored_scenario sd sid e ids ->
  result (scenario_service._change_ids_to_objects (VDict sd) dataset_name 0
            m) = Ok (VDict sd') ->
  accepts ScenarioOut sd' = true ->
  exists ids' v l,
    remove_first a ids = Some ids'
    /\ scenario_service.delete_activity_execution a dataset_name m
       = (Ok v,
          <[(dataset_name, Collections.SCENARIO) :=
              mongo_api_service.replace_id sid
                (VDict (<["activity_executions" := VList ids']> sd))
                (scenarios m dataset_name)]> m,
          l)
    /\ List.filter is_write l
       = [MongoUpdateDocumentWithDict Collections.SCENARIO sid
            (VDict (<["activity_executions" := VList ids']> sd))
            dataset_name].
Proof.
  intros N Ia Ef (Sid & Se & Si) Eh Eacc.
  destruct (filter_head _ _ _ _ Ef) as [Hm I].
  destruct (remove_first_member a ids (matches_array _ _ _ _ Hm Si))
    as [ids' Er].
  destruct (scenario_by_activity_execution_found a dataset_name m sd rest
              sd' Ef Eh) as (Eid & l1 & Es & W1).
  rewrite Eacc in Es. rewrite Sid in Eid.
  pose proof (find_by_id_of_member _ sd sid N I Sid) as Efind.
  set (detached := VDict (<["activity_executions" := VList ids']> sd)).
  set (m' := <[(dataset_name, Collections.SCENARIO) :=
                 mongo_api_service.replace_id sid detached
                   (scenarios m dataset_name)]> m).
  destruct (get_activity_execution_returns activities_ok a dataset_name ""
              m' Ia) as (v & l2 & Eg & _).
  pose proof (reads_wired_get_activity_execution a dataset_name 0 "" m')
    as [_ W2].
  rewrite Eg in W2. unfold calls in W2. simpl in W2.
  exists ids', v. eexists. split; [exact Er|]. split.
  - unfold scenario_service.delete_activity_execution,
      ScenarioServiceMongoDB.delete_activity_execution.
    fold scenario_service.get_scenario_by_activity_execution.
    erewrite bind_Ok by exact Es.
    cbn [type_is]. rewrite bool_decide_eq_false_2 by discriminate.
    rewrite (bind_pure (getattr _ _) _ m sid)
      by (unfold getattr; rewrite Eid; reflexivity).
    unfold ScenarioServiceMongoDB.get_scenario_dict_by_scenario_id,
      mongo_api_service.get_document.
    erewrite (bind_Ok (query _ _)) by reflexivity.
    fold (scenarios m dataset_name). rewrite Efind.
    rewrite (bind_pure (getitem _ _) _ m (VList ids))
      by (unfold getitem; rewrite Si; reflexivity).
    rewrite (bind_pure (as_list _) _ m ids) by reflexivity.
    rewrite (bind_pure (list_remove _ _) _ m ids')
      by (unfold list_remove; rewrite Er; reflexivity).
    rewrite (bind_pure (setitem _ _ _) _ m detached) by reflexivity.
    unfold mongo_api_service.update_document_with_dict.
    erewrite (bind_Ok (command _ _)) by reflexivity.
    fold (scenarios m dataset_name). fold m'.
    fold activity_execution_service.get_activity_execution.
    rewrite Eg. reflexivity.
  - rewrite !List.filter_app. simpl.
    rewrite (filter_no_write l1 W1), (filter_no_write l2 W2). reflexivity.
Qed.

(** When the schema refuses the hydrated scenario the removal stops
    there, before any write. *)
Lemma delete_activity_execution_refused a dataset_name m sd rest sd' :
  List.filter
    (mongo_api_service.matches (<["activity_executions" := a]> ∅))
    (scenarios m dataset_name) = VDict sd :: rest ->
  result (scenario_service._change_ids_to_objects (VDict sd) dataset_name 0
            m) = Ok (VDict sd') ->
  accepts ScenarioOut sd' = false ->
  exists l,
    scenario_service.delete_activity_execution a dataset_name m
    = (Raised ValidationError, m, l)
    /\ Forall (fun call => is_write call = false) l.
Proof.
  intros Ef Eh Eacc.
  destruct (scenario_by_activity_execution_found a dataset_name m sd rest
              sd' Ef Eh) as (_ & l & Es & W).
  rewrite Eacc in Es. exists l. split; [|exact W].
  unfold scenario_service.delete_activity_execution,
    ScenarioServiceMongoDB.delete_activity_execution.
  fold scenario_service.get_scenario_by_activity_execution.
  erewrite bind_Raised by exact Es. reflexivity.
Qed.
End Detach.





Lemma has_id_id_of sid doc :
  mongo_api_service.has_id sid doc = true -> id_of doc = Some sid.
Proof.
  destruct doc; simpl; try discriminate. apply bool_decide_eq_true_1.
Qed.

Lemma replace_id_cons sid new d docs :
  mongo_api_service.replace_id sid new (d :: docs)
  = (if mongo_api_service.has_id sid d then new else d)
      :: mongo_api_service.replace_id sid new docs.
Proof. reflexivity. Qed.



Lemma scenarios_after_write (dataset_name : string) (docs : list Value)
    (m : Mongo) :
  scenarios (<[(dataset_name, Collections.SCENARIO) := docs]> m)
    dataset_name = docs.
Proof.
  unfold scenarios, mongo_api_service.collection.
  by rewrite lookup_insert_eq.
Qed.




(** ** C10: saving a scenario with an execution that is rejected *)

Section SaveScenario.
Context `{Environment}.
Hypothesis add_ok : add_returns_instance.
Variable dataset_name : string.

Abbreviation save :=
  (fun ae => activity_execution_service.save_activity_execution ae
               dataset_name).

Lemma save_activity_execution_returns ae m :
  is_obj ae = true ->
  exists out m' l,
    activity_execution_service.save_activity_execution ae dataset_name m
    = (Ok out, m', l)
    /\ is_obj out = true.
Proof.
  destruct ae as [| | | | | | |c d]; try discriminate. intros _.
  unfold activity_execution_service.save_activity_execution,
    ActivityExecutionServiceMongoDB.save_activity_execution.
  rewrite (bind_pure (getattr _ _) _ m (attr (VObj c d) "activity_id"))
    by reflexivity.
  unfold activity_service.get_activity.
  erewrite (bind_Ok (query _ _)) by reflexivity.
  destruct (_ && _).
  { do 3 eexists. split; reflexivity. }
  rewrite (bind_pure (getattr _ _) _ m (attr (VObj c d) "arrangement_id"))
    by reflexivity.
  unfold arrangement_service.get_arrangement.
  erewrite (bind_Ok (query _ _)) by reflexivity.
  destruct (_ && _).
  { do 3 eexists. split; reflexivity. }
  unfold activity_service.add_activity_execution, command, invoke.
  pose proof (add_ok (VObj c d) dataset_name m eq_refl) as O.
  destruct (ActivityService_add_activity_execution (VObj c d) dataset_name m)
    as [out m'].
  do 3 eexists. split; [reflexivity | exact O].
Qed.

Lemma save_all_return given m :
  Forall (fun ae => is_obj ae = true) given ->
  exists outs m1 l,
    mapM save given m = (Ok outs, m1, l)
    /\ Forall (fun out => is_obj out = true) outs.
Proof.
  intros G. revert m. induction G as [|ae given O _ IH]; intros m.
  - do 3 eexists. split; [reflexivity | constructor].
  - destruct (save_activity_execution_returns ae m O)
      as (out & m' & l & E & Oo).
    destruct (IH m') as (outs & m1 & l1 & E1 & Os).
    exists (out :: outs), m1. eexists. split.
    + simpl. erewrite bind_Ok by exact E.
      erewrite bind_Ok by exact E1. reflexivity.
    + by constructor.
Qed.

(** The output at the position of a payload that is rejected when its
    turn comes. *)
Lemma save_all_at given m i bad :
  Forall (fun ae => is_obj ae = true) given ->
  given !! i = Some bad ->
  relation_unresolved bad dataset_name (db (mapM save (take i given) m)) ->
  exists outs m1 l msg,
    mapM save given m = (Ok outs, m1, l)
    /\ Forall (fun out => is_obj out = true) outs
    /\ outs !! i = Some (with_errors ActivityExecutionOut msg).
Proof.
  intros G. revert m i. induction G as [|ae given O G IH]; intros m i.
  - intros L. discriminate.
  - destruct i as [|i]; simpl.
    + intros [= ->] U. unfold db in U. simpl in U.
      destruct bad as [| | | | | | |c d]; try discriminate.
      destruct (save_activity_execution_rejects c d dataset_name m U)
        as (msg & l & E & _).
      destruct (save_all_return given m G) as (outs & m1 & l1 & E1 & Os).
      exists (with_errors ActivityExecutionOut msg :: outs), m1.
      do 2 eexists. split; [|split].
      * fold activity_execution_service.save_activity_execution in E.
        erewrite bind_Ok by exact E.
        erewrite bind_Ok by exact E1. reflexivity.
      * by constructor.
      * reflexivity.
    + intros L U.
      destruct (save_activity_execution_returns ae m O)
        as (out & m' & l & E & Oo).
      assert (db (mapM save (take i given) m')
              = db ((y <- save ae ;;
                     ys <- mapM save (take i given) ;; ret (y :: ys)) m))
        as Ed.
      { erewrite (bind_Ok (save ae)) by exact E.
        destruct (save_all_return (take i given) m'
                    (Forall_take _ _ _ G)) as (o2 & m2 & l2 & E2 & _).
        rewrite E2. erewrite bind_Ok by exact E2. reflexivity. }
      rewrite <- Ed in U.
      destruct (IH m' i L U) as (outs & m1 & l1 & msg & E1 & Os & Ei).
      exists (out :: outs), m1. do 2 eexists. split; [|split].
      * erewrite bind_Ok by exact E.
        erewrite bind_Ok by exact E1. reflexivity.
      * by constructor.
      * exact Ei.
Qed.

Lemma ids_of_outputs (outs : list Value) m :
  Forall (fun out => is_obj out = true) outs ->
  mapM (fun ae => getattr ae "id") outs m
  = (Ok ((fun out => attr out "id") <$> outs), m, []).
Proof.
  induction 1 as [|out outs O _ IH]; [reflexivity|]. simpl.
  destruct out as [| | | | | | |c d]; try discriminate.
  rewrite (bind_pure (getattr _ _) _ m (attr (VObj c d) "id"))
    by reflexivity.
  rewrite (bind_pure _ _ m _ IH). reflexivity.
Qed.
End SaveScenario.

(** C10. save_scenario does not validate its embedded executions. When
    the payload at some position is rejected by save_activity_execution
    (an activity or arrangement that is given and does not resolve), the
    output at that position is an error output without id, and
    save_scenario still creates the scenario document: the stored id
    sequence holds [None] at that position. After the create the outputs
    of the saves are handed to the ScenarioOut constructor: the scenario
    output, not an error output, is returned when the schema admits them,
    and a ValidationError is raised when it does not; the document has
    been created either way. *)
Theorem save_scenario_stores_null_for_rejected_execution `{Environment}
    (c : PyClass) (sd : Dict) (dataset_name : string) (m : Mongo)
    (given : list Value) (i : nat) (bad : Value) :
  let scenario := VObj c sd in
  let save ae :=
    activity_execution_service.save_activity_execution ae dataset_name in
  let r := scenario_service.save_scenario scenario dataset_name m in
  add_returns_instance ->
  attr scenario "experiment_id" = VNone
  \/ type_is (ExperimentService_get_experiment
                (attr scenario "experiment_id") dataset_name 0 "" m)
       NotFoundByIdModel = false ->
  sd !! "activity_executions" = Some (VList given) ->
  Forall (fun ae => is_obj ae = true) given ->
  given !! i = Some bad ->
  relation_unresolved bad dataset_name (db (mapM save (take i given) m)) ->
  exists outs msg stored,
    let fields : Dict :=
      <["activity_executions" := VList outs]>
        (to_plain <$> (to_plain <$> sd)) in
    result (mapM save given m) = Ok outs
    /\ outs !! i = Some (with_errors ActivityExecutionOut msg)
    /\ attr (with_errors ActivityExecutionOut msg) "id" = VNone
    /\ result r = (if accepts ScenarioOut fields
                   then Ok (VObj ScenarioOut fields)
                   else Raised ValidationError)
    /\ scenarios (db r) dataset_name
       = (scenarios (db (mapM save given m)) dataset_name ++ [stored])%list
    /\ field stored "activity_executions"
       = Some (VList ((fun out => attr out "id") <$> outs))
    /\ ((fun out => attr out "id") <$> outs) !! i = Some VNone
    /\ Exists (fun call =>
                 match call with
                 | MongoCreateDocumentFromDict _ name _ =>
                     name = Collections.SCENARIO
                 | _ => False
                 end) (calls r).
Proof.
  intros scenario save r add_ok He Hg Go Li U. subst save.
  destruct (save_all_at add_ok dataset_name given m i bad Go Li U)
    as (outs & m1 & l1 & msg & Es & Os & Ei).
  set (ids := (fun out => attr out "id") <$> outs).
  set (plain := to_plain <$> (to_plain <$> sd)).
  set (docs := scenarios m1 dataset_name).
  set (stored := mongo_api_service.with_id (new_id docs)
                   (VDict (<["activity_executions" := VList ids]> plain))).
  set (fields := <["activity_executions" := VList outs]> plain).
  assert (exists l,
    r = ((if accepts ScenarioOut fields then Ok (VObj ScenarioOut fields)
          else Raised ValidationError),
         <[(dataset_name, Collections.SCENARIO) := (docs ++ [stored])%list]>
           m1,
         (l ++ [MongoCreateDocumentFromDict
                  (VDict (<["activity_executions" := VList ids]> plain))
                  Collections.SCENARIO dataset_name])%list)) as [l Er].
  { exists (ExperimentGetExperiment (attr scenario "experiment_id")
              dataset_name 0 "" :: l1).
    subst r. unfold scenario_service.save_scenario,
      ScenarioServiceMongoDB.save_scenario.
    rewrite (bind_pure (getattr _ _) _ m (attr scenario "experiment_id"))
      by reflexivity.
    unfold experiment_service.get_experiment.
    erewrite (bind_Ok (query _ _)) by reflexivity.
    assert (negb (is_None (attr scenario "experiment_id"))
            && negb (negb (type_is
                 (ExperimentService_get_experiment
                    (attr scenario "experiment_id") dataset_name 0 "" m)
                 NotFoundByIdModel)) = false) as ->.
    { destruct He as [-> | ->]; [reflexivity | by rewrite andb_false_r]. }
    rewrite (bind_pure (getattr _ _) _ m (VList given))
      by (unfold getattr, scenario; rewrite Hg; reflexivity).
    rewrite (bind_pure (as_list _) _ m given) by reflexivity.
    erewrite bind_Ok by exact Es.
    rewrite (bind_pure _ _ m1 ids) by (apply ids_of_outputs, Os).
    rewrite (bind_pure (dict_of _) _ m1 (VDict (to_plain <$> sd)))
      by reflexivity.
    rewrite (bind_pure (construct _ _) _ m1
               (VObj ScenarioIn (to_plain <$> sd))) by reflexivity.
    rewrite (bind_pure (dict_of _) _ m1 (VDict plain)) by reflexivity.
    rewrite (bind_pure (setitem _ _ _) _ m1
               (VDict (<["activity_executions" := VList ids]> plain)))
      by reflexivity.
    unfold mongo_api_service.create_document_from_dict.
    erewrite (bind_Ok (command _ _)) by reflexivity.
    fold docs. fold stored.
    rewrite (bind_pure (setitem _ _ _) _ _ (VDict fields)).
    2:{ unfold setitem, fields. by rewrite insert_insert_eq. }
    unfold validated, ret, raise.
    destruct (accepts ScenarioOut fields); reflexivity. }
  exists outs, msg, stored. fold plain. fold fields. cbv zeta.
  rewrite Es, Er. unfold result, db, calls. simpl.
  split; [reflexivity|]. split; [exact Ei|]. split; [reflexivity|].
  split; [reflexivity|].
  split; [by rewrite scenarios_after_write|].
  split.
  { subst stored. simpl. rewrite lookup_insert_ne by discriminate.
    by rewrite lookup_insert_eq. }
  split.
  { subst ids. rewrite list_lookup_fmap, Ei. reflexivity. }
  apply Exists_app. right. left. reflexivity.
Qed.

Lemma reference_add_returns_instance_under schema :
  @add_returns_instance (Reference.with_schema schema).
Proof.
  intros ae dataset_name m O.
  destruct ae as [| | | | | | |c d]; try discriminate. reflexivity.
Qed.

Lemma reference_add_returns_instance :
  @add_returns_instance Reference.environment.
Proof. apply reference_add_returns_instance_under. Qed.

(** A scenario saved with one execution whose activity does not
    resolve, under the schema that refuses a scenario whose sequence
    holds anything: the document is created with null in its sequence,
    and the construction of the output raises afterwards. *)
Lemma save_scenario_stores_null_for_rejected_execution_witness :
  exists stored ids,
    last (scenarios (db Reference.save_with_ghost) "ds") = Some stored
    /\ field stored "activity_executions" = Some (VList ids)
    /\ ids !! 0%nat = Some VNone
    /\ length (scenarios (db Reference.save_with_ghost) "ds")
       = S (length (scenarios Reference.db1 "ds"))
    /\ result Reference.save_with_ghost = Raised ValidationError.
Proof.
  destruct (@save_scenario_stores_null_for_rejected_execution
              Reference.strict ScenarioIn
              (list_to_map [("experiment_id", VStr "exp1");
                            ("activity_executions",
                             VList [Reference.execution_in (VStr "ghost")
                                      VNone])])
              "ds" Reference.db1
              [Reference.execution_in (VStr "ghost") VNone] 0%nat
              (Reference.execution_in (VStr "ghost") VNone)
              (reference_add_returns_instance_under _))
    as (outs & msg & stored & _ & _ & _ & _ & S & F & I & _).
  - right. vm_compute. reflexivity.
  - vm_compute. reflexivity.
  - repeat constructor.
  - reflexivity.
  - left. split; [discriminate | vm_compute; reflexivity].
  - exists stored. eexists.
    split; [|split; [exact F|split; [exact I|split]]].
    + unfold Reference.save_with_ghost, Reference.scenario_in.
      rewrite S. apply last_snoc.
    + vm_compute. reflexivity.
    + vm_compute. reflexivity.
Defined.

(** * Further properties of the services *)

(** ** The generic service on stored and missing records *)

Section Generic.
Context `{Environment}.
Import mongo_api_service.

Lemma collection_after_write (dataset_name name : string)
    (docs : list Value) (m : Mongo) :
  collection (<[(dataset_name, name) := docs]> m) dataset_name name = docs.
Proof. unfold collection. by rewrite lookup_insert_eq. Qed.

Lemma find_has_id id docs doc :
  List.find (has_id id) docs = Some doc -> has_id id doc = true.
Proof. intros E. by apply find_some in E as [_ E]. Qed.

Lemma find_replace_id id new docs doc :
  List.find (has_id id) docs = Some doc -> has_id id new = true ->
  List.find (has_id id) (replace_id id new docs) = Some new.
Proof.
  intros E Hn. induction docs as [|d docs IH]; [discriminate|].
  unfold replace_id. simpl in *. destruct (has_id id d) eqn:Ed.
  - by rewrite Hn.
  - rewrite Ed. by apply IH.
Qed.

Lemma find_after_delete id docs :
  List.find (has_id id)
    (List.filter (fun doc => negb (has_id id doc)) docs) = None.
Proof.
  induction docs as [|d docs IH]; [reflexivity|]. simpl.
  destruct (has_id id d) eqn:Ed; simpl; [exact IH|]. by rewrite Ed.
Qed.

(** The loop that normalises dates, as a fold over the fields. *)
Lemma normalize_fold c (l : list (string * Value)) (acc : Dict) m :
  Forall (fun fv => is_date_only fv.2 = true -> declares c fv.1 = true) l ->
  foldM (fun o fv =>
           if is_date_only fv.2
           then setattr o fv.1 (combine_min_time fv.2)
           else ret o)
        (VObj c acc) l m
  = (Ok (VObj c
           (foldl (fun a fv =>
                     if is_date_only fv.2
                     then <[fv.1 := combine_min_time fv.2]> a else a)
                  acc l)),
     m, []).
Proof.
  revert acc. induction l as [|[f v] l IH]; intros acc D; [reflexivity|].
  inversion D as [|? ? Df D']; subst. simpl in *.
  destruct (is_date_only v) eqn:Ev.
  - rewrite (bind_pure _ _ m (VObj c (<[f:=combine_min_time v]> acc))).
    + by apply IH.
    + unfold setattr. by rewrite Df.
  - rewrite bind_ret_l. by apply IH.
Qed.

Lemma normalize_foldl_lookup (l : list (string * Value)) (acc : Dict) k :
  NoDup l.*1 ->
  foldl (fun a fv =>
           if is_date_only fv.2
           then <[fv.1 := combine_min_time fv.2]> a else a) acc l !! k
  = match (list_to_map l : Dict) !! k with
    | Some v => if is_date_only v then Some (combine_min_time v)
                else acc !! k
    | None => acc !! k
    end.
Proof.
  revert acc. induction l as [|[f v] l IH]; intros acc N; [reflexivity|].
  inversion N as [|? ? Nf N']; subst. simpl.
  rewrite (IH _ N'). destruct (decide (k = f)) as [->|Nk].
  - rewrite lookup_insert_eq.
    rewrite (not_elem_of_list_to_map_1 _ _ Nf).
    destruct (is_date_only v); [by rewrite lookup_insert_eq | done].
  - rewrite lookup_insert_ne by done.
    destruct (list_to_map l !! k) as [w|];
      destruct (is_date_only v); by rewrite ?lookup_insert_ne.
Qed.

Lemma normalize_dates_run c (d : Dict) m :
  (forall f day, d !! f = Some (VDate day) -> declares c f = true) ->
  GenericMongoServiceMixin.normalize_dates (VObj c d) m
  = (Ok (VObj c (combine_min_time <$> d)), m, []).
Proof.
  intros D. unfold GenericMongoServiceMixin.normalize_dates.
  rewrite (bind_pure (dict_of _) _ m (VDict (to_plain <$> d)))
    by reflexivity.
  rewrite (bind_pure (items _) _ m (map_to_list (to_plain <$> d)))
    by reflexivity.
  rewrite normalize_fold.
  - do 2 f_equal. f_equal. f_equal. apply map_eq. intros k.
    rewrite normalize_foldl_lookup by apply NoDup_fst_map_to_list.
    rewrite list_to_map_to_list, !lookup_fmap.
    destruct (d !! k) as [v|]; [|reflexivity].
    destruct v; reflexivity.
  - apply Forall_forall. intros [f v] I%elem_of_map_to_list.
    simpl. intros Ev. rewrite lookup_fmap in I.
    destruct (d !! f) as [w|] eqn:Ew; [|discriminate].
    simpl in I. injection I as <-.
    destruct w; try discriminate. by apply (D f day).
Qed.

(** A read of a stored record whose hook stops: the typed record. *)
Lemma get_single_of_stored cls hook name id dataset_name depth source m
    (d : Dict) :
  get_collection_name cls = ret name ->
  List.find (has_id id) (collection m dataset_name name) = Some (VDict d) ->
  hook (VDict d) dataset_name depth source m = (Ok (VDict d), m, []) ->
  GenericMongoServiceMixin.get_single cls hook id dataset_name depth source
    m
  = (Ok (VObj cls d), m, [MongoGetDocument id name dataset_name]).
Proof.
  intros Ec Ef Eh.
  unfold GenericMongoServiceMixin.get_single,
    GenericMongoServiceMixin.get_single_dict.
  rewrite bind_assoc. rewrite Ec, bind_ret_l.
  cbv beta. rewrite bind_assoc. unfold get_document.
  erewrite (bind_Ok (query _ _)) by reflexivity.
  rewrite Ef. cbn [type_is]. rewrite (bind_pure _ _ m (VDict d)) by exact Eh.
  reflexivity.
Qed.

Lemma stored_class_is_not_sentinel cls name :
  get_collection_name cls = ret name ->
  forall d, type_is (VObj cls d) NotFoundByIdModel = false.
Proof.
  intros E d. unfold type_is. apply bool_decide_eq_false. intros ->.
  apply (f_equal (fun c => c ∅)) in E. discriminate.
Qed.

(** X1. Reading an id that has no record, through get_single_dict or
    get_single of the generic service: the sentinel of the gateway comes
    back as it is, it carries the id asked for, the only call is the one
    read of the collection of the out class, and the expansion hook is
    not run, whatever the hook, the depth and the source are. *)
Theorem read_of_missing_id_skips_expansion cls hook name id dataset_name
    depth source m :
  get_collection_name cls = ret name ->
  List.find (has_id id) (collection m dataset_name name) = None ->
  GenericMongoServiceMixin.get_single_dict cls hook id dataset_name depth
    source m
  = (Ok (gateway_sentinel id), m, [MongoGetDocument id name dataset_name])
  /\ GenericMongoServiceMixin.get_single cls hook id dataset_name depth
       source m
     = (Ok (gateway_sentinel id), m,
        [MongoGetDocument id name dataset_name])
  /\ attr (gateway_sentinel id) "id" = id.
Proof.
  intros Ec Ef.
  assert (GenericMongoServiceMixin.get_single_dict cls hook id dataset_name
            depth source m
          = (Ok (gateway_sentinel id), m,
             [MongoGetDocument id name dataset_name])) as E.
  { unfold GenericMongoServiceMixin.get_single_dict.
    rewrite Ec, bind_ret_l. unfold get_document.
    erewrite (bind_Ok (query _ _)) by reflexivity. rewrite Ef.
    reflexivity. }
  split; [exact E|]. split; [|reflexivity].
  unfold GenericMongoServiceMixin.get_single.
  erewrite bind_Ok by exact E. reflexivity.
Qed.

(** X2. The generic update of an id that has a record, when the hook
    stops at depth zero: the record is read, the payload with its
    date-only fields turned into timestamps replaces it under the same
    id, and the record is read again and returned as an instance of the
    out class; the other records of the collection are as before. *)
Theorem update_of_stored_id_replaces_record cls hook name id
    (payload_class : PyClass) (payload d : Dict) dataset_name m :
  get_collection_name cls = ret name ->
  get_collection_name payload_class = ret name ->
  stops_at_zero hook ->
  List.find (has_id id) (collection m dataset_name name) = Some (VDict d) ->
  (forall f day,
     payload !! f = Some (VDate day) -> declares payload_class f = true) ->
  let normalized := combine_min_time <$> payload in
  let stored := <["id" := id]> (to_plain <$> normalized) in
  GenericMongoServiceMixin.update cls hook id (VObj payload_class payload)
    dataset_name m
  = (Ok (VObj cls stored),
     <[(dataset_name, name) :=
         replace_id id (VDict stored) (collection m dataset_name name)]> m,
     [MongoGetDocument id name dataset_name;
      MongoUpdateDocument id (VObj payload_class normalized) dataset_name;
      MongoGetDocument id name dataset_name]).
Proof.
  intros Ec Ep Hs Ef Hd normalized stored.
  unfold GenericMongoServiceMixin.update.
  erewrite bind_Ok
    by (eapply get_single_of_stored; [exact Ec | exact Ef | apply Hs]).
  rewrite (stored_class_is_not_sentinel _ _ Ec).
  rewrite (bind_pure _ _ m (VObj payload_class normalized))
    by (apply normalize_dates_run; exact Hd).
  assert (update_document id (VObj payload_class normalized) dataset_name m
          = (Ok (),
             <[(dataset_name, name) :=
                 replace_id id (VDict stored)
                   (collection m dataset_name name)]> m,
             [MongoUpdateDocument id (VObj payload_class normalized)
                dataset_name])) as Eu.
  { unfold update_document, invoke.
    rewrite (bind_pure _ _ m payload_class) by reflexivity.
    rewrite Ep. reflexivity. }
  erewrite bind_Ok by exact Eu.
  erewrite get_single_of_stored; [reflexivity | exact Ec | | apply Hs].
  rewrite collection_after_write.
  eapply find_replace_id; [exact Ef|].
  unfold has_id, stored. apply bool_decide_eq_true. apply lookup_insert_eq.
Qed.

Lemma find_app_fresh id (docs : list Value) new :
  List.find (has_id id) docs = None -> has_id id new = true ->
  List.find (has_id id) (docs ++ [new])%list = Some new.
Proof.
  intros E Hn. induction docs as [|d docs IH]; simpl in *.
  - by rewrite Hn.
  - destruct (has_id id d); [discriminate|]. by apply IH.
Qed.

(** The generic delete of a stored record whose hook stops. *)
Lemma delete_of_stored_run cls hook name id (d : Dict) dataset_name m :
  get_collection_name cls = ret name ->
  hook (VDict d) dataset_name 0 "" m = (Ok (VDict d), m, []) ->
  List.find (has_id id) (collection m dataset_name name) = Some (VDict d) ->
  GenericMongoServiceMixin.delete cls hook id dataset_name m
  = (Ok (VObj cls d),
     <[(dataset_name, name) :=
         List.filter (fun doc => negb (has_id id doc))
           (collection m dataset_name name)]> m,
     [MongoGetDocument id name dataset_name;
      MongoDeleteDocument (VObj cls d) dataset_name]).
Proof.
  intros Ec Hs Ef. unfold GenericMongoServiceMixin.delete.
  erewrite bind_Ok
    by (eapply get_single_of_stored; [exact Ec | exact Ef | exact Hs]).
  cbn [is_None].
  assert (delete_document (VObj cls d) dataset_name m
          = (Ok (),
             <[(dataset_name, name) :=
                 List.filter (fun doc => negb (has_id id doc))
                   (collection m dataset_name name)]> m,
             [MongoDeleteDocument (VObj cls d) dataset_name]))
    as Ed.
  { unfold delete_document, invoke.
    rewrite (bind_pure _ _ m cls) by reflexivity.
    rewrite Ec, bind_ret_l.
    rewrite (bind_pure _ _ m id); [reflexivity|].
    apply find_has_id in Ef. unfold has_id in Ef.
    apply bool_decide_eq_true in Ef. unfold getattr. by rewrite Ef. }
  erewrite bind_Ok by exact Ed. reflexivity.
Qed.

(** X3. The generic delete of an id that has a record, when the hook
    stops at depth zero: the record as it was before the deletion is
    returned as an instance of the out class, the records with that id
    leave the collection and the others stay in their order, and a read
    of the id afterwards yields the sentinel. *)
Theorem delete_of_stored_id_returns_snapshot cls hook name id (d : Dict)
    dataset_name m :
  get_collection_name cls = ret name ->
  stops_at_zero hook ->
  List.find (has_id id) (collection m dataset_name name) = Some (VDict d) ->
  let m' :=
    <[(dataset_name, name) :=
        List.filter (fun doc => negb (has_id id doc))
          (collection m dataset_name name)]> m in
  GenericMongoServiceMixin.delete cls hook id dataset_name m
  = (Ok (VObj cls d), m',
     [MongoGetDocument id name dataset_name;
      MongoDeleteDocument (VObj cls d) dataset_name])
  /\ GenericMongoServiceMixin.get_single cls hook id dataset_name 0 "" m'
     = (Ok (gateway_sentinel id), m',
        [MongoGetDocument id name dataset_name]).
Proof.
  intros Ec Hs Ef m'. split.
  - apply delete_of_stored_run; [exact Ec | apply Hs | exact Ef].
  - apply get_single_of_missing; [by rewrite Ec|].
    subst m'. rewrite collection_after_write. apply find_after_delete.
Qed.

(** X4. The generic create, when storage hands out an id that no record
    of the collection carries and the hook stops at depth zero: the
    payload with every date-only field turned into the timestamp of that
    day at midnight is appended to the collection under the new id, by
    one create call, and what is returned is what the read of the new id
    returns on the new collection, after one read call. Only the fields
    of the payload itself are looked at: every other value, a date
    inside a list or a nested model included, is stored in its plain
    form. *)
Theorem create_stores_then_reads_back cls hook name
    (payload_class : PyClass) (payload : Dict) dataset_name m :
  get_collection_name cls = ret name ->
  get_collection_name payload_class = ret name ->
  stops_at_zero hook ->
  List.find (has_id (new_id (collection m dataset_name name)))
    (collection m dataset_name name) = None ->
  (forall f day,
     payload !! f = Some (VDate day) -> declares payload_class f = true) ->
  let id := new_id (collection m dataset_name name) in
  let normalized := combine_min_time <$> payload in
  let stored := <["id" := id]> (to_plain <$> normalized) in
  let r :=
    GenericMongoServiceMixin.create cls hook (VObj payload_class payload)
      dataset_name m in
  db r = <[(dataset_name, name) :=
             (collection m dataset_name name ++ [VDict stored])%list]> m
  /\ calls r
     = [MongoCreateDocument (VObj payload_class normalized) dataset_name;
        MongoGetDocument id name dataset_name]
  /\ result r
     = result (GenericMongoServiceMixin.get_single cls hook id dataset_name
                 0 "" (db r))
  /\ (forall f day,
        f <> "id" -> payload !! f = Some (VDate day) ->
        stored !! f = Some (VDateTime day 0))
  /\ (forall f v,
        f <> "id" -> payload !! f = Some v -> is_date_only v = false ->
        stored !! f = Some (to_plain v)).
Proof.
  intros Ec Ep Hs Ef Hd id normalized stored r.
  set (m' := <[(dataset_name, name) :=
                 (collection m dataset_name name ++ [VDict stored])%list]>
               m).
  assert (List.find (has_id id) (collection m' dataset_name name)
          = Some (VDict stored)) as Ef'.
  { unfold m'. rewrite collection_after_write.
    apply find_app_fresh; [exact Ef|].
    unfold has_id, stored. apply bool_decide_eq_true. apply lookup_insert_eq. }
  pose proof (get_single_of_stored cls hook name id dataset_name 0 "" m'
                stored Ec Ef' (Hs _ _ _)) as Eg.
  assert (r = (Ok (VObj cls stored), m',
               [MongoCreateDocument (VObj payload_class normalized)
                  dataset_name;
                MongoGetDocument id name dataset_name])) as Er.
  { subst r. unfold GenericMongoServiceMixin.create.
    rewrite (bind_pure _ _ m (VObj payload_class normalized))
      by (apply normalize_dates_run; exact Hd).
    assert (create_document (VObj payload_class normalized) dataset_name m
            = (Ok id, m',
               [MongoCreateDocument (VObj payload_class normalized)
                  dataset_name])) as Eu.
    { unfold create_document, invoke.
      rewrite (bind_pure _ _ m payload_class) by reflexivity.
      rewrite Ep. reflexivity. }
    erewrite bind_Ok by exact Eu.
    rewrite Eg. reflexivity. }
  split; [by rewrite Er|]. split; [by rewrite Er|]. split; [|split].
  - rewrite Er. unfold db. simpl. by rewrite Eg.
  - intros f day Nf Ep'. unfold stored, normalized.
    rewrite lookup_insert_ne by done.
    rewrite !lookup_fmap, Ep'. reflexivity.
  - intros f v Nf Ep' Ev. unfold stored, normalized.
    rewrite lookup_insert_ne by done.
    rewrite !lookup_fmap, Ep'. by destruct v.
Qed.
End Generic.

Lemma read_of_missing_id_skips_expansion_witness :
  @MeasureServiceMongoDB.get_single_dict Reference.environment
    (VStr "nope") "ds" 3 "" Reference.db1
  = (Ok (gateway_sentinel (VStr "nope")), Reference.db1,
     [MongoGetDocument (VStr "nope") Collections.MEASURE "ds"]).
Proof.
  exact (proj1 (read_of_missing_id_skips_expansion
                  MeasureOut
                  (@MeasureServiceMongoDB._add_related_documents
                     Reference.environment)
                  Collections.MEASURE (VStr "nope") "ds" 3 ""
                  Reference.db1 eq_refl eq_refl)).
Defined.

Lemma measure_hook_stops_at_zero `{Environment} :
  stops_at_zero MeasureServiceMongoDB._add_related_documents.
Proof. intros doc dataset_name m. reflexivity. Qed.

Lemma update_of_stored_id_replaces_record_witness :
  result (@MeasureServiceMongoDB.update Reference.environment (VStr "m1")
            (VObj MeasureIn
               (list_to_map [("measure_name_id", VStr "mn1");
                             ("day", VDate 7)]))
            "ds" Reference.db1)
  = Ok (VObj MeasureOut
          (list_to_map [("id", VStr "m1"); ("measure_name_id", VStr "mn1");
                        ("day", VDateTime 7 0)])).
Proof.
  unfold MeasureServiceMongoDB.update.
  rewrite (@update_of_stored_id_replaces_record Reference.environment
             MeasureOut _ Collections.MEASURE (VStr "m1") MeasureIn _
             (list_to_map [("id", VStr "m1");
                           ("measure_name_id", VStr "mn1")])
             "ds" Reference.db1 eq_refl eq_refl
             measure_hook_stops_at_zero eq_refl
             (fun _ _ _ => eq_refl)).
  vm_compute. reflexivity.
Defined.

Lemma delete_of_stored_id_returns_snapshot_witness :
  result (@MeasureServiceMongoDB.delete_measure Reference.environment
            (VStr "m1") "ds" Reference.db1)
  = Ok (VObj MeasureOut
          (list_to_map [("id", VStr "m1");
                        ("measure_name_id", VStr "mn1")])).
Proof.
  unfold MeasureServiceMongoDB.delete_measure, MeasureServiceMongoDB.delete.
  rewrite (proj1 (delete_of_stored_id_returns_snapshot
                    MeasureOut _ Collections.MEASURE
                    (VStr "m1")
                    (list_to_map [("id", VStr "m1");
                                  ("measure_name_id", VStr "mn1")])
                    "ds" Reference.db1 eq_refl measure_hook_stops_at_zero
                    eq_refl)).
  reflexivity.
Defined.

Lemma create_stores_then_reads_back_witness :
  last (mongo_api_service.collection
          (db (@MeasureServiceMongoDB.create Reference.environment
                 (VObj MeasureIn
                    (list_to_map [("measure_name_id", VStr "mn1");
                                  ("day", VDate 7)]))
                 "ds" Reference.db1))
          "ds" Collections.MEASURE)
  = Some (VDict
            (list_to_map [("id", VInt 1); ("measure_name_id", VStr "mn1");
                          ("day", VDateTime 7 0)])).
Proof.
  unfold MeasureServiceMongoDB.create.
  rewrite (proj1 (@create_stores_then_reads_back Reference.environment
                    MeasureOut _ Collections.MEASURE MeasureIn _
                    "ds" Reference.db1 eq_refl eq_refl
                    measure_hook_stops_at_zero eq_refl
                    (fun _ _ _ => eq_refl))).
  vm_compute. reflexivity.
Defined.

(** ** The measure service *)

Lemma bind_query {A B : Type} (c : Call) (f : Mongo -> A) (k : A -> M B) m :
  bind (query c f) k m
  = (let '(r, m2, l2) := k (f m) m in (r, m2, c :: l2)).
Proof. reflexivity. Qed.

Lemma is_None_true v : is_None v = true <-> v = VNone.
Proof. destruct v; simpl; split; congruence. Qed.

Section Measure.
Context `{Environment}.
Import mongo_api_service.

(** X5. save_measure looks the measure name up first, also when the
    payload names none. For a measure_name_id that is not null and
    resolves to the sentinel nothing is written: the service builds a
    MeasureOut that carries only the error, which is returned when the
    schema admits such an instance and is a ValidationError when it does
    not. Otherwise the outcome is that of the generic create, after the
    lookup. *)
Theorem save_measure_checks_measure_name c (d : Dict) dataset_name m :
  let measure := VObj c d in
  let mnid := attr measure "measure_name_id" in
  let unknown :=
    type_is (MeasureNameService_get_measure_name mnid dataset_name m)
      NotFoundByIdModel in
  let r := MeasureServiceMongoDB.save_measure measure dataset_name m in
  let lookup := MeasureNameGetMeasureName mnid dataset_name in
  (mnid <> VNone -> unknown = true ->
   r = ((if accepts MeasureOut
              (error_payload "given measure name does not exist")
         then Ok (with_errors MeasureOut "given measure name does not exist")
         else Raised ValidationError),
        m, [lookup]))
  /\ (mnid = VNone \/ unknown = false ->
      let created := MeasureServiceMongoDB.create measure dataset_name m in
      r = (result created, db created, lookup :: calls created)).
Proof.
  intros measure mnid unknown r lookup.
  assert (r = if negb (is_None mnid) && negb (negb unknown)
              then ((if accepts MeasureOut
                          (error_payload "given measure name does not exist")
                     then Ok (with_errors MeasureOut
                                "given measure name does not exist")
                     else Raised ValidationError),
                    m, [lookup])
              else let created :=
                     MeasureServiceMongoDB.create measure dataset_name m in
                   (result created, db created, lookup :: calls created))
    as E.
  { subst r. unfold MeasureServiceMongoDB.save_measure.
    rewrite (bind_pure _ _ m mnid) by reflexivity.
    unfold measure_name_service.get_measure_name. rewrite bind_query.
    fold unknown.
    destruct (negb (is_None mnid) && negb (negb unknown)).
    { unfold validated.
      destruct (accepts MeasureOut _); reflexivity. }
    destruct (MeasureServiceMongoDB.create _ _ _) as [[x m'] l].
    reflexivity. }
  split.
  - intros N U. rewrite E, U.
    destruct (is_None mnid) eqn:En; [|reflexivity].
    by apply is_None_true in En.
  - intros [N|U]; rewrite E.
    + by rewrite N.
    + rewrite U. by rewrite andb_false_r.
Qed.

(** X6. update_measure on an id that has a record, with a patch of
    fields the out class declares: the fields of the patch are copied
    over the record that was read, the others stay; that instance
    replaces the stored record under the same id and is itself returned,
    without a second read. *)
Theorem update_measure_merges_patch id c (patch d : Dict) dataset_name m :
  List.find (has_id id) (collection m dataset_name Collections.MEASURE)
  = Some (VDict d) ->
  (forall f, is_Some (patch !! f) -> declares MeasureOut f = true) ->
  let merged := (to_plain <$> patch) ∪ d in
  MeasureServiceMongoDB.update_measure id (VObj c patch) dataset_name m
  = (Ok (VObj MeasureOut merged),
     <[(dataset_name, Collections.MEASURE) :=
         replace_id id (VDict (<["id" := id]> (to_plain <$> merged)))
           (collection m dataset_name Collections.MEASURE)]> m,
     [MongoGetDocument id Collections.MEASURE dataset_name;
      MongoUpdateDocument id (VObj MeasureOut merged) dataset_name]).
Proof.
  intros Ef Hd merged. unfold MeasureServiceMongoDB.update_measure.
  unfold MeasureServiceMongoDB.get_measure, MeasureServiceMongoDB.get_single.
  erewrite bind_Ok
    by (eapply get_single_of_stored;
        [reflexivity | exact Ef | apply measure_hook_stops_at_zero]).
  rewrite (bind_pure (dict_of _) _ m (VDict (to_plain <$> patch)))
    by reflexivity.
  rewrite (bind_pure (items _) _ m (map_to_list (to_plain <$> patch)))
    by reflexivity.
  rewrite (bind_pure (setattr_all _ _) _ m (VObj MeasureOut merged)).
  - reflexivity.
  - apply setattr_all_patch. intros f. rewrite lookup_fmap.
    intros I. apply Hd. by apply fmap_is_Some in I.
Qed.

(** X7. update_measure has no test for the sentinel: on an id without a
    record the patch loop runs on the sentinel, and the operation either
    stops there with the ValueError of pydantic, storage untouched, or
    goes on to call update_document with the patched sentinel. *)
Theorem update_measure_skips_existence_check id c (patch : Dict)
    dataset_name m :
  List.find (has_id id) (collection m dataset_name Collections.MEASURE)
  = None ->
  let r :=
    MeasureServiceMongoDB.update_measure id (VObj c patch) dataset_name m in
  r = (Raised ValueError, m,
       [MongoGetDocument id Collections.MEASURE dataset_name])
  \/ exists d',
       calls r = [MongoGetDocument id Collections.MEASURE dataset_name;
                  MongoUpdateDocument id (VObj NotFoundByIdModel d')
                    dataset_name].
Proof.
  intros Ef r. subst r. unfold MeasureServiceMongoDB.update_measure.
  unfold MeasureServiceMongoDB.get_measure, MeasureServiceMongoDB.get_single.
  erewrite bind_Ok by (apply get_single_of_missing; [reflexivity|exact Ef]).
  rewrite (bind_pure (dict_of _) _ m (VDict (to_plain <$> patch)))
    by reflexivity.
  rewrite (bind_pure (items _) _ m (map_to_list (to_plain <$> patch)))
    by reflexivity.
  unfold gateway_sentinel, not_found.
  match goal with
  | |- context [setattr_all (VObj NotFoundByIdModel ?s) ?l] =>
      destruct (setattr_all_outcome l NotFoundByIdModel s m) as [[d' E]|E]
  end.
  - right. exists d'. rewrite (bind_pure _ _ m _ E).
    unfold update_document, invoke, bind.
    destruct ((c0 <- class_of (VObj NotFoundByIdModel d');;
               get_collection_name c0) m) as [[[name|e] m1] l1];
      reflexivity.
  - left. erewrite bind_Raised by exact E. reflexivity.
Qed.

(** X8. update_measure_relationships stops before any write when the
    measure has no record (the sentinel is returned after the one read)
    and when the measure has a record but the measure_name_id of the
    request is not null and does not resolve: after the read and the
    lookup the service builds a MeasureOut that carries only the error,
    which is returned when the schema admits such an instance and is a
    ValidationError when it does not. *)
Theorem update_measure_relationships_rejects id c (request : Dict)
    dataset_name m :
  let docs := collection m dataset_name Collections.MEASURE in
  let mnid := attr (VObj c request) "measure_name_id" in
  let r :=
    MeasureServiceMongoDB.update_measure_relationships id (VObj c request)
      dataset_name m in
  (List.find (has_id id) docs = None ->
   r = (Ok (gateway_sentinel id), m,
        [MongoGetDocument id Collections.MEASURE dataset_name]))
  /\ (forall d,
        List.find (has_id id) docs = Some (VDict d) ->
        mnid <> VNone ->
        type_is (MeasureNameService_get_measure_name mnid dataset_name m)
          NotFoundByIdModel = true ->
        r = ((if accepts MeasureOut
                   (error_payload "given measure name does not exist")
              then Ok (with_errors MeasureOut
                         "given measure name does not exist")
              else Raised ValidationError),
             m,
             [MongoGetDocument id Collections.MEASURE dataset_name;
              MeasureNameGetMeasureName mnid dataset_name])).
Proof.
  intros docs mnid r. subst r.
  unfold MeasureServiceMongoDB.update_measure_relationships.
  unfold MeasureServiceMongoDB.get_measure, MeasureServiceMongoDB.get_single.
  split.
  - intros Ef.
    erewrite bind_Ok
      by (apply get_single_of_missing; [reflexivity|exact Ef]).
    reflexivity.
  - intros d Ef N U.
    erewrite bind_Ok
      by (eapply get_single_of_stored;
          [reflexivity | exact Ef | apply measure_hook_stops_at_zero]).
    cbn [type_is]. rewrite bool_decide_eq_false_2 by discriminate.
    rewrite (bind_pure _ _ m mnid) by reflexivity.
    unfold measure_name_service.get_measure_name. rewrite bind_query.
    rewrite U. destruct (is_None mnid) eqn:En.
    { by apply is_None_true in En. }
    cbn [negb andb]. unfold validated.
    destruct (accepts MeasureOut _); reflexivity.
Qed.

(** X9. update_measure_relationships on a measure that has a record,
    with a measure_name_id that is null or resolves: the stored record
    is replaced by itself with measure_name_id set to the requested
    value, under the same id, and the measure is read again and
    returned. *)
Theorem update_measure_relationships_sets_measure_name id c
    (request d : Dict) dataset_name m :
  let docs := collection m dataset_name Collections.MEASURE in
  let mnid := attr (VObj c request) "measure_name_id" in
  List.find (has_id id) docs = Some (VDict d) ->
  mnid = VNone
  \/ type_is (MeasureNameService_get_measure_name mnid dataset_name m)
       NotFoundByIdModel = false ->
  declares MeasureIn "measure_name_id" = true ->
  let payload := <["measure_name_id" := mnid]> (to_plain <$> d) in
  let stored := <["id" := id]> (to_plain <$> payload) in
  MeasureServiceMongoDB.update_measure_relationships id (VObj c request)
    dataset_name m
  = (Ok (VObj MeasureOut stored),
     <[(dataset_name, Collections.MEASURE) :=
         replace_id id (VDict stored) docs]> m,
     [MongoGetDocument id Collections.MEASURE dataset_name;
      MeasureNameGetMeasureName mnid dataset_name;
      MongoUpdateDocument id (VObj MeasureIn payload) dataset_name;
      MongoGetDocument id Collections.MEASURE dataset_name]).
Proof.
  intros docs mnid Ef Hm Hd payload stored.
  unfold MeasureServiceMongoDB.update_measure_relationships.
  unfold MeasureServiceMongoDB.get_measure, MeasureServiceMongoDB.get_single.
  erewrite bind_Ok
    by (eapply get_single_of_stored;
        [reflexivity | exact Ef | apply measure_hook_stops_at_zero]).
  cbn [type_is]. rewrite bool_decide_eq_false_2 by discriminate.
  rewrite (bind_pure _ _ m mnid) by reflexivity.
  unfold measure_name_service.get_measure_name. rewrite bind_query.
  assert (negb (is_None mnid)
          && negb (negb (type_is (MeasureNameService_get_measure_name mnid
                                    dataset_name m) NotFoundByIdModel))
          = false) as ->.
  { destruct Hm as [->| ->]; [reflexivity|]. by rewrite andb_false_r. }
  rewrite (bind_pure (dict_of _) _ m (VDict (to_plain <$> d)))
    by reflexivity.
  rewrite (bind_pure (construct _ _) _ m (VObj MeasureIn (to_plain <$> d)))
    by reflexivity.
  rewrite (bind_pure (setattr _ _ _) _ m (VObj MeasureIn payload))
    by (unfold setattr; rewrite Hd; reflexivity).
  assert (update_document id (VObj MeasureIn payload) dataset_name m
          = (Ok (),
             <[(dataset_name, Collections.MEASURE) :=
                 replace_id id (VDict stored) docs]> m,
             [MongoUpdateDocument id (VObj MeasureIn payload) dataset_name]))
    as Eu by reflexivity.
  erewrite bind_Ok by exact Eu.
  erewrite get_single_of_stored;
    [reflexivity | reflexivity | | apply measure_hook_stops_at_zero].
  rewrite collection_after_write.
  eapply find_replace_id; [exact Ef|].
  unfold has_id, stored. apply bool_decide_eq_true. apply lookup_insert_eq.
Qed.

(** X10. get_measures answers with the records of the measure collection
    that match the filter, in storage order, each as a basic measure
    without any relation fetched: the one call made is the filtered read
    of the collection. *)
Theorem get_measures_lists_matching_records dataset_name (q : Dict) m
    (found : list Dict) :
  List.filter (matches q) (collection m dataset_name Collections.MEASURE)
  = VDict <$> found ->
  MeasureServiceMongoDB.get_measures dataset_name q m
  = (Ok (VObj MeasuresOut
           (<["measures" := VList (VObj BasicMeasureOut <$> found)]> ∅)),
     m, [MongoGetDocuments Collections.MEASURE dataset_name q]).
Proof.
  intros Ef. unfold MeasureServiceMongoDB.get_measures.
  assert (MeasureServiceMongoDB.get_multiple dataset_name q 0 "" m
          = (Ok (VDict <$> found), m,
             [MongoGetDocuments Collections.MEASURE dataset_name q])) as Eg.
  { unfold MeasureServiceMongoDB.get_multiple,
      GenericMongoServiceMixin.get_multiple.
    rewrite (bind_pure _ _ m Collections.MEASURE) by reflexivity.
    unfold get_documents. rewrite bind_query, Ef.
    change (mapM _ (VDict <$> found) m)
      with (mapM (fun x => ret x) (VDict <$> found) m).
    by rewrite mapM_ret. }
  erewrite bind_Ok by exact Eg.
  rewrite (bind_pure (mapM _ _) _ m (VObj BasicMeasureOut <$> found)).
  - reflexivity.
  - clear. induction found as [|d found IH]; [reflexivity|].
    simpl. rewrite bind_ret_l. by rewrite (bind_pure _ _ m _ IH).
Qed.

(** X11. The expansion of a measure record at a depth above zero, asked
    from a source that is neither of its relations: the time series of
    the measure are fetched by measure id, then the measure name by its
    id unless that id is null, both one level shallower and tagged with
    the measure collection as source; the answers are put under
    time_series and measure_name, every other field stays, and storage
    is not touched. A record without the key measure_name_id is a
    KeyError, raised after the time series were fetched. *)
Theorem measure_expansion_attaches_relations (d : Dict) id dataset_name
    depth source m :
  depth > 0 ->
  source <> Collections.TIME_SERIES ->
  source <> Collections.MEASURE_NAME ->
  d !! "id" = Some id ->
  let series_call :=
    TimeSeriesGetMultiple dataset_name (<["measure_id" := id]> ∅)
      (depth - 1) Collections.MEASURE in
  let series :=
    VList (TimeSeriesService_get_multiple dataset_name
             (<["measure_id" := id]> ∅) (depth - 1) Collections.MEASURE m) in
  let r :=
    MeasureServiceMongoDB._add_related_documents (VDict d) dataset_name
      depth source m in
  match d !! "measure_name_id" with
  | None => r = (Raised KeyError, m, [series_call])
  | Some VNone =>
      r = (Ok (VDict (<["time_series" := series]> d)), m, [series_call])
  | Some mnid =>
      r = (Ok (VDict
                 (<["measure_name" :=
                      MeasureNameService_get_single_dict mnid dataset_name
                        (depth - 1) Collections.MEASURE m]>
                    (<["time_series" := series]> d))),
           m,
           [series_call;
            MeasureNameGetSingleDict mnid dataset_name (depth - 1)
              Collections.MEASURE])
  end.
Proof.
  intros D Ns Nn Ei series_call series r. subst r.
  unfold MeasureServiceMongoDB._add_related_documents.
  destruct (Z.gtb_spec depth 0) as [_|]; [|lia].
  assert (MeasureServiceMongoDB._add_related_time_series (VDict d)
            dataset_name depth source m
          = (Ok (VDict (<["time_series" := series]> d)), m, [series_call]))
    as Et.
  { unfold MeasureServiceMongoDB._add_related_time_series.
    destruct (decide (source ≠ Collections.TIME_SERIES)) as [_|N];
      [|by destruct N].
    rewrite (bind_pure _ _ m id) by (unfold getitem; by rewrite Ei).
    unfold time_series_service.get_multiple. rewrite bind_query.
    reflexivity. }
  erewrite bind_Ok by exact Et.
  unfold MeasureServiceMongoDB._add_related_measure_name.
  assert ((<["time_series" := series]> d : Dict) !! "measure_name_id"
          = d !! "measure_name_id") as Ek
    by (by rewrite lookup_insert_ne).
  unfold getitem. rewrite Ek.
  destruct (d !! "measure_name_id") as [mnid|]; [|reflexivity].
  rewrite bind_ret_l. rewrite bool_decide_eq_true_2 by exact Nn.
  destruct mnid; reflexivity.
Qed.
End Measure.

Lemma save_measure_checks_measure_name_witness :
  @MeasureServiceMongoDB.save_measure Reference.strict
    (VObj MeasureIn (list_to_map [("measure_name_id", VStr "ghost")]))
    "ds" Reference.db1
  = (Raised ValidationError, Reference.db1,
     [MeasureNameGetMeasureName (VStr "ghost") "ds"]).
Proof.
  rewrite (proj1 (@save_measure_checks_measure_name Reference.strict
                    MeasureIn
                    (list_to_map [("measure_name_id", VStr "ghost")])
                    "ds" Reference.db1)).
  - reflexivity.
  - vm_compute. discriminate.
  - vm_compute. reflexivity.
Defined.

Lemma update_measure_merges_patch_witness :
  result (@MeasureServiceMongoDB.update_measure Reference.environment
            (VStr "m1")
            (VObj MeasurePropertyIn (list_to_map [("range", VStr "0-9")]))
            "ds" Reference.db1)
  = Ok (VObj MeasureOut
          (list_to_map [("id", VStr "m1"); ("measure_name_id", VStr "mn1");
                        ("range", VStr "0-9")])).
Proof.
  rewrite (@update_measure_merges_patch Reference.environment (VStr "m1")
             MeasurePropertyIn _
             (list_to_map [("id", VStr "m1");
                           ("measure_name_id", VStr "mn1")])
             "ds" Reference.db1 eq_refl (fun _ _ => eq_refl)).
  vm_compute. reflexivity.
Defined.

Lemma update_measure_skips_existence_check_witness :
  @MeasureServiceMongoDB.update_measure Reference.environment (VStr "nope")
    (VObj MeasurePropertyIn (list_to_map [("range", VStr "0-9")]))
    "ds" Reference.db1
  = (Raised ValueError, Reference.db1,
     [MongoGetDocument (VStr "nope") Collections.MEASURE "ds"])
  \/ exists d',
       calls (@MeasureServiceMongoDB.update_measure Reference.environment
                (VStr "nope")
                (VObj MeasurePropertyIn
                   (list_to_map [("range", VStr "0-9")]))
                "ds" Reference.db1)
       = [MongoGetDocument (VStr "nope") Collections.MEASURE "ds";
          MongoUpdateDocument (VStr "nope") (VObj NotFoundByIdModel d') "ds"].
Proof.
  exact (@update_measure_skips_existence_check Reference.environment
           (VStr "nope") MeasurePropertyIn
           (list_to_map [("range", VStr "0-9")]) "ds" Reference.db1
           eq_refl).
Defined.

Lemma update_measure_relationships_rejects_witness :
  @MeasureServiceMongoDB.update_measure_relationships Reference.strict
    (VStr "m1")
    (VObj MeasureRelationIn
       (list_to_map [("measure_name_id", VStr "ghost")]))
    "ds" Reference.db1
  = (Raised ValidationError, Reference.db1,
     [MongoGetDocument (VStr "m1") Collections.MEASURE "ds";
      MeasureNameGetMeasureName (VStr "ghost") "ds"]).
Proof.
  rewrite (proj2 (@update_measure_relationships_rejects
                    Reference.strict (VStr "m1") MeasureRelationIn
                    (list_to_map [("measure_name_id", VStr "ghost")])
                    "ds" Reference.db1)
             (list_to_map [("id", VStr "m1");
                           ("measure_name_id", VStr "mn1")])
             eq_refl).
  - reflexivity.
  - vm_compute. discriminate.
  - vm_compute. reflexivity.
Defined.

Lemma update_measure_relationships_sets_measure_name_witness :
  result (@MeasureServiceMongoDB.update_measure_relationships
            Reference.environment (VStr "m1")
            (VObj MeasureRelationIn
               (list_to_map [("measure_name_id", VNone)]))
            "ds" Reference.db1)
  = Ok (VObj MeasureOut
          (list_to_map [("id", VStr "m1"); ("measure_name_id", VNone)])).
Proof.
  rewrite (@update_measure_relationships_sets_measure_name
             Reference.environment (VStr "m1") MeasureRelationIn
             (list_to_map [("measure_name_id", VNone)])
             (list_to_map [("id", VStr "m1");
                           ("measure_name_id", VStr "mn1")])
             "ds" Reference.db1 eq_refl).
  - vm_compute. reflexivity.
  - left. vm_compute. reflexivity.
  - reflexivity.
Defined.

Lemma get_measures_lists_matching_records_witness :
  @MeasureServiceMongoDB.get_measures Reference.environment "ds" ∅
    Reference.db1
  = (Ok (VObj MeasuresOut
           (<["measures" :=
                VList (VObj BasicMeasureOut <$>
                         [list_to_map [("id", VStr "m1");
                                       ("measure_name_id", VStr "mn1")]])]>
              ∅)),
     Reference.db1, [MongoGetDocuments Collections.MEASURE "ds" ∅]).
Proof.
  apply (@get_measures_lists_matching_records Reference.environment).
  vm_compute. reflexivity.
Defined.

Lemma measure_expansion_attaches_relations_witness :
  calls (@MeasureServiceMongoDB._add_related_documents Reference.environment
           Reference.measure1 "ds" 2 "" Reference.db1)
  = [TimeSeriesGetMultiple "ds" (<["measure_id" := VStr "m1"]> ∅) 1
       Collections.MEASURE;
     MeasureNameGetSingleDict (VStr "mn1") "ds" 1 Collections.MEASURE].
Proof.
  unfold Reference.measure1, Reference.rec.
  rewrite (@measure_expansion_attaches_relations Reference.environment
             (list_to_map [("id", VStr "m1");
                           ("measure_name_id", VStr "mn1")])
             (VStr "m1") "ds" 2 "" Reference.db1
             ltac:(lia) ltac:(discriminate) ltac:(discriminate) eq_refl).
  reflexivity.
Defined.

(** ** The activity execution service *)

Section Executions.
Context `{Environment}.
Variable scen : Value -> string -> Z -> bool -> M Value.

(** X12. A read of an execution by id converts the id to an object id
    first: an id that is no object id (a string that is not 24
    hexadecimal digits, a number) raises the error of the conversion
    before any call. Otherwise the activity service is asked once, for
    the activities that embed an execution with that object id, one
    level shallower and tagged with the execution collection. No
    activity, or a first activity whose embedded array is empty, gives
    the sentinel with the id; otherwise the first execution of the first
    activity is expanded, next to that activity without its embedded
    array, and the other activities and executions are ignored. *)
Theorem read_of_execution_takes_first_embedded id dataset_name depth
    source m :
  let r :=
    ActivityExecutionServiceMongoDB.get_single_dict scen id dataset_name
      depth source m in
  (forall e, ObjectId id m = (Raised e, m, []) -> r = (Raised e, m, []))
  /\ (forall oid,
        ObjectId id m = (Ok oid, m, []) ->
        let q : Dict :=
          <[String.append Collections.ACTIVITY_EXECUTION ".id" := oid]> ∅ in
        let projection :=
          ActivityExecutionServiceMongoDB._get_activity_projection
            (<["id" := oid]> ∅) in
        let answer :=
          ActivityService_get_multiple dataset_name q (depth - 1)
            Collections.ACTIVITY_EXECUTION projection m in
        let call :=
          ActivityGetMultiple dataset_name q (depth - 1)
            Collections.ACTIVITY_EXECUTION projection in
        (answer = [] -> r = (Ok (execution_sentinel id), m, [call]))
        /\ (forall (ad : Dict) rest,
              answer = VDict ad :: rest ->
              ad !! Collections.ACTIVITY_EXECUTION = Some (VList []) ->
              r = (Ok (execution_sentinel id), m, [call]))
        /\ (forall (ad : Dict) rest e es,
              answer = VDict ad :: rest ->
              ad !! Collections.ACTIVITY_EXECUTION
              = Some (VList (e :: es)) ->
              let expanded :=
                ActivityExecutionServiceMongoDB._add_related_documents scen
                  e dataset_name depth source
                  (VDict (delete Collections.ACTIVITY_EXECUTION ad)) m in
              r = (result expanded, db expanded, call :: calls expanded))).
Proof.
  intros r. split.
  { intros e Eo. subst r.
    unfold ActivityExecutionServiceMongoDB.get_single_dict.
    erewrite bind_Raised by exact Eo. reflexivity. }
  intros oid Eo q projection answer call. subst r.
  unfold ActivityExecutionServiceMongoDB.get_single_dict,
    activity_service.get_multiple.
  rewrite (bind_pure _ _ m oid Eo).
  rewrite bind_query. fold q projection answer call.
  split; [|split].
  - intros Ea. rewrite Ea. reflexivity.
  - intros ad rest Ea El. rewrite Ea.
    rewrite (bind_pure (getitem _ _) _ m (VList []))
      by (unfold getitem; rewrite El; reflexivity).
    reflexivity.
  - intros ad rest e es Ea El. rewrite Ea.
    rewrite (bind_pure (getitem _ _) _ m (VList (e :: es)))
      by (unfold getitem; rewrite El; reflexivity).
    rewrite (bind_pure (as_list _) _ m (e :: es)) by reflexivity.
    rewrite (bind_pure (delitem _ _) _ m
               (VDict (delete Collections.ACTIVITY_EXECUTION ad)))
      by (unfold delitem; rewrite El; reflexivity).
    destruct (ActivityExecutionServiceMongoDB._add_related_documents _ _
                _ _ _ _ _) as [[x m'] l].
    reflexivity.
Qed.

(** X13. delete_activity_execution reads the execution first, at depth
    zero. An id that is no object id raises the error of the conversion
    before any call. When no activity embeds the object id, the sentinel
    with the id is returned after that one read and the activity service
    is not asked to remove anything; otherwise the first execution
    found, as an execution object, is handed to the activity service's
    remove, whose answer and database are the outcome. *)
Theorem delete_activity_execution_checks_existence id dataset_name m :
  let r :=
    ActivityExecutionServiceMongoDB.delete_activity_execution scen id
      dataset_name m in
  (forall e, ObjectId id m = (Raised e, m, []) -> r = (Raised e, m, []))
  /\ (forall oid,
        ObjectId id m = (Ok oid, m, []) ->
        let q : Dict :=
          <[String.append Collections.ACTIVITY_EXECUTION ".id" := oid]> ∅ in
        let projection :=
          ActivityExecutionServiceMongoDB._get_activity_projection
            (<["id" := oid]> ∅) in
        let answer :=
          ActivityService_get_multiple dataset_name q (0 - 1)
            Collections.ACTIVITY_EXECUTION projection m in
        let call :=
          ActivityGetMultiple dataset_name q (0 - 1)
            Collections.ACTIVITY_EXECUTION projection in
        (answer = [] -> r = (Ok (execution_sentinel id), m, [call]))
        /\ (forall (ad e : Dict) rest es,
              answer = VDict ad :: rest ->
              ad !! Collections.ACTIVITY_EXECUTION
              = Some (VList (VDict e :: es)) ->
              let found := VObj ActivityExecutionOut e in
              let removed :=
                ActivityService_remove_activity_execution found
                  dataset_name m in
              r = (Ok removed.1, removed.2,
                   [call;
                    ActivityRemoveActivityExecution found dataset_name]))).
Proof.
  intros r. split.
  { intros e Eo. subst r.
    unfold ActivityExecutionServiceMongoDB.delete_activity_execution,
      ActivityExecutionServiceMongoDB.get_activity_execution,
      ActivityExecutionServiceMongoDB.get_single,
      ActivityExecutionServiceMongoDB.get_single_dict.
    rewrite !bind_assoc.
    erewrite bind_Raised by exact Eo. reflexivity. }
  intros oid Eo q projection answer call. subst r.
  unfold ActivityExecutionServiceMongoDB.delete_activity_execution,
    ActivityExecutionServiceMongoDB.get_activity_execution,
    ActivityExecutionServiceMongoDB.get_single,
    ActivityExecutionServiceMongoDB.get_single_dict,
    activity_service.get_multiple.
  rewrite !bind_assoc.
  rewrite (bind_pure _ _ m oid Eo). cbv beta.
  rewrite ?bind_assoc, bind_query. fold q projection answer call.
  split.
  - intros Ea. rewrite Ea. reflexivity.
  - intros ad e rest es Ea El. rewrite Ea.
    rewrite ?bind_assoc.
    rewrite (bind_pure (getitem _ _) _ m (VList (VDict e :: es)))
      by (unfold getitem; rewrite El; reflexivity).
    cbv beta. rewrite ?bind_assoc.
    rewrite (bind_pure (as_list _) _ m (VDict e :: es)) by reflexivity.
    cbv beta iota. rewrite ?bind_assoc.
    rewrite (bind_pure (delitem _ _) _ m
               (VDict (delete Collections.ACTIVITY_EXECUTION ad)))
      by (unfold delitem; rewrite El; reflexivity).
    cbv beta. rewrite ?bind_assoc.
    rewrite (bind_pure _ _ m (VDict e))
      by (apply activity_execution_hook_stops; lia).
    cbn [type_is construct]. rewrite bind_ret_l.
    cbn [type_is]. rewrite bool_decide_eq_false_2 by discriminate.
    unfold activity_service.remove_activity_execution, command, invoke.
    destruct (ActivityService_remove_activity_execution _ dataset_name m)
      as [x m'].
    reflexivity.
Qed.

(** X14. save_activity_execution on a payload whose activity resolves or
    is null, and whose arrangement resolves or is null: both lookups are
    made, in that order, and the payload goes to the activity service's
    insert, whose answer and database are the outcome. *)
Theorem save_activity_execution_hands_over_valid_payload c (d : Dict)
    dataset_name m :
  let payload := VObj c d in
  let aid := attr payload "activity_id" in
  let rid := attr payload "arrangement_id" in
  aid = VNone
  \/ type_is (ActivityService_get_activity aid dataset_name m)
       NotFoundByIdModel = false ->
  rid = VNone
  \/ type_is (ArrangementService_get_arrangement rid dataset_name m)
       NotFoundByIdModel = false ->
  let added :=
    ActivityService_add_activity_execution payload dataset_name m in
  ActivityExecutionServiceMongoDB.save_activity_execution payload
    dataset_name m
  = (Ok added.1, added.2,
     [ActivityGetActivity aid dataset_name;
      ArrangementGetArrangement rid dataset_name;
      ActivityAddActivityExecution payload dataset_name]).
Proof.
  intros payload aid rid Ha Hr added.
  unfold ActivityExecutionServiceMongoDB.save_activity_execution.
  rewrite (bind_pure _ _ m aid) by reflexivity.
  unfold activity_service.get_activity. rewrite bind_query.
  assert (negb (is_None aid)
          && negb (negb (type_is (ActivityService_get_activity aid
                                    dataset_name m) NotFoundByIdModel))
          = false) as ->.
  { destruct Ha as [->| ->]; [reflexivity|]. by rewrite andb_false_r. }
  rewrite (bind_pure _ _ m rid) by reflexivity.
  unfold arrangement_service.get_arrangement. rewrite bind_query.
  assert (negb (is_None rid)
          && negb (negb (type_is (ArrangementService_get_arrangement rid
                                    dataset_name m) NotFoundByIdModel))
          = false) as ->.
  { destruct Hr as [->| ->]; [reflexivity|]. by rewrite andb_false_r. }
  unfold activity_service.add_activity_execution, command, invoke.
  fold added. destruct added as [x m']. reflexivity.
Qed.

Lemma expansion_stops_on_all (l : list Value) dataset_name depth source
    activity m :
  depth <= 0 ->
  mapM (fun e =>
          ActivityExecutionServiceMongoDB._add_related_documents scen e
            dataset_name depth source activity) l m
  = (Ok l, m, []).
Proof.
  intros D. induction l as [|e l IH]; [reflexivity|]. simpl.
  rewrite (bind_pure _ _ m e) by (apply activity_execution_hook_stops, D).
  by rewrite (bind_pure _ _ m l IH).
Qed.

(** The loop of the listing: each activity adds its embedded array. *)
Lemma listing_fold dataset_name depth source (answer : list Value) m :
  depth <= 0 ->
  forallb lists_executions answer = true ->
  forall acc,
    foldM (fun result activity_result =>
             has <- contains_key activity_result "activity_executions" ;;
             if has : bool then
               embedded <- getitem activity_result "activity_executions" ;;
               activity_result <-
                 delitem activity_result "activity_executions" ;;
               activity_executions <- as_list embedded ;;
               activity_executions <-
                 mapM (fun activity_execution =>
                         ActivityExecutionServiceMongoDB._add_related_documents
                           scen activity_execution dataset_name depth source
                           activity_result)
                      activity_executions ;;
               ret (result ++ activity_executions)%list
             else ret result)
          acc answer m
    = (Ok (acc ++ concat (embedded_executions <$> answer))%list, m, []).
Proof.
  intros D Hl. induction answer as [|a answer IH]; intros acc.
  - simpl. by rewrite app_nil_r.
  - simpl in Hl. apply andb_true_iff in Hl as [Ha Hl]. simpl.
    destruct a as [| | | | | |ad|]; try discriminate.
    unfold lists_executions in Ha. unfold embedded_executions at 1, field.
    rewrite bind_assoc, (bind_pure (contains_key _ _) _ m
               (bool_decide (is_Some (ad !! "activity_executions"))))
      by reflexivity.
    destruct (ad !! "activity_executions") as [[| | | | |l| |]|] eqn:El;
      try discriminate.
    + rewrite bool_decide_eq_true_2 by eauto.
      cbv beta iota. rewrite !bind_assoc.
      rewrite (bind_pure (getitem _ _) _ m (VList l))
        by (unfold getitem; rewrite El; reflexivity).
      cbv beta. rewrite !bind_assoc.
      rewrite (bind_pure (delitem _ _) _ m
                 (VDict (delete "activity_executions" ad)))
        by (unfold delitem; rewrite El; reflexivity).
      cbv beta. rewrite !bind_assoc.
      rewrite (bind_pure (as_list _) _ m l) by reflexivity.
      cbv beta. rewrite !bind_assoc.
      rewrite (bind_pure (mapM _ _) _ m l)
        by (apply expansion_stops_on_all, D).
      rewrite bind_ret_l, (IH Hl). by rewrite app_assoc.
    + rewrite bool_decide_eq_false_2 by (intros [? ?]; discriminate).
      cbv beta iota. rewrite bind_ret_l. apply (IH Hl).
Qed.

(** X15. The listing of executions at depth zero or below asks the
    activity service once and answers with the embedded arrays of the
    activities it returned, concatenated in the order of the activities;
    an activity without an embedded array adds nothing.
    get_activity_executions is that listing with the empty filter at
    depth zero, every execution turned into a basic execution object. *)
Theorem listing_of_executions_concatenates_embedded dataset_name (q : Dict)
    depth source m :
  depth <= 0 ->
  let asked (q : Dict) depth :=
    ActivityService_get_multiple dataset_name
      (ActivityExecutionServiceMongoDB.activity_query_of q) (depth - 1)
      Collections.ACTIVITY_EXECUTION
      (ActivityExecutionServiceMongoDB._get_activity_projection q) m in
  let call (q : Dict) depth :=
    ActivityGetMultiple dataset_name
      (ActivityExecutionServiceMongoDB.activity_query_of q) (depth - 1)
      Collections.ACTIVITY_EXECUTION
      (ActivityExecutionServiceMongoDB._get_activity_projection q) in
  (forallb lists_executions (asked q depth) = true ->
   ActivityExecutionServiceMongoDB.get_multiple scen dataset_name q depth
     source m
   = (Ok (concat (embedded_executions <$> asked q depth)), m,
      [call q depth]))
  /\ (forall found : list Dict,
        forallb lists_executions (asked ∅ 0) = true ->
        concat (embedded_executions <$> asked ∅ 0) = VDict <$> found ->
        ActivityExecutionServiceMongoDB.get_activity_executions scen
          dataset_name m
        = (Ok (VObj ActivityExecutionsOut
                 (<["activity_executions" :=
                      VList (VObj BasicActivityExecutionOut <$> found)]> ∅)),
           m, [call ∅ 0])).
Proof.
  intros D asked call.
  assert (forall q depth source,
            depth <= 0 ->
            forallb lists_executions (asked q depth) = true ->
            ActivityExecutionServiceMongoDB.get_multiple scen dataset_name q
              depth source m
            = (Ok (concat (embedded_executions <$> asked q depth)), m,
               [call q depth])) as Run.
  { clear. intros q depth source D Hl.
    unfold ActivityExecutionServiceMongoDB.get_multiple,
      activity_service.get_multiple.
    rewrite bind_query. fold (asked q depth) (call q depth).
    by rewrite (listing_fold _ _ _ _ _ D Hl []). }
  split.
  - by apply Run.
  - intros found Hl Ef.
    unfold ActivityExecutionServiceMongoDB.get_activity_executions.
    erewrite bind_Ok by (apply Run; [lia | exact Hl]).
    rewrite Ef.
    rewrite (bind_pure (mapM _ _) _ m
               (VObj BasicActivityExecutionOut <$> found)).
    + reflexivity.
    + clear. induction found as [|d found IH]; [reflexivity|].
      simpl. rewrite bind_ret_l. by rewrite (bind_pure _ _ m _ IH).
Qed.

(** X16. Whatever the depth, the source and the scenario service, the
    expansion of an execution record changes no field other than
    arrangement, experiments, participations and activity. *)
Theorem execution_expansion_keeps_stored_fields v dataset_name depth source
    activity m v' k :
  result (ActivityExecutionServiceMongoDB._add_related_documents scen v
            dataset_name depth source activity m) = Ok v' ->
  k <> "arrangement" -> k <> "experiments" -> k <> "participations" ->
  k <> "activity" ->
  field v' k = field v k.
Proof.
  intros E N1 N2 N3 N4. destruct (Z.gtb_spec depth 0) as [D|D].
  - apply activity_execution_hook_steps in E
      as (v1 & v2 & v3 & m1 & m2 & m3 & E1 & E2 & E3 & E4); [|lia].
    apply arrangement_step in E1 as [_ F1].
    apply experiments_step in E2 as [_ F2].
    apply participations_step in E3 as [_ F3].
    apply activity_step in E4 as [_ F4].
    by rewrite F4, F3, F2, F1.
  - rewrite activity_execution_hook_stops in E by lia.
    by injection E as <-.
Qed.

(** X17. The expansion of an execution record at a depth above zero,
    asked from a source that is none of its relations, when the scenario
    service answers without touching storage. In this order: the
    arrangement is fetched by its id unless that id is null, the
    scenarios of the execution are asked for with the depth as it is,
    and the participations are fetched by execution id; the arrangement
    and the participations one level shallower and tagged with the
    execution collection. The experiments of the scenarios, in their
    order, are put under experiments unless the scenario service
    answered with the sentinel, and the activity handed in is put under
    activity. *)
Theorem execution_expansion_attaches_relations (d : Dict) id rid
    dataset_name depth source activity m sv (cs : list Value) ls :
  depth > 0 ->
  source <> Collections.ARRANGEMENT -> source <> Collections.EXPERIMENT ->
  source <> Collections.PARTICIPATION -> source <> Collections.ACTIVITY ->
  d !! "id" = Some id ->
  d !! "arrangement_id" = Some rid ->
  scen id dataset_name depth true m = (Ok sv, m, ls) ->
  type_is sv NotFoundByIdModel = true
  \/ (sv = VList cs /\ forallb is_obj cs = true) ->
  let d1 :=
    if is_None rid then d
    else <["arrangement" :=
             ArrangementService_get_single_dict rid dataset_name (depth - 1)
               Collections.ACTIVITY_EXECUTION m]> d in
  let d2 :=
    if type_is sv NotFoundByIdModel then d1
    else <["experiments" :=
             VList ((fun c => attr c "experiment") <$> cs)]> d1 in
  let participations :=
    ParticipationService_get_multiple dataset_name
      (<["activity_execution_id" := id]> ∅) (depth - 1)
      Collections.ACTIVITY_EXECUTION m in
  ActivityExecutionServiceMongoDB._add_related_documents scen (VDict d)
    dataset_name depth source activity m
  = (Ok (VDict (<["activity" := activity]>
                  (<["participations" := VList participations]> d2))),
     m,
     ((if is_None rid then []
       else [ArrangementGetSingleDict rid dataset_name (depth - 1)
               Collections.ACTIVITY_EXECUTION])
      ++ ls
      ++ [ParticipationGetMultiple dataset_name
            (<["activity_execution_id" := id]> ∅) (depth - 1)
            Collections.ACTIVITY_EXECUTION])%list).
Proof.
  intros D Na Ne Np Nc Ei Er Es Hs d1 d2 participations.
  unfold ActivityExecutionServiceMongoDB._add_related_documents.
  destruct (Z.gtb_spec depth 0) as [_|]; [|lia].
  assert (ActivityExecutionServiceMongoDB._add_related_arrangement (VDict d)
            dataset_name depth source m
          = (Ok (VDict d1), m,
             if is_None rid then []
             else [ArrangementGetSingleDict rid dataset_name (depth - 1)
                     Collections.ACTIVITY_EXECUTION])) as E1.
  { unfold ActivityExecutionServiceMongoDB._add_related_arrangement.
    rewrite (bind_pure _ _ m rid) by (unfold getitem; by rewrite Er).
    rewrite bool_decide_eq_true_2 by exact Na. subst d1.
    destruct (is_None rid); reflexivity. }
  assert (d1 !! "id" = Some id) as Ei1.
  { subst d1. destruct (is_None rid); [exact Ei|].
    by rewrite lookup_insert_ne. }
  assert (ActivityExecutionServiceMongoDB._add_related_experiments scen
            (VDict d1) dataset_name depth source m
          = (Ok (VDict d2), m, ls)) as E2.
  { unfold ActivityExecutionServiceMongoDB._add_related_experiments.
    destruct (Z.leb_spec depth 0) as [|_]; [lia|].
    rewrite bool_decide_eq_false_2 by exact Ne. cbn [orb].
    rewrite (bind_pure _ _ m id) by (unfold getitem; by rewrite Ei1).
    erewrite bind_Ok by exact Es. subst d2.
    destruct Hs as [->|[-> Ho]].
    - unfold ret. by rewrite app_nil_r.
    - cbn [type_is].
      rewrite (bind_pure (as_list _) _ m cs) by reflexivity.
      rewrite (bind_pure (mapM _ _) _ m
                 ((fun c => attr c "experiment") <$> cs)).
      + unfold setitem, ret. by rewrite app_nil_r.
      + clear -Ho. induction cs as [|c cs IH]; [reflexivity|].
        simpl in Ho. apply andb_true_iff in Ho as [Hc Ho].
        destruct c; try discriminate. simpl.
        rewrite bind_ret_l. by rewrite (bind_pure _ _ m _ (IH Ho)). }
  assert (d2 !! "id" = Some id) as Ei2.
  { subst d2. destruct (type_is sv NotFoundByIdModel); [exact Ei1|].
    by rewrite lookup_insert_ne. }
  assert (ActivityExecutionServiceMongoDB._add_related_participations
            (VDict d2) dataset_name depth source m
          = (Ok (VDict (<["participations" := VList participations]> d2)),
             m,
             [ParticipationGetMultiple dataset_name
                (<["activity_execution_id" := id]> ∅) (depth - 1)
                Collections.ACTIVITY_EXECUTION])) as E3.
  { unfold ActivityExecutionServiceMongoDB._add_related_participations.
    destruct (decide (source ≠ Collections.PARTICIPATION)) as [_|N];
      [|by destruct N].
    rewrite (bind_pure _ _ m id) by (unfold getitem; by rewrite Ei2).
    unfold participation_service.get_multiple. rewrite bind_query.
    reflexivity. }
  erewrite bind_Ok by exact E1. erewrite bind_Ok by exact E2.
  erewrite bind_Ok by exact E3.
  unfold ActivityExecutionServiceMongoDB._add_activity.
  destruct (decide (source ≠ Collections.ACTIVITY)) as [_|N];
    [|by destruct N].
  unfold setitem, ret. by rewrite app_nil_r.
Qed.
End Executions.

(** X18. The filter on execution fields is turned into a filter on the
    embedded array of the activities: every entry of the filter is found
    under its key prefixed with the name of the array and a dot, and the
    rewritten filter has no other entry. *)
Theorem activity_query_addresses_embedded_fields (q : Dict) :
  (forall k,
     ActivityExecutionServiceMongoDB.activity_query_of q
       !! String.append "activity_executions." k = q !! k)
  /\ (forall j v,
        ActivityExecutionServiceMongoDB.activity_query_of q !! j = Some v ->
        exists k, j = String.append "activity_executions." k
                  /\ q !! k = Some v).
Proof.
  assert (ActivityExecutionServiceMongoDB.activity_query_of q
          = kmap (String.append "activity_executions.") q) as ->.
  { unfold ActivityExecutionServiceMongoDB.activity_query_of, kmap.
    reflexivity. }
  split.
  - intros k. apply (lookup_kmap _).
  - intros j v E. by apply (lookup_kmap_Some _) in E.
Qed.


Lemma read_of_execution_takes_first_embedded_witness :
  @ActivityExecutionServiceMongoDB.get_single_dict Reference.environment
    Reference.scenarios_of (VStr "nope") "ds" 0 "" Reference.db1
  = (Raised InvalidId, Reference.db1, [])
  /\ @ActivityExecutionServiceMongoDB.get_single_dict Reference.environment
       Reference.scenarios_of (VInt 7) "ds" 0 "" Reference.db1
     = (Raised TypeError, Reference.db1, [])
  /\ result (@ActivityExecutionServiceMongoDB.get_single_dict
               Reference.environment Reference.scenarios_of
               (VStr Reference.id_none) "ds" 0 "" Reference.db1)
     = Ok (execution_sentinel (VStr Reference.id_none)).
Proof.
  split; [|split].
  - apply (proj1 (@read_of_execution_takes_first_embedded
                    Reference.environment Reference.scenarios_of
                    (VStr "nope") "ds" 0 "" Reference.db1)).
    reflexivity.
  - apply (proj1 (@read_of_execution_takes_first_embedded
                    Reference.environment Reference.scenarios_of
                    (VInt 7) "ds" 0 "" Reference.db1)).
    reflexivity.
  - rewrite (proj1 (proj2 (@read_of_execution_takes_first_embedded
                             Reference.environment Reference.scenarios_of
                             (VStr Reference.id_none) "ds" 0 ""
                             Reference.db1)
                      (VStr Reference.id_none) eq_refl)).
    + reflexivity.
    + vm_compute. reflexivity.
Defined.

Lemma delete_activity_execution_checks_existence_witness :
  @ActivityExecutionServiceMongoDB.delete_activity_execution
    Reference.environment Reference.scenarios_of (VStr "nope") "ds"
    Reference.db1
  = (Raised InvalidId, Reference.db1, [])
  /\ result (@ActivityExecutionServiceMongoDB.delete_activity_execution
               Reference.environment Reference.scenarios_of
               (VStr Reference.id_none) "ds" Reference.db1)
     = Ok (execution_sentinel (VStr Reference.id_none)).
Proof.
  split.
  - apply (proj1 (@delete_activity_execution_checks_existence
                    Reference.environment Reference.scenarios_of
                    (VStr "nope") "ds" Reference.db1)).
    reflexivity.
  - rewrite (proj1 (proj2 (@delete_activity_execution_checks_existence
                             Reference.environment Reference.scenarios_of
                             (VStr Reference.id_none) "ds" Reference.db1)
                      (VStr Reference.id_none) eq_refl)).
    + reflexivity.
    + vm_compute. reflexivity.
Defined.

Lemma save_activity_execution_hands_over_valid_payload_witness :
  calls (@ActivityExecutionServiceMongoDB.save_activity_execution
           Reference.environment
           (Reference.execution_in (VStr "act1") VNone) "ds" Reference.db1)
  = [ActivityGetActivity (VStr "act1") "ds";
     ArrangementGetArrangement VNone "ds";
     ActivityAddActivityExecution
       (Reference.execution_in (VStr "act1") VNone) "ds"].
Proof.
  unfold Reference.execution_in.
  rewrite (@save_activity_execution_hands_over_valid_payload
             Reference.environment ActivityExecutionIn _ "ds"
             Reference.db1).
  - vm_compute. reflexivity.
  - right. vm_compute. reflexivity.
  - left. vm_compute. reflexivity.
Defined.

Lemma listing_of_executions_concatenates_embedded_witness :
  result (@ActivityExecutionServiceMongoDB.get_multiple
            Reference.environment Reference.scenarios_of "ds" ∅ 0 ""
            Reference.db1)
  = Ok [Reference.execution Reference.id_a (VStr "arr1");
        Reference.execution Reference.id_b VNone;
        Reference.execution Reference.id_c VNone;
        Reference.execution Reference.id_d VNone].
Proof.
  rewrite (proj1 (@listing_of_executions_concatenates_embedded
                    Reference.environment Reference.scenarios_of "ds" ∅ 0 ""
                    Reference.db1 ltac:(lia))).
  - vm_compute. reflexivity.
  - vm_compute. reflexivity.
Defined.

(** ** The scenario service *)

Lemma remove_first_split (x : Value) (l l' : list Value) :
  remove_first x l = Some l' ->
  exists pre post, l = (pre ++ x :: post)%list /\ (x ∉ pre)
                   /\ l' = (pre ++ post)%list.
Proof.
  revert l'. induction l as [|y l IH]; intros l'; simpl; [discriminate|].
  destruct (decide (y = x)) as [->|N].
  - intros [= <-]. exists [], l. split; [reflexivity|].
    split; [apply not_elem_of_nil | reflexivity].
  - destruct (remove_first x l) as [l0|]; [|discriminate].
    intros [= <-]. destruct (IH l0 eq_refl) as (pre & post & -> & Np & ->).
    exists (y :: pre), post. split; [reflexivity|].
    split; [|reflexivity]. apply not_elem_of_cons. split; [congruence|exact Np].
Qed.

Section Scenarios.
Context `{Environment}.
Import mongo_api_service.

(** X19. delete_activity_execution of the scenario service, on an id
    that some stored scenario holds. The first scenario that holds the
    id is hydrated and read as a ScenarioOut: when the schema refuses it
    the operation raises ValidationError and writes nothing. When the
    schema admits it, the stored scenario loses the first occurrence of
    the id and keeps the rest of its sequence in order; that update is
    the only write; the execution itself is not deleted, it is read
    after the write and returned. *)
Theorem detach_removes_first_occurrence_only a dataset_name m (sd : Dict)
    rest sid e ids (sd' : Dict) :
  let r := scenario_service.delete_activity_execution a dataset_name m in
  activity_service_ok ->
  NoDup (id_of <$> scenarios m dataset_name) ->
  List.filter (matches (<["activity_executions" := a]> ∅))
    (scenarios m dataset_name) = VDict sd :: rest ->
  stored_scenario sd sid e ids ->
  result (scenario_service._change_ids_to_objects (VDict sd) dataset_name 0
            m) = Ok (VDict sd') ->
  (accepts ScenarioOut sd' = false ->
     result r = Raised ValidationError
     /\ db r = m
     /\ Forall (fun call => is_write call = false) (calls r))
  /\ exists ids' pre post,
       remove_first a ids = Some ids'
       /\ ids = (pre ++ a :: post)%list /\ (a ∉ pre)
       /\ ids' = (pre ++ post)%list
       /\ let detached :=
            VDict (<["activity_executions" := VList ids']> sd) in
          let m' :=
            <[(dataset_name, Collections.SCENARIO) :=
                replace_id sid detached (scenarios m dataset_name)]> m in
          accepts ScenarioOut sd' = true ->
          is_id a = true ->
          db r = m'
          /\ List.filter is_write (calls r)
             = [MongoUpdateDocumentWithDict Collections.SCENARIO sid
                  detached dataset_name]
          /\ result r
             = result (activity_execution_service.get_activity_execution a
                         dataset_name 0 "" m').
Proof.
  intros r ok N Ef (Sid & Se & Si) Eh.
  destruct (scenario_by_activity_execution_found a dataset_name m sd rest
              sd' Ef Eh) as (Eid & l1 & Es & W1).
  split.
  { intros Eacc. rewrite Eacc in Es.
    assert (r = (Raised ValidationError, m, l1)) as ->.
    { subst r. unfold scenario_service.delete_activity_execution,
        ScenarioServiceMongoDB.delete_activity_execution.
      fold scenario_service.get_scenario_by_activity_execution.
      erewrite bind_Raised by exact Es. reflexivity. }
    repeat split. exact W1. }
  destruct (filter_head _ _ _ _ Ef) as [Hm I].
  destruct (remove_first_member a ids (matches_array _ _ _ _ Hm Si))
    as [ids' Er].
  destruct (remove_first_split _ _ _ Er) as (pre & post & Ei & Np & Ep).
  exists ids', pre, post. split; [exact Er|]. split; [exact Ei|].
  split; [exact Np|]. split; [exact Ep|].
  intros detached m' Eacc Ia. rewrite Eacc in Es.
  rewrite Sid in Eid.
  pose proof (find_by_id_of_member _ sd sid N I Sid) as Efind.
  destruct (get_activity_execution_returns ok a dataset_name "" m' Ia)
    as (v & l2 & Eg & _).
  pose proof (reads_wired_get_activity_execution a dataset_name 0 "" m')
    as [_ W2].
  rewrite Eg in W2. unfold calls in W2. simpl in W2.
  assert (r = (Ok v, m',
               (l1 ++ [MongoGetDocument sid Collections.SCENARIO dataset_name]
                ++ [MongoUpdateDocumentWithDict Collections.SCENARIO sid
                      detached dataset_name] ++ l2)%list)) as ->.
  { subst r. unfold scenario_service.delete_activity_execution,
      ScenarioServiceMongoDB.delete_activity_execution.
    fold scenario_service.get_scenario_by_activity_execution.
    erewrite bind_Ok by exact Es.
    cbn [type_is]. rewrite bool_decide_eq_false_2 by discriminate.
    rewrite (bind_pure (getattr _ _) _ m sid)
      by (unfold getattr; rewrite Eid; reflexivity).
    unfold ScenarioServiceMongoDB.get_scenario_dict_by_scenario_id,
      get_document.
    erewrite (bind_Ok (query _ _)) by reflexivity.
    fold (scenarios m dataset_name). rewrite Efind.
    rewrite (bind_pure (getitem _ _) _ m (VList ids))
      by (unfold getitem; rewrite Si; reflexivity).
    rewrite (bind_pure (as_list _) _ m ids) by reflexivity.
    rewrite (bind_pure (list_remove _ _) _ m ids')
      by (unfold list_remove; rewrite Er; reflexivity).
    rewrite (bind_pure (setitem _ _ _) _ m detached) by reflexivity.
    unfold update_document_with_dict.
    erewrite (bind_Ok (command _ _)) by reflexivity.
    fold (scenarios m dataset_name). fold m'.
    fold activity_execution_service.get_activity_execution.
    rewrite Eg. reflexivity. }
  unfold db, calls, result. simpl. split; [reflexivity|]. split.
  - rewrite !List.filter_app. simpl.
    rewrite (filter_no_write l1 W1), (filter_no_write l2 W2). reflexivity.
  - by rewrite Eg.
Qed.

Lemma scenario_by_activity_execution_unassigned
    (get_ae : Value -> string -> Z -> string -> M Value)
    x dataset_name depth multiple m :
  List.filter (matches (<["activity_executions" := x]> ∅))
    (scenarios m dataset_name) = [] ->
  ScenarioServiceMongoDB.get_scenario_by_activity_execution get_ae x
    dataset_name depth multiple m
  = (Ok (unassigned_execution x), m,
     [MongoGetDocuments Collections.SCENARIO dataset_name
        (<["activity_executions" := x]> ∅)]).
Proof.
  intros Ef.
  unfold ScenarioServiceMongoDB.get_scenario_by_activity_execution.
  erewrite bind_Ok by apply scenario_get_multiple_run.
  rewrite Ef. reflexivity.
Qed.

Lemma scenario_by_experiment_unassigned
    (get_ae : Value -> string -> Z -> string -> M Value)
    x dataset_name depth m :
  List.filter (matches (<["experiment_id" := x]> ∅))
    (scenarios m dataset_name) = [] ->
  ScenarioServiceMongoDB.get_scenario_by_experiment get_ae x dataset_name
    depth m
  = (Ok (unassigned_experiment x), m,
     [MongoGetDocuments Collections.SCENARIO dataset_name
        (<["experiment_id" := x]> ∅)]).
Proof.
  intros Ef. unfold ScenarioServiceMongoDB.get_scenario_by_experiment.
  erewrite bind_Ok by apply scenario_get_multiple_run.
  rewrite Ef. reflexivity.
Qed.

(** X20. A lookup of the scenario of an id that no stored scenario
    holds, by execution or by experiment: one filtered read of the
    scenarios, no hydration, and the sentinel with the id comes back;
    delete_activity_execution hands that sentinel on and writes
    nothing. This is so whatever the activity execution service is. *)
Theorem scenario_lookup_of_unassigned_id
    (get_ae : Value -> string -> Z -> string -> M Value)
    x dataset_name depth multiple m :
  let by_execution : Dict := <["activity_executions" := x]> ∅ in
  let by_experiment : Dict := <["experiment_id" := x]> ∅ in
  (List.filter (matches by_execution) (scenarios m dataset_name) = [] ->
   ScenarioServiceMongoDB.get_scenario_by_activity_execution get_ae x
     dataset_name depth multiple m
   = (Ok (unassigned_execution x), m,
      [MongoGetDocuments Collections.SCENARIO dataset_name by_execution])
   /\ ScenarioServiceMongoDB.delete_activity_execution get_ae x dataset_name
        m
      = (Ok (unassigned_execution x), m,
         [MongoGetDocuments Collections.SCENARIO dataset_name by_execution]))
  /\ (List.filter (matches by_experiment) (scenarios m dataset_name) = [] ->
      ScenarioServiceMongoDB.get_scenario_by_experiment get_ae x
        dataset_name depth m
      = (Ok (unassigned_experiment x), m,
         [MongoGetDocuments Collections.SCENARIO dataset_name
            by_experiment])).
Proof.
  intros by_execution by_experiment. split.
  - intros Ef. split.
    + by apply scenario_by_activity_execution_unassigned.
    + unfold ScenarioServiceMongoDB.delete_activity_execution.
      erewrite bind_Ok
        by (by apply scenario_by_activity_execution_unassigned).
      reflexivity.
  - intros Ef. by apply scenario_by_experiment_unassigned.
Qed.

(** X21. An insertion after an element that resolves but belongs to no
    scenario writes nothing and returns the sentinel of the lookup. The
    element is tried as an experiment first; only when it is no
    experiment is it read as an execution. *)
Theorem insertion_after_unassigned_element_writes_nothing
    (get_ae : Value -> string -> Z -> string -> M Value)
    previous_id x dataset_name m :
  let experiment :=
    ExperimentService_get_experiment previous_id dataset_name 0 "" m in
  let by_execution : Dict := <["activity_executions" := previous_id]> ∅ in
  let by_experiment : Dict := <["experiment_id" := previous_id]> ∅ in
  let r :=
    ScenarioServiceMongoDB._put_activity_execution_after_element get_ae
      previous_id x dataset_name m in
  (type_is experiment NotFoundByIdModel = false ->
   List.filter (matches by_experiment) (scenarios m dataset_name) = [] ->
   r = (Ok (unassigned_experiment previous_id), m,
        [ExperimentGetExperiment previous_id dataset_name 0 "";
         MongoGetDocuments Collections.SCENARIO dataset_name by_experiment]))
  /\ (forall v l,
        type_is experiment NotFoundByIdModel = true ->
        get_ae previous_id dataset_name 0 "" m = (Ok v, m, l) ->
        type_is v NotFoundByIdModel = false ->
        List.filter (matches by_execution) (scenarios m dataset_name) = [] ->
        r = (Ok (unassigned_execution previous_id), m,
             (ExperimentGetExperiment previous_id dataset_name 0 "" :: l
              ++ [MongoGetDocuments Collections.SCENARIO dataset_name
                    by_execution])%list)).
Proof.
  intros experiment by_execution by_experiment r. subst r.
  unfold ScenarioServiceMongoDB._put_activity_execution_after_element,
    ScenarioServiceMongoDB.get_scenario_by_element_id,
    experiment_service.get_experiment.
  rewrite bind_assoc, bind_query. fold experiment.
  split.
  - intros Et Ef. rewrite Et. cbn [negb].
    rewrite bind_assoc.
    erewrite bind_Ok
      by (by apply scenario_by_experiment_unassigned).
    reflexivity.
  - intros v l Et Eg Ev Ef. rewrite Et. cbn [negb].
    rewrite bind_assoc. erewrite bind_Ok by exact Eg.
    rewrite Ev. cbn [negb]. rewrite bind_assoc.
    erewrite bind_Ok
      by (by apply scenario_by_activity_execution_unassigned).
    reflexivity.
Qed.

(** X22. save_scenario on a payload whose experiment_id is not null and
    does not resolve: the error output is returned after the one lookup
    of the experiment; no execution is saved and no scenario is
    created, whatever the activity execution service is. *)
Theorem save_scenario_rejects_unknown_experiment
    (save : Value -> string -> M Value) c (d : Dict) dataset_name m :
  let scenario := VObj c d in
  let experiment_id := attr scenario "experiment_id" in
  experiment_id <> VNone ->
  type_is (ExperimentService_get_experiment experiment_id dataset_name 0 ""
             m) NotFoundByIdModel = true ->
  ScenarioServiceMongoDB.save_scenario save scenario dataset_name m
  = (Ok (with_errors ScenarioOut "given experiment does not exist"), m,
     [ExperimentGetExperiment experiment_id dataset_name 0 ""]).
Proof.
  intros scenario experiment_id N U.
  unfold ScenarioServiceMongoDB.save_scenario.
  rewrite (bind_pure _ _ m experiment_id) by reflexivity.
  unfold experiment_service.get_experiment. rewrite bind_query, U.
  destruct (is_None experiment_id) eqn:En; [|reflexivity].
  by apply is_None_true in En.
Qed.

(** Reads made one after the other on the same database. *)
Lemma mapM_of_reads {A : Type} (f : Value -> M A) (l : list Value)
    (objects : list A) m :
  (forall x, reads (f x)) ->
  Forall2 (fun x object => result (f x m) = Ok object) l objects ->
  exists log,
    mapM f l m = (Ok objects, m, log)
    /\ Forall (fun call => is_write call = false) log.
Proof.
  intros R F. induction F as [|x object l objects Ex F IH].
  - exists []. split; [reflexivity | constructor].
  - destruct IH as (log & El & Wl).
    destruct (reads_run _ m (R x)) as (r & l0 & E0 & W0).
    rewrite E0 in Ex. unfold result in Ex. simpl in Ex. subst r.
    exists (l0 ++ log ++ [])%list. split.
    + simpl. erewrite bind_Ok by exact E0.
      erewrite bind_Ok by exact El. reflexivity.
    + rewrite app_nil_r. by apply Forall_app_2.
Qed.

(** X23. The hydration of a stored scenario, when each of its execution
    ids can be read: the stored ids are replaced, one for one and in
    their order, by the executions read at the depth lowered by one but
    never below zero, tagged with the execution collection; then the
    experiment is fetched at that same depth, tagged with the experiment
    collection, and put under experiment. The other fields, among them
    experiment_id, stay, and nothing is written. *)
Theorem hydration_resolves_each_id_in_order
    (get_ae : Value -> string -> Z -> string -> M Value)
    (sd : Dict) ids e (objects : list Value) dataset_name depth m :
  let inner := Z.max (depth - 1) 0 in
  (forall id ds d s, reads (get_ae id ds d s)) ->
  sd !! "activity_executions" = Some (VList ids) ->
  sd !! "experiment_id" = Some e ->
  Forall2 (fun id object =>
             result (get_ae id dataset_name inner
                       Collections.ACTIVITY_EXECUTION m) = Ok object)
    ids objects ->
  exists log,
    ScenarioServiceMongoDB._change_ids_to_objects get_ae (VDict sd)
      dataset_name depth m
    = (Ok (VDict
             (<["experiment" :=
                  ExperimentService_get_experiment e dataset_name inner
                    Collections.EXPERIMENT m]>
                (<["activity_executions" := VList objects]> sd))),
       m,
       (log ++ [ExperimentGetExperiment e dataset_name inner
                  Collections.EXPERIMENT])%list)
    /\ Forall (fun call => is_write call = false) log
    /\ length objects = length ids
    /\ 0 <= inner.
Proof.
  intros inner R Ei Ee F.
  destruct (mapM_of_reads
              (fun id => get_ae id dataset_name inner
                           Collections.ACTIVITY_EXECUTION)
              ids objects m (fun id => R id _ _ _) F) as (log & El & Wl).
  exists log. split; [|split; [exact Wl|split]].
  - by apply (change_ids_to_objects_run get_ae sd ids).
  - symmetry. by eapply Forall2_length.
  - lia.
Qed.
End Scenarios.

Lemma execution_expansion_keeps_stored_fields_witness :
  exists v',
    result (Reference.expand_unassigned "") = Ok v'
    /\ field v' "arrangement_id" = Some (VStr "arr1").
Proof.
  eexists. split; [vm_compute; reflexivity|].
  rewrite (@execution_expansion_keeps_stored_fields Reference.strict
             (@scenario_service.get_scenario_by_activity_execution
                Reference.strict)
             Reference.execution_a "ds" 1 "" Reference.activity1
             Reference.db0 _ "arrangement_id").
  - reflexivity.
  - vm_compute. reflexivity.
  - discriminate.
  - discriminate.
  - discriminate.
  - discriminate.
Defined.

Lemma execution_expansion_attaches_relations_witness :
  calls (Reference.expand_unassigned "")
  = [ArrangementGetSingleDict (VStr "arr1") "ds" 0
       Collections.ACTIVITY_EXECUTION;
     MongoGetDocuments Collections.SCENARIO "ds"
       (<["activity_executions" := VStr Reference.id_a]> ∅);
     ParticipationGetMultiple "ds"
       (<["activity_execution_id" := VStr Reference.id_a]> ∅) 0
       Collections.ACTIVITY_EXECUTION].
Proof.
  assert (List.filter
            (mongo_api_service.matches
               (<["activity_executions" := VStr Reference.id_a]> ∅))
            (scenarios Reference.db0 "ds") = []) as Ef
    by (vm_compute; reflexivity).
  exact (f_equal calls
           (@execution_expansion_attaches_relations Reference.strict
              (@scenario_service.get_scenario_by_activity_execution
                 Reference.strict)
              (list_to_map [("id", VStr Reference.id_a);
                            ("arrangement_id", VStr "arr1")])
              (VStr Reference.id_a) (VStr "arr1") "ds" 1 ""
              Reference.activity1 Reference.db0
              (unassigned_execution (VStr Reference.id_a)) []
              [MongoGetDocuments Collections.SCENARIO "ds"
                 (<["activity_executions" := VStr Reference.id_a]> ∅)]
              ltac:(lia) ltac:(discriminate) ltac:(discriminate)
              ltac:(discriminate) ltac:(discriminate)
              eq_refl eq_refl
              (scenario_by_activity_execution_unassigned _ _ _ _ _ _ Ef)
              (or_introl eq_refl))).
Defined.


(** X24. The read operations of the services as the application wires
    them leave the database as it is and record no write, at every depth
    and from every source: the read of an execution, the lookups of a
    scenario by execution, by experiment and by element, the hydration
    of a scenario, and the reads of measures. *)
Theorem service_reads_leave_storage_alone `{Environment} :
  (forall id dataset_name depth source,
     reads (activity_execution_service.get_activity_execution id
              dataset_name depth source))
  /\ (forall id dataset_name depth multiple,
        reads (scenario_service.get_scenario_by_activity_execution id
                 dataset_name depth multiple))
  /\ (forall id dataset_name depth,
        reads (scenario_service.get_scenario_by_experiment id dataset_name
                 depth))
  /\ (forall id dataset_name depth,
        reads (scenario_service.get_scenario_by_element_id id dataset_name
                 depth))
  /\ (forall scenario dataset_name depth,
        reads (scenario_service._change_ids_to_objects scenario
                 dataset_name depth))
  /\ (forall id dataset_name depth source,
        reads (MeasureServiceMongoDB.get_measure id dataset_name depth
                 source))
  /\ (forall dataset_name q,
        reads (MeasureServiceMongoDB.get_measures dataset_name q)).
Proof.
  assert (forall a b c d,
            reads (activity_execution_service.get_activity_execution a b c
                     d)) as Ra
    by (intros; apply reads_wired_get_activity_execution).
  assert (forall v ds d s,
            reads (MeasureServiceMongoDB._add_related_documents v ds d s))
    as Rm.
  { intros v ds d s.
    unfold MeasureServiceMongoDB._add_related_documents,
      MeasureServiceMongoDB._add_related_time_series,
      MeasureServiceMongoDB._add_related_measure_name,
      time_series_service.get_multiple,
      measure_name_service.get_single_dict.
    reads_auto. }
  split; [|split; [|split; [|split; [|split; [|split]]]]].
  - intros. apply Ra.
  - intros. by apply reads_scenario_by_activity_execution.
  - intros. by apply reads_scenario_by_experiment.
  - intros. by apply reads_scenario_by_element_id.
  - intros. by apply reads_change_ids_to_objects.
  - intros. by apply reads_mixin_get_single.
  - intros. unfold MeasureServiceMongoDB.get_measures.
    apply reads_bind; [by apply reads_mixin_get_multiple|]. intros l.
    reads_auto.
Qed.

(** ** Reordering *)

Lemma matches_of_member (key : string) (x : Value) (sd : Dict)
    (ids : list Value) :
  sd !! key = Some (VList ids) -> x ∈ ids ->
  mongo_api_service.matches (<[key := x]> ∅) (VDict sd) = true.
Proof.
  intros Ek I. unfold mongo_api_service.matches.
  apply bool_decide_eq_true. apply map_Forall_insert_2.
  - unfold mongo_api_service.field_matches. rewrite Ek.
    by apply bool_decide_eq_true.
  - apply map_Forall_empty.
Qed.

Lemma filter_replace_id_head (f : Value -> bool) (docs : list Value)
    (sd : Dict) rest sid new :
  List.filter f docs = VDict sd :: rest ->
  sd !! "id" = Some sid -> f new = true ->
  exists rest',
    List.filter f (mongo_api_service.replace_id sid new docs) = new :: rest'.
Proof.
  intros Ef Sid Hn. induction docs as [|d docs IH]; [discriminate|].
  rewrite replace_id_cons. simpl in *. destruct (f d) eqn:Ed.
  - injection Ef as -> _. unfold mongo_api_service.has_id.
    rewrite bool_decide_eq_true_2 by exact Sid. rewrite Hn. eauto.
  - destruct (mongo_api_service.has_id sid d).
    + rewrite Hn. eauto.
    + rewrite Ed. by apply IH.
Qed.

Lemma id_of_replace_id sid new docs :
  id_of new = Some sid ->
  id_of <$> mongo_api_service.replace_id sid new docs = id_of <$> docs.
Proof.
  intros En. induction docs as [|d docs IH]; [reflexivity|].
  rewrite replace_id_cons, !fmap_cons, IH. f_equal.
  destruct (mongo_api_service.has_id sid d) eqn:Ed; [|reflexivity].
  rewrite En. symmetry. by apply has_id_id_of.
Qed.

Lemma replace_id_twice sid new1 new2 docs :
  mongo_api_service.has_id sid new1 = true ->
  mongo_api_service.replace_id sid new2
    (mongo_api_service.replace_id sid new1 docs)
  = mongo_api_service.replace_id sid new2 docs.
Proof.
  intros H1. induction docs as [|d docs IH]; [reflexivity|].
  rewrite !replace_id_cons, IH. f_equal.
  destruct (mongo_api_service.has_id sid d) eqn:Ed.
  - by rewrite H1.
  - by rewrite Ed.
Qed.

(** X25. change_order of an execution after another execution of the
    same scenario. Both steps read the scenario as a ScenarioOut first:
    when the schema refuses the hydrated scenario in the remove step,
    ValidationError is raised and nothing is written. When the schema
    admits the scenario in both steps, the moved id is first taken out
    of the sequence, at its first occurrence; the position is then
    counted in the sequence without it, and the id is put back right
    after the first occurrence of the previous id. The scenario ends up
    with that sequence, the other scenarios are untouched, the two
    updates of the scenario are the only writes and the empty
    order-change output is returned. *)
Theorem change_order_moves_after_previous `{Environment}
    (c : PyClass) (d : Dict) (dataset_name : string) (m : Mongo)
    (sd : Dict) (rest rest2 : list Value) (sid e : Value)
    (ids : list Value) (sd' : Dict) :
  let request := VObj c d in
  let a := attr request "activity_execution_id" in
  let previous_id := attr request "previous_id" in
  let held_by x :=
    List.filter
      (mongo_api_service.matches (<["activity_executions" := x]> ∅))
      (scenarios m dataset_name) in
  let r := scenario_service.change_order request dataset_name m in
  activity_service_ok ->
  NoDup (id_of <$> scenarios m dataset_name) ->
  a <> previous_id ->
  held_by a = VDict sd :: rest ->
  held_by previous_id = VDict sd :: rest2 ->
  stored_scenario sd sid e ids ->
  result (scenario_service._change_ids_to_objects (VDict sd) dataset_name 0
            m) = Ok (VDict sd') ->
  (accepts ScenarioOut sd' = false ->
     result r = Raised ValidationError
     /\ db r = m
     /\ Forall (fun call => is_write call = false) (calls r))
  /\ (accepts ScenarioOut sd' = true ->
      is_id a = true ->
      exists ids' i,
        remove_first a ids = Some ids'
        /\ index_of previous_id ids' = Some i
        /\ let with_sequence l :=
             VDict (<["activity_executions" := VList l]> sd) in
           let detached := with_sequence ids' in
           let moved := with_sequence (list_insert_at (S i) a ids') in
           let m1 :=
             <[(dataset_name, Collections.SCENARIO) :=
                 mongo_api_service.replace_id sid detached
                   (scenarios m dataset_name)]> m in
           forall sd1' : Dict,
           result (scenario_service._change_ids_to_objects detached
                     dataset_name 0 m1) = Ok (VDict sd1') ->
           accepts ScenarioOut sd1' = true ->
           type_is (ExperimentService_get_experiment previous_id
                      dataset_name 0 "" m1) NotFoundByIdModel = true ->
           (exists v,
              result (activity_execution_service.get_activity_execution
                        previous_id dataset_name 0 "" m1) = Ok v
              /\ type_is v NotFoundByIdModel = false) ->
           result r = Ok (VObj OrderChangeOut ∅)
           /\ db r
              = <[(dataset_name, Collections.SCENARIO) :=
                    mongo_api_service.replace_id sid moved
                      (scenarios m dataset_name)]> m
           /\ List.filter is_write (calls r)
              = [MongoUpdateDocumentWithDict Collections.SCENARIO sid
                   detached dataset_name;
                 MongoUpdateDocumentWithDict Collections.SCENARIO sid moved
                   dataset_name]).
Proof.
  intros request a previous_id held_by r ok N Na Ef Ef2 S Eh.
  split.
  { intros Eacc.
    destruct (delete_activity_execution_refused a dataset_name m sd rest
                sd' Ef Eh Eacc) as (l & Ed & W).
    assert (r = (Raised ValidationError, m, l)) as ->.
    { subst r. unfold scenario_service.change_order,
        ScenarioServiceMongoDB.change_order.
      rewrite (bind_pure (getattr _ _) _ m a) by reflexivity.
      rewrite (bind_pure (getattr _ _) _ m previous_id) by reflexivity.
      rewrite decide_False by exact Na.
      fold scenario_service.delete_activity_execution.
      erewrite bind_Raised by exact Ed. reflexivity. }
    repeat split. exact W. }
  intros Eacc Ia.
  destruct (delete_activity_execution_run ok a dataset_name m sd rest sid e
              ids sd' N Ia Ef S Eh Eacc) as (ids' & v0 & l & Er & Ed & Wd).
  destruct (remove_first_split _ _ _ Er) as (pre & post & Ei & Np & Ep0).
  destruct S as (Sid & Se & Si).
  destruct (filter_head _ _ _ _ Ef2) as [Hm2 I2].
  pose proof (matches_array _ _ _ _ Hm2 Si) as Ip.
  assert (previous_id ∈ ids') as Ip'.
  { rewrite Ep0. rewrite Ei in Ip. apply elem_of_app in Ip as [Ip|Ip].
    - apply elem_of_app. by left.
    - apply elem_of_cons in Ip as [Ip|Ip]; [congruence|].
      apply elem_of_app. by right. }
  destruct (index_of_member _ _ Ip') as [i Ex].
  exists ids', i. split; [exact Er|]. split; [exact Ex|].
  clear pre post Ei Np Ep0.
  intros with_sequence detached moved m1 sd1' Eh1 Eacc1 Et (v & Ea & Ev).
  set (sd1 := <["activity_executions" := VList ids']> sd).
  assert (sd1 !! "id" = Some sid) as Sid1
    by (unfold sd1; by rewrite lookup_insert_ne).
  assert (sd1 !! "activity_executions" = Some (VList ids'))
    as Si1 by (unfold sd1; by rewrite lookup_insert_eq).
  assert (scenarios m1 dataset_name
          = mongo_api_service.replace_id sid detached
              (scenarios m dataset_name)) as Es1
    by apply scenarios_after_write.
  assert (NoDup (id_of <$> scenarios m1 dataset_name)) as N1.
  { rewrite Es1, id_of_replace_id; [exact N|]. exact Sid1. }
  destruct (filter_replace_id_head
              (mongo_api_service.matches
                 (<["activity_executions" := previous_id]> ∅))
              (scenarios m dataset_name) sd rest2 sid detached Ef2 Sid
              (matches_of_member _ _ _ _ Si1 Ip')) as [rest' Ef1].
  rewrite <- Es1 in Ef1.
  destruct (filter_head _ _ _ _ Ef1) as [_ I1].
  destruct (scenario_by_activity_execution_found previous_id
              dataset_name m1 sd1 rest' sd1' Ef1 Eh1)
    as (Eid & l1 & Es & W1).
  rewrite Eacc1 in Es. rewrite Sid1 in Eid.
  destruct (get_activity_execution_type _ _ _ _ _ Ea) as [Tv|Tv];
    [congruence|].
  apply get_activity_execution_run in Ea as (l0 & Eg0 & W0).
  pose proof (element_is_execution previous_id dataset_name m1 v l0 _ _
                Et Eg0 Ev Es) as Eg.
  pose proof (find_by_id_of_member _ sd1 sid N1 I1 Sid1) as Efind.
  pose proof (put_after_element_run previous_id a dataset_name m1 sd1' v _
                sid sd1 _ (S i) Eg Eid Efind Si1) as Ep.
  rewrite (type_is_exclusive _ _ ExperimentOut Tv ltac:(discriminate)) in Ep.
  specialize (Ep ltac:(eauto)). cbv zeta in Ep.
  assert (VDict (<["activity_executions" :=
                     VList (list_insert_at (S i) a ids')]> sd1)
          = moved) as Em
    by (unfold sd1, moved, with_sequence; by rewrite insert_insert_eq).
  rewrite Em in Ep.
  assert (r = (Ok (VObj OrderChangeOut ∅),
               <[(dataset_name, Collections.SCENARIO) :=
                   mongo_api_service.replace_id sid moved
                     (scenarios m dataset_name)]> m,
               (l ++ ((ExperimentGetExperiment previous_id dataset_name 0 ""
                         :: l0 ++ l1 ++ [])
                      ++ [MongoGetDocument sid Collections.SCENARIO
                            dataset_name;
                          MongoUpdateDocumentWithDict Collections.SCENARIO
                            sid moved dataset_name]) ++ [])%list)) as ->.
  { subst r. unfold scenario_service.change_order,
      ScenarioServiceMongoDB.change_order.
    rewrite (bind_pure (getattr _ _) _ m a) by reflexivity.
    rewrite (bind_pure (getattr _ _) _ m previous_id) by reflexivity.
    rewrite decide_False by exact Na.
    fold scenario_service.delete_activity_execution.
    erewrite bind_Ok by exact Ed.
    fold scenario_service._put_activity_execution_after_element.
    fold detached m1. erewrite bind_Ok by exact Ep.
    unfold ret. do 2 f_equal.
    rewrite Es1. unfold m1. rewrite insert_insert_eq.
    rewrite replace_id_twice; [reflexivity|].
    unfold detached, with_sequence, mongo_api_service.has_id.
    by apply bool_decide_eq_true. }
  unfold result, db, calls. simpl.
  split; [reflexivity|]. split; [reflexivity|].
  rewrite !List.filter_app, Wd. simpl. rewrite !List.filter_app.
  rewrite (filter_no_write l0 W0), (filter_no_write l1 W1). reflexivity.
Qed.

Lemma read_d_run :
  @activity_execution_service.get_activity_execution Reference.environment
    (VStr Reference.id_d) "ds" 0 "" Reference.db1
  = (Ok read_d_value, Reference.db1, calls read_d).
Proof.
  apply read_as_triple.
  - apply reads_wired_get_activity_execution.
  - vm_compute. reflexivity.
Qed.

(** Taking b out of the scenario a, b, c: refused under the schema that
    refuses the hydrated scenario, done under the one that admits it. *)
Lemma detach_removes_first_occurrence_only_witness :
  (result detach_b_strict = Raised ValidationError
   /\ db detach_b_strict = Reference.db1)
  /\ sequence_of <$> scenarios (db detach_b) "ds"
     = [[VStr Reference.id_a; VStr Reference.id_c]].
Proof.
  pose (sd := list_to_map
                [("id", VStr "s1"); ("experiment_id", VStr "exp1");
                 ("activity_executions",
                  VList [VStr Reference.id_a; VStr Reference.id_b;
                         VStr Reference.id_c])] : Dict).
  assert (NoDup (id_of <$> scenarios Reference.db1 "ds")) as N
    by (apply (bool_decide_eq_true_1 _); vm_compute; reflexivity).
  assert (stored_scenario sd (VStr "s1") (VStr "exp1")
            [VStr Reference.id_a; VStr Reference.id_b; VStr Reference.id_c])
    as S by (repeat split; vm_compute; reflexivity).
  split.
  - edestruct (@detach_removes_first_occurrence_only Reference.strict
                 (VStr Reference.id_b) "ds" Reference.db1 sd []
                 (VStr "s1") (VStr "exp1")
                 [VStr Reference.id_a; VStr Reference.id_b;
                  VStr Reference.id_c])
      as (T & _).
    + apply reference_activities_ok_under.
    + exact N.
    + vm_compute. reflexivity.
    + exact S.
    + vm_compute. reflexivity.
    + destruct T as (R & D & _); [vm_compute; reflexivity|].
      split; [exact R | exact D].
  - edestruct (@detach_removes_first_occurrence_only Reference.environment
                 (VStr Reference.id_b) "ds" Reference.db1 sd []
                 (VStr "s1") (VStr "exp1")
                 [VStr Reference.id_a; VStr Reference.id_b;
                  VStr Reference.id_c])
      as (_ & ids' & pre & post & Er & _ & _ & _ & T).
    + apply reference_activities_ok.
    + exact N.
    + vm_compute. reflexivity.
    + exact S.
    + vm_compute. reflexivity.
    + vm_compute in Er. injection Er as <-.
      destruct T as (D & _); [reflexivity | reflexivity |].
      unfold detach_b. rewrite D. vm_compute. reflexivity.
Defined.

Lemma scenario_lookup_of_unassigned_id_witness :
  result (@scenario_service.get_scenario_by_activity_execution
            Reference.environment (VStr Reference.id_d) "ds" 2 true Reference.db1)
  = Ok (unassigned_execution (VStr Reference.id_d)).
Proof.
  destruct (@scenario_lookup_of_unassigned_id Reference.environment
              (@activity_execution_service.get_activity_execution
                 Reference.environment)
              (VStr Reference.id_d) "ds" 2 true Reference.db1) as [E _].
  destruct E as [E _]; [vm_compute; reflexivity|].
  unfold scenario_service.get_scenario_by_activity_execution.
  rewrite E. reflexivity.
Defined.

Lemma insertion_after_unassigned_element_writes_nothing_witness :
  result (Reference.put_x_after (VStr Reference.id_d))
  = Ok (unassigned_execution (VStr Reference.id_d)).
Proof.
  destruct (@insertion_after_unassigned_element_writes_nothing
              Reference.environment
              (@activity_execution_service.get_activity_execution
                 Reference.environment)
              (VStr Reference.id_d) (VStr Reference.id_x) "ds" Reference.db1) as [_ E].
  unfold Reference.put_x_after,
    scenario_service._put_activity_execution_after_element.
  rewrite (E read_d_value (calls read_d)).
  - reflexivity.
  - vm_compute. reflexivity.
  - exact read_d_run.
  - vm_compute. reflexivity.
  - vm_compute. reflexivity.
Defined.

Lemma save_scenario_rejects_unknown_experiment_witness :
  result (@scenario_service.save_scenario Reference.environment
            (Reference.scenario_in (VStr "ghost") []) "ds" Reference.db1)
  = Ok (with_errors ScenarioOut "given experiment does not exist").
Proof.
  unfold scenario_service.save_scenario, Reference.scenario_in.
  rewrite (@save_scenario_rejects_unknown_experiment Reference.environment).
  - reflexivity.
  - vm_compute. discriminate.
  - vm_compute. reflexivity.
Defined.

Lemma hydration_resolves_each_id_in_order_witness :
  exists v,
    result Reference.hydrate_s1 = Ok v
    /\ field v "activity_executions"
       = Some (VList [execution_object Reference.id_a (VStr "arr1");
                      execution_object Reference.id_b VNone;
                      execution_object Reference.id_c VNone]).
Proof.
  destruct (@hydration_resolves_each_id_in_order Reference.environment
              (@activity_execution_service.get_activity_execution
                 Reference.environment)
              (list_to_map
                 [("id", VStr "s1"); ("experiment_id", VStr "exp1");
                  ("activity_executions",
                   VList [VStr Reference.id_a; VStr Reference.id_b; VStr Reference.id_c])])
              [VStr Reference.id_a; VStr Reference.id_b; VStr Reference.id_c] (VStr "exp1")
              [execution_object Reference.id_a (VStr "arr1");
               execution_object Reference.id_b VNone;
               execution_object Reference.id_c VNone]
              "ds" 0 Reference.db1) as (log & E & _).
  - intros. apply reads_wired_get_activity_execution.
  - vm_compute. reflexivity.
  - vm_compute. reflexivity.
  - repeat constructor; vm_compute; reflexivity.
  - eexists. split.
    + unfold Reference.hydrate_s1, scenario_service._change_ids_to_objects,
        Reference.stored_s1, Reference.scenario, Reference.rec.
      rewrite E. reflexivity.
    + vm_compute. reflexivity.
Defined.

(** Moving a behind c in the scenario a, b, c: refused under the schema
    that refuses the hydrated scenario, done under the one that admits
    it. *)
Lemma change_order_moves_after_previous_witness :
  (result move_a_after_c_strict = Raised ValidationError
   /\ db move_a_after_c_strict = Reference.db1)
  /\ result move_a_after_c = Ok (VObj OrderChangeOut ∅)
  /\ sequence_of <$> scenarios (db move_a_after_c) "ds"
     = [[VStr Reference.id_b; VStr Reference.id_c; VStr Reference.id_a]].
Proof.
  pose (sd := list_to_map
                [("id", VStr "s1"); ("experiment_id", VStr "exp1");
                 ("activity_executions",
                  VList [VStr Reference.id_a; VStr Reference.id_b;
                         VStr Reference.id_c])] : Dict).
  pose (request := list_to_map
                     [("activity_execution_id", VStr Reference.id_a);
                      ("previous_id", VStr Reference.id_c)] : Dict).
  assert (NoDup (id_of <$> scenarios Reference.db1 "ds")) as N
    by (apply (bool_decide_eq_true_1 _); vm_compute; reflexivity).
  assert (stored_scenario sd (VStr "s1") (VStr "exp1")
            [VStr Reference.id_a; VStr Reference.id_b; VStr Reference.id_c])
    as S by (repeat split; vm_compute; reflexivity).
  split.
  - edestruct (@change_order_moves_after_previous Reference.strict
                 OrderChangeIn request "ds" Reference.db1 sd [] []
                 (VStr "s1") (VStr "exp1")
                 [VStr Reference.id_a; VStr Reference.id_b;
                  VStr Reference.id_c])
      as (T & _).
    + apply reference_activities_ok_under.
    + exact N.
    + vm_compute. discriminate.
    + vm_compute. reflexivity.
    + vm_compute. reflexivity.
    + exact S.
    + vm_compute. reflexivity.
    + destruct T as (R & D & _); [vm_compute; reflexivity|].
      split; [exact R | exact D].
  - edestruct (@change_order_moves_after_previous Reference.environment
                 OrderChangeIn request "ds" Reference.db1 sd [] []
                 (VStr "s1") (VStr "exp1")
                 [VStr Reference.id_a; VStr Reference.id_b;
                  VStr Reference.id_c])
      as (_ & T).
    + apply reference_activities_ok.
    + exact N.
    + vm_compute. discriminate.
    + vm_compute. reflexivity.
    + vm_compute. reflexivity.
    + exact S.
    + vm_compute. reflexivity.
    + destruct T as (ids' & i & Er & Ex & T); [reflexivity | reflexivity |].
      vm_compute in Er. injection Er as <-.
      vm_compute in Ex. injection Ex as <-.
      edestruct T as (R & D & _).
      * vm_compute. reflexivity.
      * reflexivity.
      * vm_compute. reflexivity.
      * eexists. split; vm_compute; reflexivity.
      * split; [exact R|].
        unfold move_a_after_c, Reference.order_change.
        unfold request in D. rewrite D. vm_compute. reflexivity.
Defined.

(** ** Updates and insertions that go through *)

(** X26. update_activity_execution on an id that resolves to an
    execution, with a patch of fields the out class declares: the
    fields of the patch are copied over the execution that was read,
    the others stay, and the result in plain form goes to the activity
    service's update, whose answer and database are the outcome. *)
Theorem update_activity_execution_merges_patch `{Environment}
    (scen : Value -> string -> Z -> bool -> M Value)
    (id : Value) (c : PyClass) (patch existing : Dict)
    (dataset_name : string) (m : Mongo) (l : list Call) :
  ActivityExecutionServiceMongoDB.get_activity_execution scen id
    dataset_name 0 "" m = (Ok (VObj ActivityExecutionOut existing), m, l) ->
  (forall f, is_Some (patch !! f) ->
             declares ActivityExecutionOut f = true) ->
  let merged := VDict (to_plain <$> ((to_plain <$> patch) ∪ existing)) in
  let out :=
    ActivityService_update_activity_execution id merged dataset_name m in
  ActivityExecutionServiceMongoDB.update_activity_execution scen id
    (VObj c patch) dataset_name m
  = (Ok out.1, out.2,
     (l ++ [ActivityUpdateActivityExecution id merged dataset_name])%list).
Proof.
  intros Eg Hd merged out.
  unfold ActivityExecutionServiceMongoDB.update_activity_execution.
  erewrite bind_Ok by exact Eg.
  rewrite (bind_pure (dict_of _) _ m (VDict (to_plain <$> patch)))
    by reflexivity.
  rewrite (bind_pure (items _) _ m (map_to_list (to_plain <$> patch)))
    by reflexivity.
  rewrite (bind_pure (setattr_all _ _) _ m
             (VObj ActivityExecutionOut ((to_plain <$> patch) ∪ existing))).
  - rewrite (bind_pure (dict_of _) _ m merged) by reflexivity.
    unfold activity_service.update_activity_execution, command, invoke.
    fold out. destruct out as [x m']. reflexivity.
  - apply setattr_all_patch. intros f. rewrite lookup_fmap.
    intros I. apply Hd. by apply fmap_is_Some in I.
Qed.

(** X27. add_activity_execution does not look at what the save
    returned. When the payload is rejected (an activity or arrangement
    that is given and does not resolve) and the previous id is an
    experiment with a scenario, the insertion goes on with the id the
    error output lacks, null. It reads the scenario as a ScenarioOut:
    when the schema refuses the hydrated scenario, ValidationError is
    raised and nothing is written; when the schema admits it (an empty
    scenario, say), the error output of the save is returned and null
    is written at the head of the sequence of that scenario. *)
Theorem add_activity_execution_inserts_null_for_rejected_payload
    `{Environment} (previous_id : Value) (c : PyClass) (d : Dict)
    (dataset_name : string) (m : Mongo) (sd : Dict) (rest : list Value)
    (sid e : Value) (ids : list Value) (sd' : Dict) :
  let payload := VObj c d in
  NoDup (id_of <$> scenarios m dataset_name) ->
  relation_unresolved payload dataset_name m ->
  type_is (ExperimentService_get_experiment previous_id dataset_name 0 "" m)
    ExperimentOut = true ->
  List.filter
    (mongo_api_service.matches (<["experiment_id" := previous_id]> ∅))
    (scenarios m dataset_name) = VDict sd :: rest ->
  stored_scenario sd sid e ids ->
  result (scenario_service._change_ids_to_objects (VDict sd) dataset_name 0
            m) = Ok (VDict sd') ->
  let r :=
    scenario_service.add_activity_execution previous_id payload
      dataset_name m in
  let written :=
    VDict (<["activity_executions" := VList (VNone :: ids)]> sd) in
  (accepts ScenarioOut sd' = false ->
     result r = Raised ValidationError
     /\ db r = m
     /\ Forall (fun call => is_write call = false) (calls r))
  /\ (accepts ScenarioOut sd' = true ->
      (exists msg, result r = Ok (with_errors ActivityExecutionOut msg))
      /\ db r
         = <[(dataset_name, Collections.SCENARIO) :=
               mongo_api_service.replace_id sid written
                 (scenarios m dataset_name)]> m
      /\ List.filter is_write (calls r)
         = [MongoUpdateDocumentWithDict Collections.SCENARIO sid written
              dataset_name]).
Proof.
  intros payload N Hu Et Ef (Sid & Se & Si) Eh r written.
  destruct (save_activity_execution_rejects c d dataset_name m Hu)
    as (msg & l0 & Es & W0).
  destruct (filter_head _ _ _ _ Ef) as [_ I].
  destruct (scenario_by_experiment_found previous_id dataset_name m sd
              rest sd' Ef Eh) as (Eid & l1 & Eb & W1).
  rewrite Sid in Eid.
  pose proof (type_is_exclusive _ _ NotFoundByIdModel Et
                ltac:(discriminate)) as En.
  split; intros Eacc; rewrite Eacc in Eb.
  - pose proof (element_is_experiment_raised previous_id dataset_name m _ _
                  En Eb) as Eg.
    pose proof (put_after_element_raised previous_id VNone dataset_name m
                  _ _ Eg) as Ep.
    assert (r = (Raised ValidationError, m,
                 (l0 ++ ExperimentGetExperiment previous_id dataset_name 0
                          "" :: l1)%list)) as ->.
    { subst r. unfold scenario_service.add_activity_execution,
        ScenarioServiceMongoDB.add_activity_execution.
      unfold activity_execution_service.save_activity_execution.
      erewrite bind_Ok by exact Es.
      rewrite (bind_pure (getattr _ _) _ m VNone) by reflexivity.
      fold scenario_service._put_activity_execution_after_element.
      erewrite bind_Raised by exact Ep. reflexivity. }
    repeat split. unfold calls. simpl. nowrites.
  - pose proof (element_is_experiment previous_id dataset_name m _ _
                  En Eb) as Eg.
    pose proof (find_by_id_of_member _ sd sid N I Sid) as Efind.
    pose proof (put_after_element_run previous_id VNone dataset_name m sd'
                  _ _ sid sd ids 0%nat Eg Eid Efind Si) as Ep.
    rewrite Et in Ep. specialize (Ep eq_refl). cbv zeta in Ep.
    change (list_insert_at 0 VNone ids) with (VNone :: ids) in Ep.
    fold written in Ep.
    assert (r = (Ok (with_errors ActivityExecutionOut msg),
                 <[(dataset_name, Collections.SCENARIO) :=
                     mongo_api_service.replace_id sid written
                       (scenarios m dataset_name)]> m,
                 (l0 ++ ((ExperimentGetExperiment previous_id dataset_name
                            0 "" :: l1 ++ [])
                         ++ [MongoGetDocument sid Collections.SCENARIO
                               dataset_name;
                             MongoUpdateDocumentWithDict
                               Collections.SCENARIO sid written
                               dataset_name]) ++ [])%list)) as ->.
    { subst r. unfold scenario_service.add_activity_execution,
        ScenarioServiceMongoDB.add_activity_execution.
      unfold activity_execution_service.save_activity_execution.
      erewrite bind_Ok by exact Es.
      rewrite (bind_pure (getattr _ _) _ m VNone) by reflexivity.
      fold scenario_service._put_activity_execution_after_element.
      erewrite bind_Ok by exact Ep. reflexivity. }
    unfold result, db, calls. simpl.
    split; [eauto|]. split; [reflexivity|].
    rewrite !List.filter_app. simpl. rewrite !List.filter_app.
    rewrite (filter_no_write l0 W0), (filter_no_write l1 W1). reflexivity.
Qed.

(** ** The dataset service *)

Lemma matches_everything (doc : Value) :
  mongo_api_service.matches ∅ doc = is_dict doc.
Proof.
  destruct doc; reflexivity.
Qed.

(** X28. The dataset service works on the collection of datasets of the
    configured database and expands nothing. get_datasets returns the
    stored records, as dicts, in storage order; get_dataset returns the
    record with the id as a dataset object, or the sentinel;
    delete_dataset returns the record as it was and removes it. Each
    makes one read, the delete one write after it. *)
Theorem dataset_service_addresses_configured_database
    (mongo_database_name : string) (id : Value) (m : Mongo) :
  let docs :=
    mongo_api_service.collection m mongo_database_name Collections.DATASET in
  let lookup :=
    MongoGetDocument id Collections.DATASET mongo_database_name in
  DatasetServiceMongoDB.get_datasets mongo_database_name m
  = (Ok (List.filter is_dict docs), m,
     [MongoGetDocuments Collections.DATASET mongo_database_name ∅])
  /\ (List.find (mongo_api_service.has_id id) docs = None ->
      DatasetServiceMongoDB.get_dataset mongo_database_name id m
      = (Ok (gateway_sentinel id), m, [lookup]))
  /\ (forall d : Dict,
        List.find (mongo_api_service.has_id id) docs = Some (VDict d) ->
        DatasetServiceMongoDB.get_dataset mongo_database_name id m
        = (Ok (VObj DatasetOut d), m, [lookup])
        /\ DatasetServiceMongoDB.delete_dataset mongo_database_name id m
           = (Ok (VObj DatasetOut d),
              <[(mongo_database_name, Collections.DATASET) :=
                  List.filter
                    (fun doc => negb (mongo_api_service.has_id id doc))
                    docs]> m,
              [lookup;
               MongoDeleteDocument (VObj DatasetOut d)
                 mongo_database_name])).
Proof.
  intros docs lookup. split; [|split].
  - unfold DatasetServiceMongoDB.get_datasets,
      GenericMongoServiceMixin.get_multiple.
    rewrite (bind_pure _ _ m Collections.DATASET) by reflexivity.
    unfold mongo_api_service.get_documents. rewrite bind_query.
    fold docs.
    change (mapM _ ?l m) with (mapM (fun x => ret x) l m).
    rewrite mapM_ret.
    rewrite (List.filter_ext _ is_dict matches_everything). reflexivity.
  - intros Ef. unfold DatasetServiceMongoDB.get_dataset.
    by apply get_single_of_missing.
  - intros d Ef. split.
    + unfold DatasetServiceMongoDB.get_dataset.
      by apply get_single_of_stored.
    + unfold DatasetServiceMongoDB.delete_dataset.
      by apply delete_of_stored_run.
Qed.

Lemma update_activity_execution_merges_patch_witness :
  result (@ActivityExecutionServiceMongoDB.update_activity_execution
            Reference.environment Reference.scenarios_of (VStr Reference.id_a)
            (VObj ActivityExecutionPropertyIn
               (list_to_map [("additional_properties", VStr "p")]))
            "ds" Reference.db1)
  = Ok (VObj ActivityExecutionOut
          (list_to_map [("id", VStr Reference.id_a); ("arrangement_id", VStr "arr1");
                        ("additional_properties", VStr "p")])).
Proof.
  rewrite (@update_activity_execution_merges_patch Reference.environment
             Reference.scenarios_of (VStr Reference.id_a) ActivityExecutionPropertyIn
             (list_to_map [("additional_properties", VStr "p")])
             (list_to_map [("id", VStr Reference.id_a);
                           ("arrangement_id", VStr "arr1")])
             "ds" Reference.db1 _ eq_refl (fun _ _ => eq_refl)).
  vm_compute. reflexivity.
Defined.

(** The rejected payload added behind the experiment, under the schema
    that refuses a scenario whose sequence holds executions: the empty
    scenario gets null as its only element; with the scenario a, b, c
    the operation raises and nothing is written. *)
Lemma add_activity_execution_inserts_null_for_rejected_payload_witness :
  sequence_of <$> scenarios (db (add_ghost_after_exp1 Reference.db0)) "ds"
  = [[VNone]]
  /\ result (add_ghost_after_exp1 Reference.db1) = Raised ValidationError
  /\ db (add_ghost_after_exp1 Reference.db1) = Reference.db1.
Proof.
  pose (payload := list_to_map [("activity_id", VStr "ghost");
                                ("arrangement_id", VNone)] : Dict).
  split.
  - edestruct (@add_activity_execution_inserts_null_for_rejected_payload
                 Reference.strict (VStr "exp1") ActivityExecutionIn payload
                 "ds" Reference.db0
                 (list_to_map
                    [("id", VStr "s0"); ("experiment_id", VStr "exp1");
                     ("activity_executions", VList [])])
                 [] (VStr "s0") (VStr "exp1") [])
      as (_ & T).
    + apply (bool_decide_eq_true_1 _). vm_compute. reflexivity.
    + left. split; [vm_compute; discriminate | vm_compute; reflexivity].
    + vm_compute. reflexivity.
    + vm_compute. reflexivity.
    + repeat split; vm_compute; reflexivity.
    + vm_compute. reflexivity.
    + destruct T as (_ & D & _); [vm_compute; reflexivity|].
      unfold add_ghost_after_exp1, Reference.execution_in.
      unfold payload in D. rewrite D. vm_compute. reflexivity.
  - edestruct (@add_activity_execution_inserts_null_for_rejected_payload
                 Reference.strict (VStr "exp1") ActivityExecutionIn payload
                 "ds" Reference.db1
                 (list_to_map
                    [("id", VStr "s1"); ("experiment_id", VStr "exp1");
                     ("activity_executions",
                      VList [VStr Reference.id_a; VStr Reference.id_b;
                             VStr Reference.id_c])])
                 [] (VStr "s1") (VStr "exp1")
                 [VStr Reference.id_a; VStr Reference.id_b;
                  VStr Reference.id_c])
      as (T & _).
    + apply (bool_decide_eq_true_1 _). vm_compute. reflexivity.
    + left. split; [vm_compute; discriminate | vm_compute; reflexivity].
    + vm_compute. reflexivity.
    + vm_compute. reflexivity.
    + repeat split; vm_compute; reflexivity.
    + vm_compute. reflexivity.
    + destruct T as (R & D & _); [vm_compute; reflexivity|].
      split; [exact R | exact D].
Defined.

Lemma dataset_service_addresses_configured_database_witness :
  DatasetServiceMongoDB.get_dataset "main" (VStr "other") datasets_db
  = (Ok (VObj DatasetOut (list_to_map [("id", VStr "other")])), datasets_db,
     [MongoGetDocument (VStr "other") Collections.DATASET "main"]).
Proof.
  apply (proj2 (proj2 (dataset_service_addresses_configured_database "main"
                         (VStr "other") datasets_db))).
  vm_compute. reflexivity.
Defined.

Lemma activity_query_addresses_embedded_fields_witness :
  ActivityExecutionServiceMongoDB.activity_query_of
    (<["id" := VStr Reference.id_a]> ∅) !! "activity_executions.id"
  = Some (VStr Reference.id_a).
Proof.
  exact (eq_trans
           (proj1 (activity_query_addresses_embedded_fields
                     (<["id" := VStr Reference.id_a]> ∅)) "id")
           eq_refl).
Defined.

Lemma service_reads_leave_storage_alone_witness :
  db Reference.read_s1 = Reference.db1.
Proof.
  destruct (@service_reads_leave_storage_alone Reference.environment)
    as (_ & _ & R & _).
  exact (proj1 (R (VStr "exp1") "ds" 0 Reference.db1)).
Defined.
